(** * Expertbase-Builder: a shallow embedding and its verified properties

    The development follows the three modules of the package
    [expertbase_builder]:
    - [orcid_aggregator.py]: registry client and employment resolver,
    - [expert.py]: the lookup-id resolver and the [Expert] class,
    - [expertbase.py]: the [ExpertBase] cache, its CSV merge and its
      (de)serialisation.

    Python values are JSON-shaped trees ([value]); a Python [dict] is an
    association list kept in insertion order with unique keys; exceptions
    are the [Raise] branch of [result].  Network services and the calendar
    are inputs: a registry or lookup service is a function from the request
    to the response it gives, [today] is a parameter.  Text is carried as
    [string], a character outside ASCII as its UTF-8 bytes.  White space
    is that of [str.isspace], and the characters of a text are its code
    points; the classes alphanumeric and cased and the case mappings are
    those of ASCII, and the properties that depend on them are stated for
    ASCII text; [int] reads a numeral written in ASCII.  JSON numbers are
    integers. *)

From stdpp Require Import base option list strings.
From Stdlib Require Import Ascii ZArith Lia.

Local Open Scope string_scope.
Local Open Scope Z_scope.

(** ** Exceptions and the error monad *)

Inductive exn : Type :=
  | KeyError | IndexError | TypeError | ValueError | AttributeError
  | StopIteration | RequestException | JSONDecodeError.

Inductive result (A : Type) : Type :=
  | Ok (a : A)
  | Raise (e : exn).
Arguments Ok {A} a.
Arguments Raise {A} e.

#[global] Instance result_ret : MRet result := fun A a => Ok a.
#[global] Instance result_bind : MBind result := fun A B f m =>
  match m with
  | Ok a => f a
  | Raise e => Raise e
  end.
#[global] Instance result_fmap : FMap result := fun A B f m =>
  match m with
  | Ok a => Ok (f a)
  | Raise e => Raise e
  end.

(** [for x in l: s = body(s, x)], stopping at the first exception. *)
Fixpoint for_each {A S : Type} (body : S -> A -> result S) (l : list A) (s : S)
  : result S :=
  match l with
  | [] => Ok s
  | x :: l' => s' ← body s x; for_each body l' s'
  end.

(** [[f(x) for x in l]], stopping at the first exception. *)
Fixpoint map_each {A B : Type} (f : A -> result B) (l : list A) : result (list B) :=
  match l with
  | [] => Ok []
  | x :: l' => y ← f x; ys ← map_each f l'; Ok (y :: ys)
  end.

(** ** Python dictionaries: insertion-ordered association lists *)

Definition dict (A : Type) : Type := list (string * A).

Fixpoint dict_get {A : Type} (k : string) (d : dict A) : option A :=
  match d with
  | [] => None
  | (k', v) :: d' => if String.eqb k k' then Some v else dict_get k d'
  end.

(** [d[k] = v]: an existing key keeps its position, a new key goes last. *)
Fixpoint dict_set {A : Type} (k : string) (v : A) (d : dict A) : dict A :=
  match d with
  | [] => [(k, v)]
  | (k', v') :: d' =>
      if String.eqb k k' then (k', v) :: d' else (k', v') :: dict_set k v d'
  end.

Definition dict_keys {A : Type} (d : dict A) : list string := d.*1.
Definition dict_values {A : Type} (d : dict A) : list A := d.*2.

Definition dict_mem {A : Type} (k : string) (d : dict A) : bool :=
  match dict_get k d with Some _ => true | None => false end.

(** [dict(pairs)]: later pairs overwrite earlier ones. *)
Definition dict_of_pairs {A : Type} (ps : list (string * A)) : dict A :=
  fold_left (fun d p => dict_set p.1 p.2 d) ps [].

(** ** Python values *)

#[warnings="-register-all"]
Inductive value : Type :=
  | VNone
  | VBool (b : bool)
  | VInt (z : Z)
  | VStr (s : string)
  | VList (l : list value)
  | VDict (d : list (string * value)).

(** Truth value of an object, as tested by [if x], [x or y], [not x]. *)
Definition truthy (v : value) : bool :=
  match v with
  | VNone => false
  | VBool b => b
  | VInt z => negb (z =? 0)
  | VStr s => negb (String.eqb s "")
  | VList l => match l with [] => false | _ => true end
  | VDict d => match d with [] => false | _ => true end
  end.

Definition py_or (a b : value) : value := if truthy a then a else b.

Definition is_none (v : value) : bool :=
  match v with VNone => true | _ => false end.

(** [v.get(k, default)]: only a dict has the method. *)
Definition py_get (v : value) (k : string) (dflt : value) : result value :=
  match v with
  | VDict d => Ok (default dflt (dict_get k d))
  | _ => Raise AttributeError
  end.

Definition one_char (c : ascii) : string := String c "".

(** [v[k]] with a string key. *)
Definition getitem_str (v : value) (k : string) : result value :=
  match v with
  | VDict d => match dict_get k d with Some x => Ok x | None => Raise KeyError end
  | _ => Raise TypeError
  end.

(** [v[i]] with a non-negative integer index. *)
Definition getitem_int (v : value) (i : nat) : result value :=
  match v with
  | VList l => match l !! i with Some x => Ok x | None => Raise IndexError end
  | VStr s => match String.get i s with
              | Some c => Ok (VStr (one_char c))
              | None => Raise IndexError
              end
  | VDict _ => Raise KeyError
  | _ => Raise TypeError
  end.

(** A continuation byte of a UTF-8 sequence, 80 .. BF. *)
Definition is_continuation (c : ascii) : bool :=
  (128 <=? nat_of_ascii c)%nat && (nat_of_ascii c <=? 191)%nat.

(** The characters of a text, as iteration over a [str] yields them: a
    byte starts a character unless it is a continuation byte. *)
Fixpoint chars (s : string) : list string :=
  match s with
  | EmptyString => []
  | String c s' =>
      let starts_inside :=
        match s' with
        | String c' _ => is_continuation c'
        | EmptyString => false
        end in
      match chars s' with
      | g :: gs =>
          if starts_inside then String c g :: gs else one_char c :: g :: gs
      | [] => [one_char c]
      end
  end.

(** The items a [for] loop sees. *)
Definition py_iter (v : value) : result (list value) :=
  match v with
  | VList l => Ok l
  | VDict d => Ok (VStr <$> dict_keys d)
  | VStr s => Ok (VStr <$> chars s)
  | _ => Raise TypeError
  end.

(** ** Strings *)

Definition ascii_in (lo hi : nat) (c : ascii) : bool :=
  (lo <=? nat_of_ascii c)%nat && (nat_of_ascii c <=? hi)%nat.

(** [str.isspace] on ASCII: tab .. carriage return, the four separators
    FS .. US, and the blank. *)
Definition is_space (c : ascii) : bool :=
  ascii_in 9 13 c || ascii_in 28 32 c.

Definition is_digit (c : ascii) : bool := ascii_in 48 57 c.
Definition is_upper (c : ascii) : bool := ascii_in 65 90 c.
Definition is_lower (c : ascii) : bool := ascii_in 97 122 c.
Definition is_cased (c : ascii) : bool := is_upper c || is_lower c.
Definition is_alnum (c : ascii) : bool := is_digit c || is_cased c.

Definition to_lower (c : ascii) : ascii :=
  if is_upper c then ascii_of_nat (nat_of_ascii c + 32) else c.
Definition to_upper (c : ascii) : ascii :=
  if is_lower c then ascii_of_nat (nat_of_ascii c - 32) else c.

Fixpoint lower (s : string) : string :=
  match s with
  | EmptyString => EmptyString
  | String c s' => String (to_lower c) (lower s')
  end.

(** One white-space character, in its UTF-8 bytes.  [str.strip] removes
    the characters for which [str.isspace] holds: those of ASCII and
    U+0085, U+00A0 (C2 85, C2 A0), U+1680 (E1 9A 80), U+2000 .. U+200A,
    U+2028, U+2029, U+202F (E2 80 80 .. 8A, A8, A9, AF), U+205F
    (E2 81 9F) and U+3000 (E3 80 80). *)
Definition is_space_char (s : string) : bool :=
  match s with
  | String a EmptyString => is_space a
  | String a (String b EmptyString) =>
      (nat_of_ascii a =? 194)%nat
      && ((nat_of_ascii b =? 133)%nat || (nat_of_ascii b =? 160)%nat)
  | String a (String b (String c EmptyString)) =>
      ((nat_of_ascii a =? 225)%nat && (nat_of_ascii b =? 154)%nat
       && (nat_of_ascii c =? 128)%nat)
      || ((nat_of_ascii a =? 226)%nat && (nat_of_ascii b =? 128)%nat
          && (ascii_in 128 138 c || ascii_in 168 169 c
              || (nat_of_ascii c =? 175)%nat))
      || ((nat_of_ascii a =? 226)%nat && (nat_of_ascii b =? 129)%nat
          && (nat_of_ascii c =? 159)%nat)
      || ((nat_of_ascii a =? 227)%nat && (nat_of_ascii b =? 128)%nat
          && (nat_of_ascii c =? 128)%nat)
  | _ => false
  end.

Fixpoint lstrip (s : string) : string :=
  match s with
  | EmptyString => EmptyString
  | String a s1 =>
      if is_space_char (String a "") then lstrip s1
      else
        match s1 with
        | EmptyString => s
        | String b s2 =>
            if is_space_char (String a (String b "")) then lstrip s2
            else
              match s2 with
              | EmptyString => s
              | String c s3 =>
                  if is_space_char (String a (String b (String c "")))
                  then lstrip s3 else s
              end
        end
  end.

(** What is left of [String c s'] is [c] before what is left of [s'],
    unless that is one white-space character. *)
Fixpoint rstrip (s : string) : string :=
  match s with
  | EmptyString => EmptyString
  | String c s' =>
      let r := rstrip s' in
      if is_space_char (String c r) then EmptyString else String c r
  end.

Definition strip (s : string) : string := rstrip (lstrip s).

(** [s.lstrip] of the byte order mark U+FEFF, the bytes EF BB BF. *)
Fixpoint lstrip_bom (s : string) : string :=
  match s with
  | String a (String b (String c rest)) =>
      if (nat_of_ascii a =? 239)%nat && (nat_of_ascii b =? 187)%nat
         && (nat_of_ascii c =? 191)%nat
      then lstrip_bom rest else s
  | _ => s
  end.

Fixpoint contains_char (c : ascii) (s : string) : bool :=
  match s with
  | EmptyString => false
  | String c' s' => Ascii.eqb c c' || contains_char c s'
  end.

(** [s.split(c)] for a one-character separator: never empty. *)
Fixpoint split_on (c : ascii) (s : string) : list string :=
  match s with
  | EmptyString => [EmptyString]
  | String c' s' =>
      if Ascii.eqb c c' then EmptyString :: split_on c s'
      else match split_on c s' with
           | [] => [one_char c']
           | p :: ps => String c' p :: ps
           end
  end.

(** [s.replace(c, "")]. *)
Fixpoint remove_char (c : ascii) (s : string) : string :=
  match s with
  | EmptyString => EmptyString
  | String c' s' =>
      if Ascii.eqb c c' then remove_char c s' else String c' (remove_char c s')
  end.

(** [s.title()]: a cased character is upper-cased after an uncased one and
    lower-cased after a cased one. *)
Fixpoint title_from (previous_is_cased : bool) (s : string) : string :=
  match s with
  | EmptyString => EmptyString
  | String c s' =>
      String (if previous_is_cased then to_lower c else to_upper c)
             (title_from (is_cased c) s')
  end.

Definition title (s : string) : string := title_from false s.

(** [sep.join(l)]. *)
Fixpoint join (sep : string) (l : list string) : string :=
  match l with
  | [] => EmptyString
  | [x] => x
  | x :: l' => x ++ sep ++ join sep l'
  end.

(** ** [int(...)] *)

Definition digit_value (c : ascii) : Z := Z.of_nat (nat_of_ascii c) - 48.

(** Decimal digits, single underscores allowed between digits. *)
Fixpoint digits_value (s : string) (acc : Z) (after_digit : bool) : option Z :=
  match s with
  | EmptyString => if after_digit then Some acc else None
  | String c r =>
      if is_digit c then digits_value r (10 * acc + digit_value c) true
      else if Ascii.eqb c "_" && after_digit then
        match r with
        | String c' _ => if is_digit c' then digits_value r acc false else None
        | EmptyString => None
        end
      else None
  end.

(** The white space that [int] skips around an ASCII numeral: tab ..
    carriage return and the blank (not the separators FS .. US). *)
Definition is_blank (c : ascii) : bool :=
  ascii_in 9 13 c || (nat_of_ascii c =? 32)%nat.

Fixpoint lstrip_blank (s : string) : string :=
  match s with
  | EmptyString => EmptyString
  | String c s' => if is_blank c then lstrip_blank s' else s
  end.

Fixpoint rstrip_blank (s : string) : string :=
  match s with
  | EmptyString => EmptyString
  | String c s' =>
      let r := rstrip_blank s' in
      if String.eqb r "" && is_blank c then EmptyString else String c r
  end.

(** [int(s)] for a numeral written in ASCII; a text with a character
    outside ASCII is refused. *)
Definition int_of_string (s : string) : option Z :=
  match rstrip_blank (lstrip_blank s) with
  | String "-" r => Z.opp <$> digits_value r 0 false
  | String "+" r => digits_value r 0 false
  | r => digits_value r 0 false
  end.

Definition py_int (v : value) : result Z :=
  match v with
  | VInt z => Ok z
  | VBool b => Ok (if b then 1 else 0)
  | VStr s => match int_of_string s with Some z => Ok z | None => Raise ValueError end
  | _ => Raise TypeError
  end.

(** ** [datetime.date] *)

Record date : Type := Date { year : Z; month : Z; day : Z }.

Definition is_leap (y : Z) : bool :=
  (y mod 4 =? 0) && (negb (y mod 100 =? 0) || (y mod 400 =? 0)).

Definition days_in_month (y m : Z) : Z :=
  if m =? 2 then (if is_leap y then 29 else 28)
  else if (m =? 4) || (m =? 6) || (m =? 9) || (m =? 11) then 30
  else 31.

(** [date(y, m, d)] raises [ValueError] outside the calendar (for a year
    beyond the machine integers Python's exception is [OverflowError]). *)
Definition mk_date (y m d : Z) : result date :=
  if (1 <=? y) && (y <=? 9999) && (1 <=? m) && (m <=? 12)
     && (1 <=? d) && (d <=? days_in_month y m)
  then Ok (Date y m d) else Raise ValueError.

Definition date_gt (a b : date) : bool :=
  (year b <? year a)
  || ((year a =? year b)
      && ((month b <? month a)
          || ((month a =? month b) && (day b <? day a)))).

(** ** HTTP *)

(** What [requests.get] gives for one request: an exception of the
    [RequestException] family, or a response with its status code and its
    body, [None] when the body is not JSON. *)
Inductive response : Type :=
  | ConnectionFailed
  | Http (status_code : Z) (body : option value).

(** A parsed CSV file: the rows [csv.reader] yields. *)
Definition csv_file : Type := list (list string).

(** * orcid_aggregator.py *)

Definition read_orcids_from_csv (csv : csv_file) : result (list string) :=
  match csv with
  | [] => Raise StopIteration
  | _ :: rows =>
      map_each (fun row : list string =>
                  match row !! 1%nat with
                  | Some c => Ok (strip c)
                  | None => Raise IndexError
                  end) rows
  end.

(** The registry answers the request for [orcid]/[endpoint]. *)
Definition registry_service : Type := string -> string -> response.

Definition fetch_orcid_data (registry : registry_service) (orcid endpoint : string)
  : result value :=
  match registry orcid endpoint with
  | ConnectionFailed => Raise RequestException
  | Http status_code body =>
      if status_code =? 200 then
        match body with
        | Some data => Ok data
        | None => Raise JSONDecodeError
        end
      else Ok VNone
  end.

Definition extract_names (orcid_data : value) : result value :=
  names ← py_get orcid_data "name" (VDict []);
  given ← py_get names "given-names" (VDict []);
  given_value ← py_get given "value" (VStr "");
  family ← py_get names "family-name" (VDict []);
  family_value ← py_get family "value" (VStr "");
  Ok (VDict [("given-names", given_value); ("family-name", family_value)]).

Definition extract_mail (orcid_data : value) : result value :=
  emails_entry ← py_get orcid_data "emails" (VDict []);
  emails ← py_get emails_entry "email" (VList []);
  if truthy emails then
    first ← getitem_int emails 0;
    py_get first "email" (VStr "")
  else Ok (VStr "").

(** The list appended for a summary: role, department, organisation name. *)
Definition employment_triple (current_summary : value) : result value :=
  role ← py_get current_summary "role-title" (VStr "");
  department ← py_get current_summary "department-name" (VStr "");
  organization ← py_get current_summary "organization" (VDict []);
  name ← py_get organization "name" (VStr "");
  Ok (VList [role; department; name]).

(** [employment.get("summaries", [])[0].get("employment-summary", {})] *)
Definition first_summary (employment : value) : result value :=
  summaries ← py_get employment "summaries" (VList []);
  first ← getitem_int summaries 0;
  py_get first "employment-summary" (VDict []).

(** One pass of the loop body over an affiliation group. *)
Definition employment_step (today : date) (current_employments : list value)
    (employment : value) : result (list value) :=
  current_summary ← first_summary employment;
  end_date ← getitem_str current_summary "end-date";
  if is_none end_date then
    triple ← employment_triple current_summary;
    Ok (current_employments ++ [triple])%list
  else
    year_entry ← getitem_str end_date "year";
    year_value ← getitem_str year_entry "value";
    end_year ← py_int year_value;
    if end_year <? year today then Ok current_employments
    else if is_none current_summary then Ok current_employments
    else
      end_entry ← py_get current_summary "end-date" VNone;
      let end_ := py_or end_entry (VDict []) in
      y ← py_get end_ "year" VNone;
      year_val ← py_get (py_or y (VDict [])) "value" VNone;
      m ← py_get end_ "month" VNone;
      month_val ← py_get (py_or m (VDict [])) "value" (VInt 1);
      d ← py_get end_ "day" VNone;
      day_val ← py_get (py_or d (VDict [])) "value" (VInt 1);
      year_ ← (if is_none year_val then Ok 2050 else py_int year_val);
      month_ ← (if is_none month_val then Ok 1 else py_int month_val);
      day_ ← (if is_none day_val then Ok 1 else py_int day_val);
      given_date ← mk_date year_ month_ day_;
      if date_gt given_date today then
        triple ← employment_triple current_summary;
        Ok (current_employments ++ [triple])%list
      else Ok current_employments.

Definition extract_current_employments (today : date) (orcid_data : value)
  : result (list value) :=
  employments ← py_get orcid_data "employments" (VDict []);
  groups ← py_get employments "affiliation-group" (VList []);
  items ← py_iter groups;
  for_each (employment_step today) items [].

Definition extract_keywords (orcid_data : value) : result (list value) :=
  keywords ← getitem_str orcid_data "keywords";
  keyword ← getitem_str keywords "keyword";
  items ← py_iter keyword;
  map_each (fun k => getitem_str k "content") items.

(** * expert.py *)

(** ** Equality of values, as used by [in] on lists and dict keys.
    Two values are equal when they are the same tree: this is [==] on
    [None], strings, integers and lists of them, which is what organisation
    names and lookup keys are.  (Python also equates [True] with [1] and
    dicts that differ in the order of their keys.) *)
Fixpoint value_eqb (a b : value) : bool :=
  match a, b with
  | VNone, VNone => true
  | VBool x, VBool y => Bool.eqb x y
  | VInt x, VInt y => x =? y
  | VStr x, VStr y => String.eqb x y
  | VList x, VList y =>
      (fix all2 (x y : list value) : bool :=
         match x, y with
         | [], [] => true
         | u :: x', w :: y' => value_eqb u w && all2 x' y'
         | _, _ => false
         end) x y
  | VDict x, VDict y =>
      (fix all2 (x y : list (string * value)) : bool :=
         match x, y with
         | [], [] => true
         | (k, u) :: x', (k', w) :: y' =>
             String.eqb k k' && value_eqb u w && all2 x' y'
         | _, _ => false
         end) x y
  | _, _ => false
  end.




(** ** search_wikidata_id *)

(** One pass of the [while] loop and the passes after it.  [attempts k] is
    the lookup service's answer to the request made when [retries = k];
    [sleeps] collects the arguments of [time.sleep].  [None]: the fuel ran
    out before the loop ended. *)
Fixpoint search_loop (fuel : nat) (attempts : nat -> response)
    (search_string : value) (max_retries retries backoff : Z) (sleeps : list Z)
  : option (list Z * result value) :=
  match fuel with
  | O => None
  | S fuel' =>
      if retries <=? max_retries then
        match attempts (Z.to_nat retries) with
        | ConnectionFailed => Some (sleeps, Ok search_string)
        | Http status_code body =>
            if status_code =? 429 then
              search_loop fuel' attempts search_string max_retries
                          (retries + 1) (Z.min (backoff * 2) 60)
                          (sleeps ++ [backoff])%list
            else if (400 <=? status_code) && (status_code <? 600) then
              (* raise_for_status: HTTPError is a RequestException *)
              Some (sleeps, Ok search_string)
            else
              match body with
              | None => Some (sleeps, Ok search_string)
              | Some data =>
                  Some (sleeps,
                        found ← py_get data "search" VNone;
                        if truthy found then
                          results ← getitem_str data "search";
                          first ← getitem_int results 0;
                          getitem_str first "id"
                        else Ok search_string)
              end
        end
      else Some (sleeps, Ok search_string)
  end.

Definition search_wikidata_id (attempts : nat -> response) (search_string : value)
    (max_retries : Z) : option (list Z * result value) :=
  search_loop (S (Z.to_nat (max_retries + 1))) attempts search_string
              max_retries 0 1 [].

(** The delay slept before retry number [k]. *)
Definition backoff_delay (k : nat) : Z := Z.min (2 ^ Z.of_nat k) 60.

(** ** class Expert *)

Record Expert : Type := mkExpert { orcid : string; properties : dict value }.

(** [self.properties.copy()]: a new dict with the same entries.  As a
    value the copy is the dict itself; what the copy shares with the
    original is the subject of [Store] below. *)
Definition get_properties (self : Expert) : dict value := properties self.

Definition get_orcid (self : Expert) : string := orcid self.

Definition extend_properties (property : string) (v : value) (self : Expert)
  : Expert :=
  mkExpert (orcid self) (dict_set property v (properties self)).

Definition get_mail (self : Expert) : value :=
  default (VStr "") (dict_get "E-Mail" (properties self)).

Section organisation.

(** The outcome of [search_wikidata_id(name)]. *)
Variable search : value -> result value.






End organisation.



(** ** get_research_interest *)

(** The keyword list as the strings it holds ([list[str]] in the class's
    documentation); an entry that is not a string is reported as
    [TypeError]. *)
Definition as_strings (v : value) : result (list string) :=
  items ← py_iter v;
  map_each (fun k => match k with VStr s => Ok s | _ => Raise TypeError end) items.

(** The loop that removes the selected special characters. *)
Definition clean_keyword (keyword : string) : result string :=
  match keyword with
  | EmptyString => Raise IndexError
  | String c _ =>
      if negb (is_alnum c) then
        Ok (remove_char "#" (remove_char ")" (remove_char "(" keyword)))
      else Ok keyword
  end.

Definition format_keywords (orcid_keywords : list string) : result string :=
  let orcid_keywords :=
    match orcid_keywords with
    | [k] => if contains_char "," k then strip <$> split_on "," k else [k]
    | _ => orcid_keywords
    end in
  cleaned ← map_each clean_keyword orcid_keywords;
  Ok (join ";" (title <$> cleaned)).

(** The accessor on the value that is stored, for a keyword list of
    strings; what the formatted mode writes into the stored list, and the
    other kinds of stored values, are the subject of [Store] below. *)
Definition get_research_interest (formated : bool) (self : Expert) : result value :=
  let stored := default (VList []) (dict_get "Forschungsinteressen" (properties self)) in
  if formated then
    orcid_keywords ← as_strings stored;
    VStr <$> format_keywords orcid_keywords
  else Ok stored.

(** * expertbase.py *)

Definition cell (row : list string) (i : nat) : result string :=
  match row !! i with
  | Some c => Ok c
  | None => Raise IndexError
  end.

(** The loop body of [create_tadirah_map]: every row gives an identifier,
    only a row with a comma in its third column gives a tag list. *)
Definition tadirah_step (acc : list string * list (list string)) (row : list string)
  : result (list string * list (list string)) :=
  let '(orcids, tadirah) := acc in
  c1 ← cell row 1;
  let orcids := (orcids ++ [strip c1])%list in
  c2 ← cell row 2;
  if contains_char "," c2 then
    let tadirah_list := split_on "," c2 in
    Ok (orcids, (tadirah ++ [strip <$> tadirah_list])%list)
  else Ok (orcids, tadirah).

Definition create_tadirah_map (csv : csv_file) : result (dict (list string)) :=
  match csv with
  | [] => Raise StopIteration
  | _ :: rows =>
      acc ← for_each tadirah_step rows ([], []);
      Ok (dict_of_pairs (zip acc.1 acc.2))
  end.

(** ** class ExpertBase *)

Record ExpertBase : Type :=
  mkExpertBase { raw_base : dict value; base : dict Expert }.

(** The state the constructor starts from. *)
Definition empty_base : ExpertBase := mkExpertBase [] [].

Definition dict_getitem {A : Type} (d : dict A) (k : string) : result A :=
  match dict_get k d with
  | Some v => Ok v
  | None => Raise KeyError
  end.

(** The body of the loop over the identifiers. *)
Definition populate_step (registry : registry_service) (today : date)
    (tadirah_map : dict (list string)) (self : ExpertBase) (orcid : string)
  : result ExpertBase :=
  person_endpoint_data ← fetch_orcid_data registry orcid "person";
  activities_endpoint_data ← fetch_orcid_data registry orcid "activities";
  if is_none person_endpoint_data || is_none activities_endpoint_data then Ok self
  else
    extracted_name ← extract_names person_endpoint_data;
    extracted_keywords ← extract_keywords person_endpoint_data;
    extracted_employment ← extract_current_employments today activities_endpoint_data;
    extracted_mail ← extract_mail person_endpoint_data;
    given ← getitem_str extracted_name "given-names";
    family ← getitem_str extracted_name "family-name";
    tags ← dict_getitem tadirah_map orcid;
    let new_expert :=
      mkExpert orcid
        [("Vorname", given);
         ("Nachname", family);
         ("Derzeitige Beschäftigung", VList extracted_employment);
         ("Forschungsinteressen", VList extracted_keywords);
         ("E-Mail", extracted_mail);
         ("TaDiRAH-Zuordnung", VList (VStr <$> tags))] in
    Ok (mkExpertBase (dict_set orcid (VDict (get_properties new_expert)) (raw_base self))
                     (dict_set orcid new_expert (base self))).

Definition populate_from_csv (registry : registry_service) (today : date)
    (csv : csv_file) (self : ExpertBase) : result ExpertBase :=
  orcids ← read_orcids_from_csv csv;
  tadirah_map ← create_tadirah_map csv;
  for_each (populate_step registry today tadirah_map) orcids self.

(** [self.base.copy()] *)
Definition get_base (self : ExpertBase) : dict Expert := base self.

Definition get_expert_as_list (self : ExpertBase) : list Expert :=
  dict_values (base self).

Definition get_orcids_as_list (self : ExpertBase) : list string :=
  dict_keys (base self).

(** The persisted store.  [json.dump] followed by [json.load] gives back
    the same tree for every [value] (None, bool, int, str, list and dict
    with string keys), so a JSON file is represented by the value it
    decodes to. *)
Definition json_document : Type := value.

Definition serialize_expertbase (self : ExpertBase) : json_document :=
  VDict (raw_base self).

(** The expert built from one stored dict: five fields, each with its
    default. *)
Definition stored_expert (orcid : string) (expert : value) : result Expert :=
  vorname ← py_get expert "Vorname" (VStr "");
  nachname ← py_get expert "Nachname" (VStr "");
  employment ← py_get expert "Derzeitige Beschäftigung" (VList []);
  interests ← py_get expert "Forschungsinteressen" (VList []);
  mail ← py_get expert "E-Mail" (VStr "");
  Ok (mkExpert orcid
        [("Vorname", vorname);
         ("Nachname", nachname);
         ("Derzeitige Beschäftigung", employment);
         ("Forschungsinteressen", interests);
         ("E-Mail", mail)]).

(** The body of the loop over [self.raw_base.items()]. *)
Definition load_step (b : dict Expert) (item : string * value)
  : result (dict Expert) :=
  new_expert ← stored_expert item.1 item.2;
  Ok (dict_set item.1 new_expert b).

Definition deserialize_expertbase (document : json_document) (self : ExpertBase)
  : result ExpertBase :=
  match document with
  | VDict entries =>
      new_base ← for_each load_step entries (base self);
      Ok (mkExpertBase entries new_base)
  | _ => Raise AttributeError
  end.

(** ** add_properties_from_csv *)

(** [enumerate(l, start)] *)
Fixpoint enumerate {A : Type} (start : nat) (l : list A) : list (nat * A) :=
  match l with
  | [] => []
  | x :: l' => (start, x) :: enumerate (S start) l'
  end.

(** The two assignments made for a non-empty cell: on the live expert and
    on its mirror in [raw_base]. *)
Definition set_property (current_orcid property new_properties : string)
    (self : ExpertBase) : result ExpertBase :=
  current_expert ← dict_getitem (base self) current_orcid;
  let new_base :=
    dict_set current_orcid
             (extend_properties property (VStr new_properties) current_expert)
             (base self) in
  mirror ← dict_getitem (raw_base self) current_orcid;
  match mirror with
  | VDict d =>
      Ok (mkExpertBase
            (dict_set current_orcid (VDict (dict_set property (VStr new_properties) d))
                      (raw_base self))
            new_base)
  | _ => Raise TypeError
  end.

(** The body of the loop over the columns of one data row; [ip] is the
    pair [(i, property)] that [enumerate(properties[1:], 1)] yields. *)
Definition merge_cell (current_orcid : string) (row : list string)
    (self : ExpertBase) (ip : nat * string) : result ExpertBase :=
  new_properties ← cell row ip.1;
  if String.eqb new_properties "" then Ok self
  else set_property current_orcid ip.2 new_properties self.

(** The body of the loop over the data rows. *)
Definition merge_row (properties : list string) (orcids : list string)
    (self : ExpertBase) (row : list string) : result ExpertBase :=
  first ← cell row 0;
  let current_orcid := strip (lstrip_bom first) in
  if bool_decide (current_orcid ∈ orcids) then
    _ ← dict_getitem (base self) current_orcid;
    for_each (merge_cell current_orcid row) (enumerate 1 (tail properties)) self
  else Ok self.

Definition add_properties_from_csv (csv : csv_file) (self : ExpertBase)
  : result ExpertBase :=
  match csv with
  | [] => Raise StopIteration
  | properties :: rows =>
      let orcids := get_orcids_as_list self in
      if (length properties <? 2)%nat then Ok self
      else
        header ← cell properties 0;
        if negb (String.eqb (lower header) "orcid") then Ok self
        else for_each (merge_row properties orcids) rows self
  end.

(** * Objects and aliasing

    The definitions above read and build values; they never change a list
    or a dict that is reachable from two places.  What a caller can do with
    an object it got back does depend on sharing, so the accessors that hand
    out copies are modelled once more over a store of objects: a list, a
    dict, an [Expert] and an [ExpertBase] live at a location, and a
    container holds immutable values in place and mutable ones by
    reference. *)
Module Store.

(** A location is a position in the store. *)
Abbreviation loc := nat (only parsing).

Inductive ref_value : Type :=
  | RNone
  | RBool (b : bool)
  | RInt (z : Z)
  | RStr (s : string)
  | RRef (l : loc).

Inductive object : Type :=
  | OList (items : list ref_value)
  | ODict (entries : dict ref_value)
  | OExpert (orcid : string) (properties : loc)
  | OExpertBase (raw_base base : loc).

(** The store: location [l] is position [l]. *)
Abbreviation heap := (list object) (only parsing).

Definition alloc (h : heap) (o : object) : heap * loc :=
  ((h ++ [o])%list, length h).

(** [d.copy()]: a new dict object holding the same entries, so an entry
    that is a reference still refers to the same object. *)
Definition dict_copy (h : heap) (l : loc) : result (heap * loc) :=
  match h !! l with
  | Some (ODict entries) => Ok (alloc h (ODict entries))
  | _ => Raise AttributeError
  end.

(** [Expert.get_properties]: [return self.properties.copy()] *)
Definition get_properties (h : heap) (self : loc) : result (heap * loc) :=
  match h !! self with
  | Some (OExpert _ properties) => dict_copy h properties
  | _ => Raise AttributeError
  end.

(** [ExpertBase.get_base]: [return self.base.copy()] *)
Definition get_base (h : heap) (self : loc) : result (heap * loc) :=
  match h !! self with
  | Some (OExpertBase _ base) => dict_copy h base
  | _ => Raise AttributeError
  end.

(** [d[k]] *)
Definition getitem (h : heap) (l : loc) (k : string) : result ref_value :=
  match h !! l with
  | Some (ODict entries) => dict_getitem entries k
  | _ => Raise TypeError
  end.

(** [d[k] = v] *)
Definition setitem (h : heap) (l : loc) (k : string) (v : ref_value)
  : result heap :=
  match h !! l with
  | Some (ODict entries) => Ok (<[l := ODict (dict_set k v entries)]> h)
  | _ => Raise TypeError
  end.

(** [del d[k]] *)
Definition delitem (h : heap) (l : loc) (k : string) : result heap :=
  match h !! l with
  | Some (ODict entries) =>
      if dict_mem k entries then
        Ok (<[l := ODict (filter (fun kv => kv.1 ≠ k) entries)]> h)
      else Raise KeyError
  | _ => Raise TypeError
  end.

(** [l.append(v)] *)
Definition list_append (h : heap) (l : loc) (v : ref_value) : result heap :=
  match h !! l with
  | Some (OList items) => Ok (<[l := OList (items ++ [v])]> h)
  | _ => Raise AttributeError
  end.

(** [Expert.extend_properties]: [self.properties[property] = value] *)
Definition extend_properties (h : heap) (self : loc) (property : string)
    (v : ref_value) : result heap :=
  match h !! self with
  | Some (OExpert _ properties) => setitem h properties property v
  | _ => Raise AttributeError
  end.

(** The value an observer reads from [v], following references at most
    [fuel] deep; [None] when the fuel does not suffice or a reference
    dangles. *)
Fixpoint view (fuel : nat) (h : heap) (v : ref_value) : option value :=
  match v with
  | RNone => Some VNone
  | RBool b => Some (VBool b)
  | RInt z => Some (VInt z)
  | RStr s => Some (VStr s)
  | RRef l =>
      match fuel with
      | O => None
      | S fuel' =>
          match h !! l with
          | Some (OList items) => VList <$> mapM (view fuel' h) items
          | Some (ODict entries) =>
              VDict <$> mapM (fun kv : string * ref_value =>
                                pair kv.1 <$> view fuel' h kv.2) entries
          | Some (OExpert orcid properties) =>
              p ← view fuel' h (RRef properties);
              Some (VDict [("orcid", VStr orcid); ("properties", p)])
          | Some (OExpertBase raw_base base) =>
              r ← view fuel' h (RRef raw_base);
              b ← view fuel' h (RRef base);
              Some (VDict [("raw_base", r); ("base", b)])
          | None => None
          end
      end
  end.

(** The locations an object refers to. *)
Definition refs_of_value (v : ref_value) : list loc :=
  match v with
  | RRef l => [l]
  | _ => []
  end.

Definition refs (o : object) : list loc :=
  match o with
  | OList items => items ≫= refs_of_value
  | ODict entries => entries ≫= (fun kv => refs_of_value kv.2)
  | OExpert _ properties => [properties]
  | OExpertBase raw_base base => [raw_base; base]
  end.

(** No dangling reference. *)
Definition closed (h : heap) : Prop :=
  forall l o, h !! l = Some o -> forall l', l' ∈ refs o -> (l' < length h)%nat.

(** Heaps that agree on every location of [h]. *)
Definition extends (h h' : heap) : Prop :=
  forall l, (l < length h)%nat -> h' !! l = h !! l.

(** A store holding one expert, at location 3, with one current
    employment. *)
Definition employment_heap : heap :=
  [OList [RStr "Professor"; RNone; RStr "Uni Marburg"];
   OList [RRef 0%nat];
   ODict [("Vorname", RStr "Ada"); ("Derzeitige Beschäftigung", RRef 1%nat)];
   OExpert "0000-0001" 2%nat].

(** The reading of the claim that covers nested values: appending to a
    list that an entry of the returned copy refers to leaves what is read
    from the live properties unchanged. *)
Definition nested_mutation_isolated : Prop :=
  forall (h : heap) (self : loc) (orcid : string) (properties : loc)
         (h1 h2 : heap) (copy l : loc) (k : string) (v : ref_value) (fuel : nat),
    closed h ->
    h !! self = Some (OExpert orcid properties) ->
    get_properties h self = Ok (h1, copy) ->
    getitem h1 copy k = Ok (RRef l) ->
    list_append h1 l v = Ok h2 ->
    view fuel h2 (RRef properties) = view fuel h1 (RRef properties).

(** ** get_research_interest, on the store

    The formatted mode assigns to [orcid_keywords[i]] while
    [orcid_keywords] may still be the list stored in the properties, so the
    accessor is modelled once more with the store passed through.  An
    exception leaves the assignments made before it. *)

(** [x.isalnum()] *)
Definition str_isalnum (s : string) : bool :=
  negb (String.eqb s "") && forallb is_alnum (String.list_ascii_of_string s).

(** [not keyword[0].isalnum()] for one element of the keyword list. *)
Definition needs_cleaning (h : heap) (keyword : ref_value) : result bool :=
  match keyword with
  | RStr EmptyString => Raise IndexError
  | RStr (String c _) => Ok (negb (is_alnum c))
  | RRef l =>
      match h !! l with
      | Some (OList []) => Raise IndexError
      | Some (OList (RStr s :: _)) => Ok (negb (str_isalnum s))
      | Some (OList (_ :: _)) => Raise AttributeError
      | Some (ODict _) => Raise KeyError
      | _ => Raise TypeError
      end
  | _ => Raise TypeError
  end.

(** [keyword.replace("(", "").replace(")", "").replace("#", "")] *)
Definition replaced (keyword : ref_value) : result ref_value :=
  match keyword with
  | RStr s => Ok (RStr (remove_char "#" (remove_char ")" (remove_char "(" s))))
  | _ => Raise AttributeError
  end.

(** [orcid_keywords[i] = v] on the list at [l]. *)
Definition list_setitem (h : heap) (l : loc) (i : nat) (v : ref_value)
  : result heap :=
  match h !! l with
  | Some (OList items) =>
      if (i <? length items)%nat then Ok (<[l := OList (<[i := v]> items)]> h)
      else Raise IndexError
  | _ => Raise TypeError
  end.

(** The loop [for i, keyword in enumerate(orcid_keywords)] over the list
    at [l], from index [i] on.  [keywords] are the elements from [i] on:
    the loop writes position [i] only after it has read it. *)
Fixpoint clean_list (h : heap) (l : loc) (i : nat) (keywords : list ref_value)
  : heap * result unit :=
  match keywords with
  | [] => (h, Ok tt)
  | keyword :: rest =>
      match needs_cleaning h keyword with
      | Raise e => (h, Raise e)
      | Ok false => clean_list h l (S i) rest
      | Ok true =>
          match replaced keyword with
          | Raise e => (h, Raise e)
          | Ok new =>
              match list_setitem h l i new with
              | Raise e => (h, Raise e)
              | Ok h' => clean_list h' l (S i) rest
              end
          end
      end
  end.

(** [k.title()] *)
Definition titled (keyword : ref_value) : result string :=
  match keyword with
  | RStr s => Ok (title s)
  | _ => Raise AttributeError
  end.

(** The loop, the list comprehension with [title] and the [join], for
    [orcid_keywords] bound to the list at [l]. *)
Definition format_list (h : heap) (l : loc) : heap * result ref_value :=
  match h !! l with
  | Some (OList items) =>
      let '(h', done) := clean_list h l 0 items in
      (h',
       _ ← done;
       match h' !! l with
       | Some (OList items') =>
           titles ← map_each titled items';
           Ok (RStr (join ";" titles))
       | _ => Raise TypeError
       end)
  | _ => (h, Raise TypeError)
  end.

(** [[k.strip() for k in s.split(",")]]: a new list, and the rest of the
    method works on it. *)
Definition format_split (h : heap) (s : string) : heap * result ref_value :=
  let '(h', l) := alloc h (OList (RStr <$> (strip <$> split_on "," s))) in
  format_list h' l.

(** ["," in x] *)
Definition contains_comma (h : heap) (x : ref_value) : result bool :=
  match x with
  | RStr s => Ok (contains_char "," s)
  | RRef l =>
      match h !! l with
      | Some (OList items) =>
          Ok (existsb (fun y => match y with
                                | RStr s => String.eqb s ","
                                | _ => false
                                end) items)
      | Some (ODict entries) => Ok (dict_mem "," entries)
      | _ => Raise TypeError
      end
  | _ => Raise TypeError
  end.

(** The formatted mode on a stored list. *)
Definition format_stored_list (h : heap) (l : loc) (items : list ref_value)
  : heap * result ref_value :=
  match items with
  | [x] =>
      match contains_comma h x with
      | Raise e => (h, Raise e)
      | Ok true =>
          match x with
          | RStr s => format_split h s
          | _ => (h, Raise AttributeError)
          end
      | Ok false => format_list h l
      end
  | _ => format_list h l
  end.

(** The formatted mode on a stored string: the loop runs over its
    characters, and the assignment to a character raises. *)
Definition format_stored_text (h : heap) (s : string) : heap * result ref_value :=
  if (length (chars s) =? 1)%nat && contains_char "," s then format_split h s
  else if forallb (fun keyword => match keyword with
                                  | String c _ => is_alnum c
                                  | EmptyString => false
                                  end) (chars s)
       then (h, Ok (RStr (join ";" (title <$> chars s))))
       else (h, Raise TypeError).

(** The loop over the keys of a stored dict.  [None]: the assignment
    [orcid_keywords[i] = ...] gives the dict the integer key [i], a dict
    that this store, with its string keys, does not hold. *)
Fixpoint scan_keys (keys : list string) : option (result unit) :=
  match keys with
  | [] => Some (Ok tt)
  | EmptyString :: _ => Some (Raise IndexError)
  | String c _ :: rest => if is_alnum c then scan_keys rest else None
  end.

Definition format_stored_dict (entries : dict ref_value) : option (result ref_value) :=
  if (length entries =? 1)%nat then Some (Raise KeyError)
  else
    scanned ← scan_keys (dict_keys entries);
    Some (_ ← scanned; Ok (RStr (join ";" (title <$> dict_keys entries)))).

(** [Expert.get_research_interest]. *)
Definition get_research_interest (h : heap) (self : loc) (formated : bool)
  : option (heap * result ref_value) :=
  match h !! self with
  | Some (OExpert _ properties) =>
      match h !! properties with
      | Some (ODict entries) =>
          let '(h1, stored) :=
            match dict_get "Forschungsinteressen" entries with
            | Some v => (h, v)
            | None => let '(h1, l) := alloc h (OList []) in (h1, RRef l)
            end in
          if formated then
            match stored with
            | RStr s => Some (format_stored_text h1 s)
            | RRef l =>
                match h1 !! l with
                | Some (OList items) => Some (format_stored_list h1 l items)
                | Some (ODict entries') =>
                    r ← format_stored_dict entries'; Some (h1, r)
                | _ => Some (h1, Raise TypeError)
                end
            | _ => Some (h1, Raise TypeError)
            end
          else Some (h1, Ok stored)
      | _ => Some (h, Raise AttributeError)
      end
  | _ => Some (h, Raise AttributeError)
  end.

(** A store holding one expert, at location 2, with two keywords. *)
Definition keyword_heap : heap :=
  [OList [RStr "(NLP)"; RStr "history"];
   ODict [("Forschungsinteressen", RRef 0%nat)];
   OExpert "0000-0001" 1%nat].

End Store.

(** * expert.py: the other accessors *)

(** [sep.join(v)]: [v] is iterated and has to yield strings. *)
Definition py_join (sep : string) (v : value) : result string :=
  parts ← as_strings v;
  Ok (join sep parts).

Definition get_tadirah (formated : bool) (self : Expert) : result value :=
  if formated then
    let tadirah :=
      default (VList []) (dict_get "TaDiRAH-Zuordnung" (properties self)) in
    VStr <$> py_join ";" tadirah
  else Ok (default (VStr "") (dict_get "TaDiRAH-Zuordnung" (properties self))).

(** The line feed. *)
Definition newline : string := String (ascii_of_nat 10) EmptyString.

(** [parts = [part for part in entry if part]] and
    [line = "* " + ", ".join(parts)] *)
Definition employment_line (entry : value) : result string :=
  parts ← py_iter entry;
  joined ← py_join ", " (VList (List.filter truthy parts));
  Ok ("* " ++ joined).

(** The loop [for i, entry in enumerate(current_employment)] from index
    [i] on, with its [break] at [i == n]. *)
Fixpoint employment_lines (n : Z) (i : nat) (entries : list value)
    (lines : list string) : result (list string) :=
  match entries with
  | [] => Ok lines
  | entry :: rest =>
      if Z.of_nat i =? n then Ok lines
      else
        line ← employment_line entry;
        employment_lines n (S i) rest (lines ++ [line])%list
  end.

(** Where [v[:n]] stops in a sequence of length [len]: a negative [n]
    counts from the end. *)
Definition slice_stop (n : Z) (len : nat) : nat :=
  if n <? 0 then (len - Z.to_nat (- n))%nat else Z.to_nat n.

(** [v[:n]].  (A dict raises [KeyError] since slices are hashable, which
    is so from Python 3.12 on, the version the nested quotes of the source's
    f-strings need.) *)
Definition slice_to (n : Z) (v : value) : result value :=
  match v with
  | VList l => Ok (VList (take (slice_stop n (length l)) l))
  | VStr s => Ok (VStr (String.substring 0 (slice_stop n (String.length s)) s))
  | VDict _ => Raise KeyError
  | _ => Raise TypeError
  end.

Definition get_current_employment (n : Z) (formated : bool) (self : Expert)
  : result value :=
  let current_employment :=
    default (VList []) (dict_get "Derzeitige Beschäftigung" (properties self)) in
  if formated then
    entries ← py_iter current_employment;
    lines ← employment_lines n 0 entries [];
    Ok (VStr (join newline lines))
  else slice_to n current_employment.

(** * Vocabulary of the statements, and example inputs *)

(** An affiliation group whose first summary is [summary], followed by
    [others]. *)
Definition affiliation_group (summary : dict value) (others : list value) : value :=
  VDict [("summaries",
          VList (VDict [("employment-summary", VDict summary)] :: others))].

(** An activities payload with the given affiliation groups. *)
Definition activities (groups : list value) : value :=
  VDict [("employments", VDict [("affiliation-group", VList groups)])].

Definition summary_ending (end_date : value) (organisation : string) : dict value :=
  [("role-title", VStr "Professor");
   ("department-name", VNone);
   ("organization", VDict [("name", VStr organisation)]);
   ("end-date", end_date)].

(** The month or day of an end date as lines 120-125 of
    [orcid_aggregator.py] read it: 1 when the entry or its value is
    missing. *)
Definition date_component (end_ : dict value) (k : string) : result Z :=
  let entry := default VNone (dict_get k end_) in
  v ← py_get (py_or entry (VDict [])) "value" (VInt 1);
  if is_none v then Ok 1 else py_int v.

(** An end date whose year entry is [null]. *)
Definition end_date_year_null : value :=
  VDict [("year", VNone); ("month", VNone); ("day", VNone)].

(** An end date whose year entry has a [null] value. *)
Definition end_date_year_value_null : value :=
  VDict [("year", VDict [("value", VNone)]); ("month", VNone); ("day", VNone)].

(** An end date with the given year and no month or day. *)
Definition end_date_year_only (y : string) : value :=
  VDict [("year", VDict [("value", VStr y)]); ("month", VNone); ("day", VNone)].

(** A person record as the registry's [person] endpoint gives it. *)
Definition person_record (given family : string) (keywords : list string) : value :=
  VDict [("name", VDict [("given-names", VDict [("value", VStr given)]);
                         ("family-name", VDict [("value", VStr family)])]);
         ("emails", VDict [("email", VList [])]);
         ("keywords",
          VDict [("keyword",
                  VList ((fun k => VDict [("content", VStr k)]) <$> keywords))])].

(** An identifier CSV with two data rows. *)
Definition two_identifiers : csv_file :=
  [["name"; "orcid"; "tadirah"];
   ["Ada"; "0000-0001"; "Analysis, Modeling"];
   ["Bob"; "0000-0002"; "Capture, Creation"]].

(** A registry that answers every request with a complete record, except
    that it answers the requests for 0000-0001 with [first]. *)
Definition registry_with_first (first : response) : registry_service :=
  fun orcid endpoint =>
    if String.eqb orcid "0000-0001" then first
    else if String.eqb endpoint "person"
         then Http 200 (Some (person_record "Bob" "Example" ["history"]))
         else Http 200 (Some (activities
                 [affiliation_group (summary_ending VNone "University") []])).

(** What a data row assigns to the field [p]: the last non-empty cell among
    the columns that the header names [p]; [None] when there is none. *)
Fixpoint assigned (columns : list (nat * string)) (row : list string) (p : string)
  : option string :=
  match columns with
  | [] => None
  | (i, property) :: rest =>
      match assigned rest row p with
      | Some c => Some c
      | None =>
          if String.eqb property p then
            match row !! i with
            | Some c => if String.eqb c "" then None else Some c
            | None => None
            end
          else None
      end
  end.

(** A field after the merge of a row: the assigned cell, or what it was. *)
Definition merged_field (columns : list (nat * string)) (row : list string)
    (p : string) (before : option value) : option value :=
  match assigned columns row p with
  | Some c => Some (VStr c)
  | None => before
  end.

(** Every live expert has a mirror in [raw_base] that is a dict. *)
Definition mirrored (self : ExpertBase) : Prop :=
  forall k, k ∈ dict_keys (base self) ->
            exists d, dict_get k (raw_base self) = Some (VDict d).

(** An expert base with one record, and an override CSV for it. *)
Definition sample_base : ExpertBase :=
  mkExpertBase
    [("0000-0001", VDict [("Vorname", VStr "Ada"); ("Ort", VStr "London")])]
    [("0000-0001", mkExpert "0000-0001" [("Vorname", VStr "Ada"); ("Ort", VStr "London")])].

Definition sample_header : list string := ["ORCID"; "Titel"; "Ort"].

Definition sample_row : list string := [" 0000-0001 "; "Dr."; ""].

(** The lookup service signals a rate limit. *)
Definition rate_limited (r : response) : bool :=
  match r with
  | Http status_code _ => status_code =? 429
  | ConnectionFailed => false
  end.

(** The answers after which the resolver echoes its input: the request
    raised, the status is an HTTP error other than 429, the body cannot be
    decoded, or it decodes to an object whose ["search"] entry is missing
    or empty. *)
Definition falls_back (r : response) : bool :=
  match r with
  | ConnectionFailed => true
  | Http status_code body =>
      negb (status_code =? 429)
      && (((400 <=? status_code) && (status_code <? 600))
          || match body with
             | None => true
             | Some (VDict d) => negb (truthy (default VNone (dict_get "search" d)))
             | Some _ => false
             end)
  end.

(** The fields [deserialize_expertbase] reads back. *)
Definition registry_fields : list string :=
  ["Vorname"; "Nachname"; "Derzeitige Beschäftigung"; "Forschungsinteressen";
   "E-Mail"].

(** A record that has the fields [populate_from_csv] gives it. *)
Definition populated_record (e : Expert) : Prop :=
  Forall (fun f => is_Some (dict_get f (properties e))) registry_fields.

(** The raw entry kept for a live expert. *)
Definition mirror_entry (ke : string * Expert) : string * value :=
  (ke.1, VDict (properties ke.2)).

(** The raw store is, entry by entry, the properties of the live experts,
    each stored under its own identifier. *)
Definition faithful_mirror (self : ExpertBase) : Prop :=
  raw_base self = mirror_entry <$> base self
  /\ NoDup (dict_keys (base self))
  /\ Forall (fun ke : string * Expert => orcid ke.2 = ke.1 /\ populated_record ke.2)
            (base self).

(** The expert that [stored_expert] builds from a dict of properties. *)
Definition reloaded (ke : string * Expert) : string * Expert :=
  (ke.1,
   mkExpert ke.1
     [("Vorname", default (VStr "") (dict_get "Vorname" (properties ke.2)));
      ("Nachname", default (VStr "") (dict_get "Nachname" (properties ke.2)));
      ("Derzeitige Beschäftigung",
       default (VList []) (dict_get "Derzeitige Beschäftigung" (properties ke.2)));
      ("Forschungsinteressen",
       default (VList []) (dict_get "Forschungsinteressen" (properties ke.2)));
      ("E-Mail", default (VStr "") (dict_get "E-Mail" (properties ke.2)))]).

(** First seen wins: of the elements of [l], in order, the first one for
    each key. *)
Fixpoint firsts {A : Type} (key : A -> value) (l : list A) : list A :=
  match l with
  | [] => []
  | x :: l' =>
      x :: List.filter (fun y => negb (value_eqb (key y) (key x))) (firsts key l')
  end.



(** A record with the given research interests. *)
Definition with_interests (keywords : list string) : Expert :=
  mkExpert "0000-0001" [("Forschungsinteressen", VList (VStr <$> keywords))].

(** What the cleaning loop leaves of a keyword that has a first character. *)
Definition without_special (keyword : string) : string :=
  match keyword with
  | EmptyString => EmptyString
  | String c _ =>
      if negb (is_alnum c) then
        remove_char "#" (remove_char ")" (remove_char "(" keyword))
      else keyword
  end.

(** The identifier and the tag list of a data row of the identifier CSV. *)
Definition row_identifier (row : list string) : string :=
  strip (default "" (row !! 1%nat)).

Definition row_tags (row : list string) : list string :=
  strip <$> split_on "," (default "" (row !! 2%nat)).

(** A data row with an identifier and with a comma in its third column. *)
Definition tagged_row (row : list string) : Prop :=
  exists c1 c2, row !! 1%nat = Some c1 /\ row !! 2%nat = Some c2
                /\ contains_char "," c2 = true.

(** A registry that serves every identifier completely. *)
Definition registry_complete : registry_service :=
  fun orcid endpoint =>
    if String.eqb endpoint "person"
    then Http 200 (Some (person_record "Ada" "Example" ["history"]))
    else Http 200 (Some (activities
            [affiliation_group (summary_ending VNone "University") []])).

(** An identifier CSV whose first data row has a single tag, without a
    comma. *)
Definition one_tag_first : csv_file :=
  [["name"; "orcid"; "tadirah"];
   ["Ada"; "0000-0001"; "Analysis"];
   ["Bob"; "0000-0002"; "Capture, Creation"]].

(** The identifier found in an answer: the status is neither 429 nor an
    HTTP error, the body decodes to an object, and its ["search"] entry is
    a list that starts with an object carrying an ["id"]. *)
Definition found_id (r : response) : option value :=
  match r with
  | Http status_code (Some (VDict d)) =>
      if (status_code =? 429) || ((400 <=? status_code) && (status_code <? 600))
      then None
      else match dict_get "search" d with
           | Some (VList (VDict first :: _)) => dict_get "id" first
           | _ => None
           end
  | _ => None
  end.

(** An answer the resolver is prepared for. *)
Definition expected_answer (r : response) : bool :=
  rate_limited r || falls_back r || bool_decide (is_Some (found_id r)).

(** * Vocabulary of the further properties *)

(** A data row whose third column holds a comma. *)
Definition comma_row (row : list string) : bool :=
  contains_char "," (default "" (row !! 2%nat)).

(** A component of an employment entry that is a string. *)
Definition is_text (part : value) : bool :=
  match part with VStr _ => true | _ => false end.

(** The components of an employment entry that end up in its line: the
    non-empty strings. *)
Definition shown_parts (parts : list value) : list string :=
  omap (fun part => match part with
                    | VStr s => if String.eqb s "" then None else Some s
                    | _ => None
                    end) parts.

(** The Markdown list made of the given employment entries. *)
Definition render_employments (shown : list value) : result value :=
  lines ← map_each employment_line shown;
  Ok (VStr (join newline lines)).

(** The registry has data for an identifier: both requests are answered
    with status 200 and a body other than [null]. *)
Definition answered (registry : registry_service) (orcid endpoint : string) : bool :=
  match fetch_orcid_data registry orcid endpoint with
  | Ok data => negb (is_none data)
  | Raise _ => false
  end.

Definition served (registry : registry_service) (orcid : string) : bool :=
  answered registry orcid "person" && answered registry orcid "activities".

(** The data row of a supplementary table is about the identifier [k]. *)
Definition row_names (k : string) (row : list string) : bool :=
  match row !! 0%nat with
  | Some first => String.eqb (strip (lstrip_bom first)) k
  | None => false
  end.

(** What a pass over a supplementary table leaves as it was, when it
    touches at most the identifiers in [ks] and the fields in [ps]: the
    identifiers held and their order, the records and raw entries of the
    other identifiers, and in every record and raw entry the other
    fields. *)
Definition preserved (ks ps : string -> Prop) (self self' : ExpertBase) : Prop :=
  dict_keys (base self') = dict_keys (base self)
  /\ (forall k, ~ ks k ->
                dict_get k (base self') = dict_get k (base self)
                /\ dict_get k (raw_base self') = dict_get k (raw_base self))
  /\ (forall k e,
        dict_get k (base self) = Some e ->
        exists e',
          dict_get k (base self') = Some e'
          /\ orcid e' = orcid e
          /\ forall p, ~ ps p -> dict_get p (properties e') = dict_get p (properties e))
  /\ (forall k d,
        dict_get k (raw_base self) = Some (VDict d) ->
        exists d',
          dict_get k (raw_base self') = Some (VDict d')
          /\ forall p, ~ ps p -> dict_get p d' = dict_get p d).

(** A text of ASCII characters.  On such texts [str.isalnum],
    [str.title] and [str.lower] are the functions of the model. *)
Definition is_ascii (s : string) : bool :=
  forallb (fun c => (nat_of_ascii c <? 128)%nat) (String.list_ascii_of_string s).

(** A JSON object. *)
Definition is_object (v : value) : bool :=
  match v with VDict _ => true | _ => false end.

(** What [search_wikidata_id] can end with: a value, or one of the
    exceptions of reading an answer of an unexpected shape. *)
Definition value_or_shape_error (r : result value) : bool :=
  match r with
  | Ok _ => true
  | Raise AttributeError | Raise TypeError | Raise KeyError => true
  | Raise _ => false
  end.

(** * Properties *)

(** ** Dictionaries *)

Section dict_facts.
Context {A : Type}.
Implicit Types (d : dict A) (k : string) (v : A).

Lemma dict_get_set_eq d k v : dict_get k (dict_set k v d) = Some v.
Proof.
  induction d as [|[k' v'] d IH]; simpl.
  - by rewrite String.eqb_refl.
  - destruct (String.eqb_spec k k') as [->|Hne]; simpl.
    + by rewrite String.eqb_refl.
    + destruct (String.eqb_spec k k'); [done|apply IH].
Qed.

Lemma dict_get_set_ne d k k' v :
  k ≠ k' -> dict_get k' (dict_set k v d) = dict_get k' d.
Proof.
  intros Hne. induction d as [|[k0 v0] d IH]; simpl.
  - destruct (String.eqb_spec k' k); [congruence|done].
  - destruct (String.eqb_spec k k0) as [->|Hk]; simpl.
    + destruct (String.eqb_spec k' k0); [congruence|done].
    + destruct (String.eqb_spec k' k0); [done|apply IH].
Qed.

Lemma dict_get_None d k : dict_get k d = None <-> k ∉ dict_keys d.
Proof.
  unfold dict_keys. induction d as [|[k' v'] d IH]; simpl.
  - split; [intros _; apply not_elem_of_nil|done].
  - rewrite not_elem_of_cons.
    destruct (String.eqb_spec k k') as [->|Hne]; [|tauto].
    split; [done|tauto].
Qed.

Lemma dict_get_Some_key d k v : dict_get k d = Some v -> k ∈ dict_keys d.
Proof.
  intros H. destruct (decide (k ∈ dict_keys d)) as [|Hn]; [done|].
  apply dict_get_None in Hn. congruence.
Qed.

Lemma dict_get_is_Some d k : k ∈ dict_keys d -> is_Some (dict_get k d).
Proof.
  intros Hin. destruct (dict_get k d) eqn:E; [by eexists|].
  apply dict_get_None in E. done.
Qed.

Lemma dict_keys_set_mem d k v :
  k ∈ dict_keys d -> dict_keys (dict_set k v d) = dict_keys d.
Proof.
  unfold dict_keys. induction d as [|[k' v'] d IH]; simpl.
  - intros H. by apply elem_of_nil in H.
  - intros H. destruct (String.eqb_spec k k') as [->|Hne]; [done|].
    simpl. f_equal. apply IH. apply elem_of_cons in H as [?|?]; done.
Qed.

Lemma dict_keys_set_new d k v :
  k ∉ dict_keys d -> dict_keys (dict_set k v d) = (dict_keys d ++ [k])%list.
Proof.
  unfold dict_keys. induction d as [|[k' v'] d IH]; simpl; [done|].
  rewrite not_elem_of_cons. intros [Hne Hn].
  destruct (String.eqb_spec k k'); [done|]. simpl. f_equal. by apply IH.
Qed.

Lemma dict_keys_set_elem d k k' v :
  k' ∈ dict_keys (dict_set k v d) <-> k' = k \/ k' ∈ dict_keys d.
Proof.
  destruct (decide (k ∈ dict_keys d)) as [Hin|Hn].
  - rewrite dict_keys_set_mem by done. split; [tauto|]. by intros [->|?].
  - rewrite dict_keys_set_new by done. rewrite elem_of_app, list_elem_of_singleton.
    tauto.
Qed.

Lemma dict_set_NoDup d k v : NoDup (dict_keys d) -> NoDup (dict_keys (dict_set k v d)).
Proof.
  intros Hnd. destruct (decide (k ∈ dict_keys d)) as [Hin|Hn].
  - by rewrite dict_keys_set_mem.
  - rewrite dict_keys_set_new by done. apply NoDup_app. split; [done|].
    split; [|apply NoDup_singleton].
    intros x Hx Hx'. apply list_elem_of_singleton in Hx'. by subst.
Qed.

Lemma dict_get_first d k v :
  NoDup (dict_keys d) -> (k, v) ∈ d -> dict_get k d = Some v.
Proof.
  unfold dict_keys. induction d as [|[k' v'] d IH]; simpl.
  - intros _ H. by apply elem_of_nil in H.
  - intros Hnd Hin. apply NoDup_cons in Hnd as [Hk Hnd].
    apply elem_of_cons in Hin as [Heq|Hin].
    + inversion Heq; subst. by rewrite String.eqb_refl.
    + destruct (String.eqb_spec k k') as [->|Hne]; [|by apply IH].
      exfalso. apply Hk. apply list_elem_of_fmap. by exists (k', v).
Qed.

End dict_facts.

(** Membership in a list that is written out: one case per element. *)
Ltac elem_cases H :=
  repeat (apply elem_of_cons in H as [->|H]); try (by apply elem_of_nil in H).

(** ** The error monad *)

Lemma for_each_app {A S : Type} (body : S -> A -> result S) (l1 l2 : list A) (s : S) :
  for_each body (l1 ++ l2) s = (s' ← for_each body l1 s; for_each body l2 s').
Proof.
  revert s. induction l1 as [|x l1 IH]; intros s; simpl; [done|].
  destruct (body s x); simpl; [apply IH|done].
Qed.

Lemma for_each_cons {A S : Type} (body : S -> A -> result S) (x : A) (l : list A) (s : S) :
  for_each body (x :: l) s = (s' ← body s x; for_each body l s').
Proof. reflexivity. Qed.

Lemma result_bind_ok {A B : Type} (a : A) (f : A -> result B) : (Ok a ≫= f) = f a.
Proof. reflexivity. Qed.

(** A loop whose passes all keep an invariant keeps it. *)
Lemma for_each_invariant {A S : Type} (P : S -> Prop) (body : S -> A -> result S)
    (l : list A) (s s' : S) :
  (forall s x s', x ∈ l -> P s -> body s x = Ok s' -> P s') ->
  P s -> for_each body l s = Ok s' -> P s'.
Proof.
  revert s. induction l as [|x l IH]; intros s Hbody HP; simpl.
  - intros [= <-]. done.
  - destruct (body s x) as [s1|] eqn:E; simpl; [|done].
    apply IH.
    + intros ? ? ? ?. apply Hbody. by right.
    + eapply Hbody; [left|done..].
Qed.

(** ** The employment resolver *)

Lemma py_or_truthy a b : truthy a = true -> py_or a b = a.
Proof. unfold py_or. by intros ->. Qed.

Lemma first_summary_group summary others :
  first_summary (affiliation_group summary others) = Ok (VDict summary).
Proof. reflexivity. Qed.

(** Only the first summary of a group is read. *)
Lemma employment_step_first_only today acc summary others others' :
  employment_step today acc (affiliation_group summary others)
  = employment_step today acc (affiliation_group summary others').
Proof. reflexivity. Qed.

(** Rule 1: no end date, the triple is included. *)
Lemma employment_step_no_end_date today acc employment summary :
  first_summary employment = Ok (VDict summary) ->
  dict_get "end-date" summary = Some VNone ->
  employment_step today acc employment
  = (triple ← employment_triple (VDict summary); Ok (acc ++ [triple])%list).
Proof.
  intros Hfirst Hend. unfold employment_step. rewrite Hfirst. simpl.
  by rewrite Hend.
Qed.

(** Rule 2: an end date whose year is before this year, excluded. *)
Lemma employment_step_expired today acc employment summary end_ year_entry v y :
  first_summary employment = Ok (VDict summary) ->
  dict_get "end-date" summary = Some (VDict end_) ->
  dict_get "year" end_ = Some (VDict year_entry) ->
  dict_get "value" year_entry = Some v ->
  py_int v = Ok y ->
  y < year today ->
  employment_step today acc employment = Ok acc.
Proof.
  intros Hfirst Hend Hyear Hval Hint Hlt. unfold employment_step.
  rewrite Hfirst. simpl. rewrite Hend. simpl. rewrite Hyear. simpl.
  rewrite Hval. simpl. rewrite Hint. simpl.
  by destruct (Z.ltb_spec y (year today)); [|lia].
Qed.

(** Rule 3: otherwise the date built from year, month (default 1) and day
    (default 1) decides, and it must be strictly after today. *)
Lemma employment_step_dated today acc employment summary end_ year_entry v y m d given :
  first_summary employment = Ok (VDict summary) ->
  dict_get "end-date" summary = Some (VDict end_) ->
  dict_get "year" end_ = Some (VDict year_entry) ->
  dict_get "value" year_entry = Some v ->
  py_int v = Ok y ->
  year today <= y ->
  date_component end_ "month" = Ok m ->
  date_component end_ "day" = Ok d ->
  mk_date y m d = Ok given ->
  employment_step today acc employment
  = if date_gt given today
    then (triple ← employment_triple (VDict summary); Ok (acc ++ [triple])%list)
    else Ok acc.
Proof.
  intros Hfirst Hend Hyear Hval Hint Hge Hm Hd Hdate. unfold employment_step.
  rewrite Hfirst. simpl. rewrite Hend. simpl. rewrite Hyear. simpl.
  rewrite Hval. simpl. rewrite Hint. simpl.
  destruct (Z.ltb_spec y (year today)); [lia|].
  rewrite !(py_or_truthy (VDict end_)) by (by destruct end_).
  simpl. rewrite Hyear. simpl.
  rewrite (py_or_truthy (VDict year_entry)) by (by destruct year_entry).
  simpl. rewrite Hval. simpl.
  unfold date_component in Hm, Hd.
  destruct (py_get (py_or (default VNone (dict_get "month" end_)) (VDict []))
                   "value" (VInt 1)) as [mv|] eqn:Em; [|done].
  destruct (py_get (py_or (default VNone (dict_get "day" end_)) (VDict []))
                   "value" (VInt 1)) as [dv|] eqn:Ed; [|done].
  simpl in Hm, Hd. simpl.
  assert (is_none v = false) as -> by (by destruct v).
  rewrite Hint. simpl. rewrite Hm. simpl. rewrite Hd. simpl. rewrite Hdate. done.
Qed.

(** The 2050 fallback is never reached: whatever way the year value is
    missing, line 111 raises first. *)
Lemma employment_step_year_missing today acc employment summary end_ :
  first_summary employment = Ok (VDict summary) ->
  dict_get "end-date" summary = Some (VDict end_) ->
  (dict_get "year" end_ = None
   \/ dict_get "year" end_ = Some VNone
   \/ exists year_entry,
        dict_get "year" end_ = Some (VDict year_entry)
        /\ (dict_get "value" year_entry = None
            \/ dict_get "value" year_entry = Some VNone)) ->
  exists e, employment_step today acc employment = Raise e.
Proof.
  intros Hfirst Hend Hyear. unfold employment_step.
  rewrite Hfirst. simpl. rewrite Hend. simpl.
  destruct Hyear as [H|[H|(ye & H & [H'|H'])]]; rewrite H; simpl;
    try rewrite H'; simpl; by eexists.
Qed.

(** C1 (the code departs from the claim): an end date whose year value is
    missing is not given the year 2050.  With today = 2024-06-15, a payload
    whose only summary ends at a date with a null year, or with a year whose
    value is null, makes [extract_current_employments] raise [TypeError];
    the policy of the claim would build 2050-01-01 and include the triple.
    The example of the claim, year 2024 without month and day, is excluded
    as the claim says. *)
Theorem extract_current_employments_year_missing_raises :
  extract_current_employments (Date 2024 6 15)
    (activities [affiliation_group (summary_ending end_date_year_null "A") []])
  = Raise TypeError
  /\ extract_current_employments (Date 2024 6 15)
       (activities [affiliation_group (summary_ending end_date_year_value_null "A") []])
     = Raise TypeError
  /\ extract_current_employments (Date 2024 6 15)
       (activities [affiliation_group (summary_ending (end_date_year_only "2024") "A") []])
     = Ok [].
Proof. repeat split; reflexivity. Qed.

Lemma extract_current_employments_activities today groups :
  extract_current_employments today (activities groups)
  = for_each (employment_step today) groups [].
Proof. reflexivity. Qed.

(** One current, one ending this year without month or day, one expired
    and one ending next year: the first and the last are kept, in order. *)
Lemma extract_current_employments_example :
  extract_current_employments (Date 2024 6 15)
    (activities
       [affiliation_group (summary_ending VNone "A") [];
        affiliation_group (summary_ending (end_date_year_only "2024") "B") [];
        affiliation_group (summary_ending (end_date_year_only "2023") "C") [];
        affiliation_group (summary_ending (end_date_year_only "2025") "D") []])
  = Ok [VList [VStr "Professor"; VNone; VStr "A"];
        VList [VStr "Professor"; VNone; VStr "D"]].
Proof. reflexivity. Qed.

(** ** The registry client and the batch loop *)

(** A response with a status other than 200 is "no data". *)
Lemma fetch_orcid_data_non_200 registry orcid endpoint status_code body :
  registry orcid endpoint = Http status_code body ->
  status_code ≠ 200 ->
  fetch_orcid_data registry orcid endpoint = Ok VNone.
Proof.
  intros Hr Hs. unfold fetch_orcid_data. rewrite Hr.
  by destruct (Z.eqb_spec status_code 200).
Qed.

(** The batch loop skips an identifier for which a fetch gave "no data",
    provided the other fetch returned at all. *)
Lemma populate_step_skips registry today tadirah_map self orcid person activities_data :
  fetch_orcid_data registry orcid "person" = Ok person ->
  fetch_orcid_data registry orcid "activities" = Ok activities_data ->
  person = VNone \/ activities_data = VNone ->
  populate_step registry today tadirah_map self orcid = Ok self.
Proof.
  intros Hp Ha Hnone. unfold populate_step. rewrite Hp, Ha. simpl.
  destruct Hnone as [-> | ->]; simpl; [done|]. by rewrite orb_true_r.
Qed.

(** A connection error or an undecodable body is not turned into "no
    data": it leaves [fetch_orcid_data] as an exception. *)
Lemma fetch_orcid_data_raises registry orcid endpoint :
  (registry orcid endpoint = ConnectionFailed ->
   fetch_orcid_data registry orcid endpoint = Raise RequestException)
  /\ (registry orcid endpoint = Http 200 None ->
      fetch_orcid_data registry orcid endpoint = Raise JSONDecodeError).
Proof. unfold fetch_orcid_data. split; by intros ->. Qed.

(** C2 (the code departs from the claim): only a status other than 200 is
    turned into "no data" and skipped.  With two identifiers of which the
    second is served completely: when the first is answered 404 the run
    goes on and stores the second; when the request for the first fails to
    connect, or its body cannot be decoded, [populate_from_csv] as a whole
    ends with that exception and the second identifier is never stored. *)
Theorem populate_from_csv_aborts_on_request_failure :
  (dict_keys ∘ base <$>
     populate_from_csv (registry_with_first (Http 404 None)) (Date 2024 6 15)
                       two_identifiers empty_base)
  = Ok ["0000-0002"]
  /\ populate_from_csv (registry_with_first ConnectionFailed) (Date 2024 6 15)
                       two_identifiers empty_base
     = Raise RequestException
  /\ populate_from_csv (registry_with_first (Http 200 None)) (Date 2024 6 15)
                       two_identifiers empty_base
     = Raise JSONDecodeError.
Proof. repeat split; reflexivity. Qed.

(** ** The override merge: header validation *)

(** C3: a header row with fewer than two columns, or whose first cell is
    not "orcid" up to case, makes [add_properties_from_csv] return with the
    expert base exactly as it was: no live expert and no entry of the raw
    mirror is changed. *)
Theorem add_properties_from_csv_malformed_header properties rows self :
  (length properties < 2)%nat
  \/ (exists header, properties !! 0%nat = Some header /\ lower header ≠ "orcid") ->
  add_properties_from_csv (properties :: rows) self = Ok self.
Proof.
  intros H. unfold add_properties_from_csv.
  destruct (Nat.ltb_spec (length properties) 2) as [|Hlen]; [done|].
  destruct H as [H|(header & Hh & Hne)]; [lia|].
  unfold cell. rewrite Hh. simpl.
  by destruct (String.eqb_spec (lower header) "orcid").
Qed.

Lemma add_properties_from_csv_malformed_header_witness :
  (exists header, ["name"; "Orcid"; "Titel"] !! 0%nat = Some header
                  /\ lower header ≠ "orcid")
  /\ add_properties_from_csv
       (["name"; "Orcid"; "Titel"] :: [["Ada"; "0000-0001"; "Dr."]])
       (mkExpertBase [("0000-0001", VDict [("Vorname", VStr "Ada")])]
                     [("0000-0001", mkExpert "0000-0001" [("Vorname", VStr "Ada")])])
     = Ok (mkExpertBase [("0000-0001", VDict [("Vorname", VStr "Ada")])]
                        [("0000-0001", mkExpert "0000-0001" [("Vorname", VStr "Ada")])]).
Proof.
  assert (exists header, ["name"; "Orcid"; "Titel"] !! 0%nat = Some header
                         /\ lower header ≠ "orcid") as H.
  { exists "name". split; [reflexivity|]. vm_compute. discriminate. }
  split; [exact H|].
  apply (add_properties_from_csv_malformed_header
           ["name"; "Orcid"; "Titel"] [["Ada"; "0000-0001"; "Dr."]]).
  right. exact H.
Defined.

(** ** The override merge: one data row *)

Lemma enumerate_bounds {A : Type} (l : list A) (start i : nat) (x : A) :
  (i, x) ∈ enumerate start l -> (start <= i < start + length l)%nat.
Proof.
  revert start. induction l as [|y l IH]; intros start; simpl.
  - intros H. by apply elem_of_nil in H.
  - intros H. apply elem_of_cons in H as [Heq|H].
    + inversion Heq; subst. lia.
    + apply IH in H. lia.
Qed.

Lemma cell_in_range (row : list string) (i : nat) :
  (i < length row)%nat -> exists c, row !! i = Some c /\ cell row i = Ok c.
Proof.
  intros Hi. destruct (lookup_lt_is_Some_2 row i Hi) as [c Hc].
  exists c. unfold cell. by rewrite Hc.
Qed.

Lemma set_property_known current_orcid property c self e d :
  dict_get current_orcid (base self) = Some e ->
  dict_get current_orcid (raw_base self) = Some (VDict d) ->
  set_property current_orcid property c self
  = Ok (mkExpertBase
          (dict_set current_orcid (VDict (dict_set property (VStr c) d)) (raw_base self))
          (dict_set current_orcid (extend_properties property (VStr c) e) (base self))).
Proof.
  intros He Hd. unfold set_property, dict_getitem. by rewrite He, Hd.
Qed.

Lemma merged_field_cons_empty i property rest row p before :
  row !! i = Some "" ->
  merged_field ((i, property) :: rest) row p before = merged_field rest row p before.
Proof.
  intros Hc. unfold merged_field. simpl. rewrite Hc. simpl.
  destruct (assigned rest row p); [done|]. by destruct (String.eqb property p).
Qed.

Lemma merged_field_cons_set i property rest row p c (d : dict value) :
  row !! i = Some c -> c ≠ "" ->
  merged_field ((i, property) :: rest) row p (dict_get p d)
  = merged_field rest row p (dict_get p (dict_set property (VStr c) d)).
Proof.
  intros Hc Hne. unfold merged_field. simpl. rewrite Hc.
  destruct (assigned rest row p); [done|].
  destruct (String.eqb_spec c ""); [done|].
  destruct (String.eqb_spec property p) as [->|Hp].
  - by rewrite dict_get_set_eq.
  - by rewrite dict_get_set_ne.
Qed.

Section merge_cells.
Variables (current_orcid : string) (row : list string).

Lemma merge_cells_spec (columns : list (nat * string)) :
  forall self e d,
    (forall i x, (i, x) ∈ columns -> (i < length row)%nat) ->
    dict_get current_orcid (base self) = Some e ->
    dict_get current_orcid (raw_base self) = Some (VDict d) ->
    exists self' e' d',
      for_each (merge_cell current_orcid row) columns self = Ok self'
      /\ dict_get current_orcid (base self') = Some e'
      /\ dict_get current_orcid (raw_base self') = Some (VDict d')
      /\ orcid e' = orcid e
      /\ (forall p, dict_get p (properties e')
                    = merged_field columns row p (dict_get p (properties e)))
      /\ (forall p, dict_get p d' = merged_field columns row p (dict_get p d))
      /\ (forall k, k ≠ current_orcid ->
                    dict_get k (base self') = dict_get k (base self)
                    /\ dict_get k (raw_base self') = dict_get k (raw_base self))
      /\ dict_keys (base self') = dict_keys (base self)
      /\ dict_keys (raw_base self') = dict_keys (raw_base self).
Proof.
  induction columns as [|[i property] rest IH]; intros self e d Hrange He Hd.
  - exists self, e, d. simpl. unfold merged_field. simpl. repeat split; done.
  - destruct (cell_in_range row i) as (c & Hc & Hcell).
    { eapply Hrange. left. }
    assert (forall j x, (j, x) ∈ rest -> (j < length row)%nat) as Hrest.
    { intros j x Hj. eapply Hrange. right. done. }
    rewrite for_each_cons.
    destruct (String.eqb_spec c "") as [->|Hne].
    + replace (merge_cell current_orcid row self (i, property)) with (Ok self)
        by (unfold merge_cell; simpl; by rewrite Hcell).
      rewrite result_bind_ok.
      destruct (IH self e d Hrest He Hd)
        as (self' & e' & d' & Hrun & He' & Hd' & Ho & Hp & Hq & Hother & Hk & Hk').
      exists self', e', d'. repeat split; try done.
      * intros p. rewrite Hp. by rewrite merged_field_cons_empty.
      * intros p. rewrite Hq. by rewrite merged_field_cons_empty.
      * by apply Hother.
      * by apply Hother.
    + pose (self1 := mkExpertBase
          (dict_set current_orcid (VDict (dict_set property (VStr c) d)) (raw_base self))
          (dict_set current_orcid (extend_properties property (VStr c) e) (base self))).
      replace (merge_cell current_orcid row self (i, property)) with (Ok self1).
      2:{ unfold merge_cell. simpl. rewrite Hcell. simpl.
          destruct (String.eqb_spec c ""); [done|].
          by rewrite (set_property_known _ _ _ _ e d He Hd). }
      rewrite result_bind_ok.
      destruct (IH self1 (extend_properties property (VStr c) e)
                   (dict_set property (VStr c) d) Hrest)
        as (self' & e' & d' & Hrun & He' & Hd' & Ho & Hp & Hq & Hother & Hk & Hk').
      { simpl. apply dict_get_set_eq. }
      { simpl. apply dict_get_set_eq. }
      exists self', e', d'. simpl in *. repeat split; try done.
      * intros p. rewrite Hp. by rewrite (merged_field_cons_set i property rest row p c).
      * intros p. rewrite Hq. by rewrite (merged_field_cons_set i property rest row p c).
      * destruct (Hother k) as [-> _]; [done|]. by rewrite dict_get_set_ne.
      * destruct (Hother k) as [_ ->]; [done|]. by rewrite dict_get_set_ne.
      * rewrite Hk. apply dict_keys_set_mem. by eapply dict_get_Some_key.
      * rewrite Hk'. apply dict_keys_set_mem. by eapply dict_get_Some_key.
Qed.

End merge_cells.

Lemma elem_of_enumerate {A : Type} (l : list A) (start i : nat) (x : A) :
  (i, x) ∈ enumerate start l <-> (start <= i)%nat /\ l !! (i - start)%nat = Some x.
Proof.
  revert start. induction l as [|y l IH]; intros start; simpl.
  - split; [intros H; by apply elem_of_nil in H|by intros [_ ?]].
  - rewrite elem_of_cons, IH. split.
    + intros [Heq|[Hle Hl]].
      * inversion Heq; subst. split; [lia|]. by rewrite Nat.sub_diag.
      * split; [lia|]. by replace (i - start)%nat with (S (i - S start)) by lia.
    + intros [Hle Hl]. destruct (decide (i = start)) as [->|Hne].
      * left. rewrite Nat.sub_diag in Hl. simpl in Hl. congruence.
      * right. split; [lia|].
        by replace (i - start)%nat with (S (i - S start)) in Hl by lia.
Qed.

Lemma enumerate_names {A : Type} (l : list A) (start : nat) :
  (enumerate start l).*2 = l.
Proof.
  revert start. induction l as [|y l IH]; intros start; simpl; [done|].
  by rewrite IH.
Qed.

Lemma assigned_absent columns row p : p ∉ columns.*2 -> assigned columns row p = None.
Proof.
  induction columns as [|[i q] rest IH]; simpl; [done|].
  rewrite not_elem_of_cons. intros [Hne Hn]. rewrite IH by done.
  by destruct (String.eqb_spec q p).
Qed.

(** With distinct column names, a non-empty cell is what its column's
    field is assigned. *)
Lemma assigned_nonempty columns row i p c :
  NoDup columns.*2 -> (i, p) ∈ columns -> row !! i = Some c -> c ≠ "" ->
  assigned columns row p = Some c.
Proof.
  induction columns as [|[j q] rest IH]; simpl; intros Hnd Hin Hc Hne.
  - by apply elem_of_nil in Hin.
  - apply NoDup_cons in Hnd as [Hq Hnd].
    apply elem_of_cons in Hin as [Heq|Hin].
    + inversion Heq; subst. rewrite assigned_absent by done.
      rewrite String.eqb_refl, Hc. by destruct (String.eqb_spec c "").
    + by rewrite IH.
Qed.

(** A field all of whose cells are empty is not assigned. *)
Lemma assigned_empty columns row p :
  (forall i, (i, p) ∈ columns -> row !! i = Some "") ->
  assigned columns row p = None.
Proof.
  induction columns as [|[j q] rest IH]; simpl; intros H; [done|].
  rewrite IH by (intros i Hi; apply H; by right).
  destruct (String.eqb_spec q p) as [->|]; [|done].
  rewrite (H j) by left. done.
Qed.

(** The effect of one data row, in terms of [merged_field]. *)
Lemma merge_row_effect (header row : list string) (self : ExpertBase) (first : string) :
  (length header <= length row)%nat ->
  row !! 0%nat = Some first ->
  mirrored self ->
  let current_orcid := strip (lstrip_bom first) in
  let columns := enumerate 1 (tail header) in
  exists self',
    merge_row header (get_orcids_as_list self) self row = Ok self'
    /\ (current_orcid ∉ get_orcids_as_list self -> self' = self)
    /\ (forall e d,
          dict_get current_orcid (base self) = Some e ->
          dict_get current_orcid (raw_base self) = Some (VDict d) ->
          exists e' d',
            dict_get current_orcid (base self') = Some e'
            /\ dict_get current_orcid (raw_base self') = Some (VDict d')
            /\ orcid e' = orcid e
            /\ (forall p,
                  dict_get p (properties e')
                  = merged_field columns row p (dict_get p (properties e))
                  /\ dict_get p d' = merged_field columns row p (dict_get p d)))
    /\ (forall k, k ≠ current_orcid ->
                  dict_get k (base self') = dict_get k (base self)
                  /\ dict_get k (raw_base self') = dict_get k (raw_base self))
    /\ get_orcids_as_list self' = get_orcids_as_list self
    /\ mirrored self'.
Proof.
  intros Hlen Hfirst Hmirror current_orcid columns.
  unfold merge_row, cell. rewrite Hfirst. simpl. fold current_orcid.
  unfold get_orcids_as_list in *.
  destruct (decide (current_orcid ∈ dict_keys (base self))) as [Hin|Hnotin].
  - rewrite bool_decide_eq_true_2 by done.
    destruct (dict_get_is_Some _ _ Hin) as [e He].
    destruct (Hmirror _ Hin) as [d Hd].
    unfold dict_getitem. rewrite He. simpl. fold columns.
    destruct (merge_cells_spec current_orcid row columns self e d)
      as (self' & e' & d' & Hrun & He' & Hd' & Ho & Hp & Hq & Hother & Hk & Hk');
      [|done..|].
    { intros i x Hi. apply enumerate_bounds in Hi.
      destruct header; simpl in *; lia. }
    exists self'. split; [done|]. split; [done|]. split; [|split; [done|split; [done|]]].
    + intros e0 d0 He0 Hd0.
      assert (e0 = e) as -> by congruence. assert (d0 = d) as -> by congruence.
      exists e', d'. split; [done|]. split; [done|]. split; [done|]. by intros p.
    + intros k Hk0. rewrite Hk in Hk0.
      destruct (decide (k = current_orcid)) as [->|Hne]; [by exists d'|].
      destruct (Hother k Hne) as [_ ->]. by apply Hmirror.
  - rewrite bool_decide_eq_false_2 by done.
    exists self. split; [done|]. split; [done|]. split; [|done].
    intros e d He. apply dict_get_Some_key in He. done.
Qed.

Lemma sample_base_mirrored : mirrored sample_base.
Proof.
  intros k Hk. apply list_elem_of_singleton in Hk. subst k.
  eexists. reflexivity.
Defined.

(** The merge of a well-formed override CSV returns, whatever identifiers
    its rows name. *)
Lemma merge_rows_total header orcids rows :
  forall self,
    (forall row, row ∈ rows -> row ≠ [] /\ (length header <= length row)%nat) ->
    get_orcids_as_list self = orcids ->
    mirrored self ->
    exists self',
      for_each (merge_row header orcids) rows self = Ok self'
      /\ get_orcids_as_list self' = orcids
      /\ mirrored self'.
Proof.
  induction rows as [|row rows IH]; intros self Hrows Hkeys Hmirror.
  - exists self. by simpl.
  - destruct (Hrows row) as [Hne Hlen]; [left|].
    destruct row as [|first row']; [done|].
    destruct (merge_row_effect header (first :: row') self first Hlen eq_refl Hmirror)
      as (self1 & Hrun & _ & _ & _ & Hkeys1 & Hmirror1).
    rewrite Hkeys in Hrun, Hkeys1.
    destruct (IH self1) as (self' & Hrun' & Hkeys' & Hmirror'); [|done..|].
    { intros r Hr. apply Hrows. by right. }
    exists self'. rewrite for_each_cons, Hrun. by simpl.
Qed.

Lemma add_properties_from_csv_total header rows self :
  (forall row, row ∈ rows -> row ≠ [] /\ (length header <= length row)%nat) ->
  mirrored self ->
  exists self',
    add_properties_from_csv (header :: rows) self = Ok self'
    /\ get_orcids_as_list self' = get_orcids_as_list self
    /\ mirrored self'.
Proof.
  intros Hrows Hmirror. unfold add_properties_from_csv.
  destruct (length header <? 2)%nat eqn:Hlen; [by exists self|].
  apply Nat.ltb_ge in Hlen.
  destruct (cell_in_range header 0) as (h & _ & ->); [lia|]. simpl.
  destruct (negb (String.eqb (lower h) "orcid")); [by exists self|].
  by apply merge_rows_total.
Qed.

(** With a well-formed header the method is the loop over the data rows. *)
Lemma add_properties_from_csv_rows header h rows self :
  (2 <= length header)%nat ->
  header !! 0%nat = Some h ->
  lower h = "orcid" ->
  add_properties_from_csv (header :: rows) self
  = for_each (merge_row header (get_orcids_as_list self)) rows self.
Proof.
  intros Hlen Hh Hlower. unfold add_properties_from_csv, cell.
  destruct (Nat.ltb_spec (length header) 2); [lia|].
  rewrite Hh. simpl. by rewrite Hlower.
Qed.

(** C4: a well-formed override CSV (the first header cell reads "orcid"
    in any case, there are at least two columns, every data row has a cell
    for every header column), merged by [add_properties_from_csv] into an
    expert base whose live experts are mirrored in the raw store.  The
    merge returns.  For every data row, compare the expert base after the
    rows before it with the expert base after these rows and the row
    itself.  If the row's identifier, stripped of byte order mark and
    white space, is not a known identifier, the two are the same: no
    record is changed.  If it is known, its record is there, and on the
    live expert and on its mirror alike every field is the cell assigned
    to it, or what it was when no non-empty cell names it: with distinct
    column names a non-empty cell sets its column's field to the cell, and
    a field whose cells are all empty keeps its value.  No other record
    changes. *)
Theorem add_properties_from_csv_row_by_row (header : list string) (h : string)
    (before : list (list string)) (row : list string) (after : list (list string))
    (self : ExpertBase) (first : string) :
  (2 <= length header)%nat ->
  header !! 0%nat = Some h ->
  lower h = "orcid" ->
  (forall r, r ∈ (before ++ row :: after)%list -> (length header <= length r)%nat) ->
  row !! 0%nat = Some first ->
  mirrored self ->
  let current_orcid := strip (lstrip_bom first) in
  let columns := enumerate 1 (tail header) in
  exists s s' final,
    add_properties_from_csv (header :: before) self = Ok s
    /\ add_properties_from_csv (header :: before ++ [row])%list self = Ok s'
    /\ add_properties_from_csv (header :: before ++ row :: after)%list self = Ok final
    /\ (current_orcid ∉ get_orcids_as_list self -> s' = s)
    /\ (current_orcid ∈ get_orcids_as_list self ->
        exists e d,
          dict_get current_orcid (base s) = Some e
          /\ dict_get current_orcid (raw_base s) = Some (VDict d))
    /\ (forall e d,
          dict_get current_orcid (base s) = Some e ->
          dict_get current_orcid (raw_base s) = Some (VDict d) ->
          exists e' d',
            dict_get current_orcid (base s') = Some e'
            /\ dict_get current_orcid (raw_base s') = Some (VDict d')
            /\ orcid e' = orcid e
            /\ (forall p,
                  dict_get p (properties e')
                  = merged_field columns row p (dict_get p (properties e))
                  /\ dict_get p d' = merged_field columns row p (dict_get p d))
            /\ (forall i p c,
                  NoDup (tail header) ->
                  tail header !! i = Some p ->
                  row !! S i = Some c -> c ≠ "" ->
                  dict_get p (properties e') = Some (VStr c)
                  /\ dict_get p d' = Some (VStr c))
            /\ (forall p,
                  (forall i, tail header !! i = Some p -> row !! S i = Some "") ->
                  dict_get p (properties e') = dict_get p (properties e)
                  /\ dict_get p d' = dict_get p d))
    /\ (forall k, k ≠ current_orcid ->
                  dict_get k (base s') = dict_get k (base s)
                  /\ dict_get k (raw_base s') = dict_get k (raw_base s))
    /\ get_orcids_as_list s' = get_orcids_as_list self
    /\ mirrored s'.
Proof.
  intros Hlen Hh Hlower Hrows Hfirst Hmirror current_orcid columns.
  rewrite !(add_properties_from_csv_rows header h) by done.
  assert (forall rs : list (list string),
            (forall r, r ∈ rs -> r ∈ (before ++ row :: after)%list) ->
            forall r, r ∈ rs -> r ≠ [] /\ (length header <= length r)%nat) as Hwf.
  { intros rs Hin r Hr. specialize (Hrows r (Hin r Hr)).
    split; [|done]. intros ->. simpl in Hrows. lia. }
  destruct (merge_rows_total header (get_orcids_as_list self) before self)
    as (s & Hs & Hkeys & Hmirror_s); [|done..|].
  { apply Hwf. intros r Hr. apply elem_of_app. by left. }
  assert (length header <= length row)%nat as Hrow.
  { apply Hrows. apply elem_of_app. right. left. }
  destruct (merge_row_effect header row s first Hrow Hfirst Hmirror_s)
    as (s' & Hrun & Hunknown & Hknown & Hother & Hkeys' & Hmirror').
  fold current_orcid in Hunknown, Hknown, Hother. fold columns in Hknown.
  rewrite Hkeys in Hrun, Hunknown, Hkeys'.
  destruct (merge_rows_total header (get_orcids_as_list self) after s')
    as (final & Hfinal & _ & _); [|done..|].
  { apply Hwf. intros r Hr. apply elem_of_app. right. by right. }
  exists s, s', final. split; [done|]. split.
  { rewrite for_each_app, Hs. simpl. by rewrite Hrun. }
  split.
  { rewrite for_each_app, Hs. simpl. rewrite Hrun. done. }
  split; [done|]. split.
  { intros Hin. rewrite <- Hkeys in Hin. unfold get_orcids_as_list in Hin.
    destruct (dict_get_is_Some _ _ Hin) as [e He].
    destruct (Hmirror_s _ Hin) as [d Hd]. by exists e, d. }
  split; [|done].
  intros e d He Hd.
  destruct (Hknown e d He Hd) as (e' & d' & He' & Hd' & Ho & Hfields).
  exists e', d'. split; [done|]. split; [done|]. split; [done|].
  split; [done|]. split.
  - intros i p c Hnd Hp' Hc Hne.
    assert (assigned columns row p = Some c) as Ha.
    { apply (assigned_nonempty columns row (S i)); [|  |done..].
      - unfold columns. by rewrite enumerate_names.
      - apply elem_of_enumerate. split; [lia|].
        by replace (S i - 1)%nat with i by lia. }
    destruct (Hfields p) as [-> ->]. unfold merged_field. by rewrite Ha.
  - intros p Hempty.
    assert (assigned columns row p = None) as Ha.
    { apply assigned_empty. intros i Hi.
      apply elem_of_enumerate in Hi as [Hle Hi].
      replace i with (S (i - 1)) by lia. by apply Hempty. }
    destruct (Hfields p) as [-> ->]. unfold merged_field. by rewrite Ha.
Qed.

Lemma add_properties_from_csv_row_by_row_witness :
  (2 <= length sample_header)%nat
  /\ lower "ORCID" = "orcid"
  /\ mirrored sample_base
  /\ exists s' e',
       add_properties_from_csv [sample_header; sample_row] sample_base = Ok s'
       /\ dict_get "0000-0001" (base s') = Some e'
       /\ dict_get "Titel" (properties e') = Some (VStr "Dr.")
       /\ dict_get "Ort" (properties e') = Some (VStr "London").
Proof.
  assert (2 <= length sample_header)%nat as Hlen by (simpl; lia).
  split; [exact Hlen|]. split; [reflexivity|]. split; [exact sample_base_mirrored|].
  assert (forall r, r ∈ ([] ++ sample_row :: [])%list ->
                    (length sample_header <= length r)%nat) as Hrows.
  { intros r Hr. apply list_elem_of_singleton in Hr. subst r. simpl. lia. }
  destruct (add_properties_from_csv_row_by_row sample_header "ORCID" [] sample_row []
              sample_base " 0000-0001 " Hlen eq_refl eq_refl Hrows eq_refl
              sample_base_mirrored)
    as (s & s' & final & Hs & Hs' & _ & _ & _ & Hknown & _).
  injection Hs as <-.
  destruct (Hknown _ _ eq_refl eq_refl)
    as (e' & d' & He' & _ & _ & _ & Hset & Hkeep).
  exists s', e'. split; [exact Hs'|]. split; [exact He'|]. split.
  - refine (proj1 (Hset 0%nat "Titel" "Dr." _ eq_refl eq_refl _)); [|discriminate].
    apply NoDup_cons. split; [|apply NoDup_singleton].
    intros H. apply list_elem_of_singleton in H. discriminate H.
  - refine (eq_trans (proj1 (Hkeep "Ort" _)) eq_refl).
    intros [|[|i]] Hi; [discriminate Hi|reflexivity|discriminate Hi].
Defined.

(** ** The lookup-id resolver *)

Lemma backoff_delay_S (k : nat) :
  Z.min (backoff_delay k * 2) 60 = backoff_delay (S k).
Proof.
  unfold backoff_delay. rewrite Nat2Z.inj_succ, Z.pow_succ_r by lia.
  assert (0 < 2 ^ Z.of_nat k) by (apply Z.pow_pos_nonneg; lia). lia.
Qed.

Section search_loop_facts.
Variables (attempts : nat -> response) (search_string : value) (max_retries : Z).

(** [k] rate-limited answers in a row: [k] sleeps, each twice the one
    before up to the cap, and the loop goes on with [k] more retries. *)
Lemma search_loop_rate_limited (k : nat) :
  forall (fuel r : nat) (sleeps : list Z),
    (k < fuel)%nat ->
    Z.of_nat r + Z.of_nat k <= max_retries + 1 ->
    (forall j, (r <= j < r + k)%nat -> rate_limited (attempts j) = true) ->
    search_loop fuel attempts search_string max_retries
                (Z.of_nat r) (backoff_delay r) sleeps
    = search_loop (fuel - k) attempts search_string max_retries
                  (Z.of_nat (r + k)) (backoff_delay (r + k))
                  (sleeps ++ (backoff_delay <$> seq r k))%list.
Proof.
  induction k as [|k IH]; intros fuel r sleeps Hfuel Hbudget Hlimited.
  - rewrite Nat.sub_0_r, Nat.add_0_r. simpl. by rewrite app_nil_r.
  - destruct fuel as [|fuel]; [lia|]. simpl search_loop.
    destruct (Z.leb_spec (Z.of_nat r) max_retries); [|lia].
    rewrite Nat2Z.id. specialize (Hlimited r) as Hr.
    destruct (attempts r) as [|status_code body]; [simpl in Hr; lia|].
    simpl in Hr. rewrite Hr by lia.
    rewrite backoff_delay_S.
    replace (Z.of_nat r + 1) with (Z.of_nat (S r)) by lia.
    rewrite IH; [|lia|lia|intros j Hj; apply Hlimited; lia].
    replace (S r + k)%nat with (r + S k)%nat by lia.
    replace (S fuel - S k)%nat with (fuel - k)%nat by lia.
    simpl. by rewrite <- app_assoc.
Qed.

(** Once the budget is spent the loop ends and the input is returned. *)
Lemma search_loop_exhausted (fuel : nat) (retries backoff : Z) (sleeps : list Z) :
  max_retries < retries ->
  search_loop (S fuel) attempts search_string max_retries retries backoff sleeps
  = Some (sleeps, Ok search_string).
Proof.
  intros H. simpl. by destruct (Z.leb_spec retries max_retries); [lia|].
Qed.

(** Within the budget, an answer that [falls_back] ends the loop with the
    input returned. *)
Lemma search_loop_falls_back (fuel r : nat) (backoff : Z) (sleeps : list Z) :
  Z.of_nat r <= max_retries ->
  falls_back (attempts r) = true ->
  search_loop (S fuel) attempts search_string max_retries (Z.of_nat r) backoff sleeps
  = Some (sleeps, Ok search_string).
Proof.
  intros Hr Hfb. simpl.
  destruct (Z.leb_spec (Z.of_nat r) max_retries); [|lia].
  rewrite Nat2Z.id.
  destruct (attempts r) as [|status_code body]; [done|]. simpl in Hfb.
  destruct (status_code =? 429); [done|]. simpl in Hfb.
  destruct ((400 <=? status_code) && (status_code <? 600)); [done|].
  simpl in Hfb. destruct body as [data|]; [|done].
  destruct data as [| | | | |d]; try done. simpl.
  by destruct (truthy (default VNone (dict_get "search" d))).
Qed.

(** The loop ends before the fuel given by [search_wikidata_id] is used up. *)
Lemma search_loop_total (n : nat) :
  forall (fuel : nat) (retries backoff : Z) (sleeps : list Z),
    (n < fuel)%nat ->
    max_retries + 1 - retries <= Z.of_nat n ->
    is_Some (search_loop fuel attempts search_string max_retries retries backoff sleeps).
Proof.
  induction n as [|n IH]; intros fuel retries backoff sleeps Hfuel Hn;
    (destruct fuel as [|fuel]; [lia|]); simpl;
    destruct (Z.leb_spec retries max_retries); try lia; try by eexists.
  destruct (attempts (Z.to_nat retries)) as [|status_code body]; [by eexists|].
  destruct (status_code =? 429); [apply IH; lia|].
  destruct ((400 <=? status_code) && (status_code <? 600)); [by eexists|].
  destruct body; by eexists.
Qed.

End search_loop_facts.

Lemma search_wikidata_id_start attempts search_string max_retries :
  search_wikidata_id attempts search_string max_retries
  = search_loop (S (Z.to_nat (max_retries + 1))) attempts search_string max_retries
                (Z.of_nat 0) (backoff_delay 0) [].
Proof. reflexivity. Qed.

(** Whatever the lookup service answers, [search_wikidata_id] ends. *)
Lemma search_wikidata_id_total attempts search_string max_retries :
  is_Some (search_wikidata_id attempts search_string max_retries).
Proof.
  unfold search_wikidata_id.
  apply (search_loop_total _ _ _ (Z.to_nat (max_retries + 1))); lia.
Qed.

(** One rate-limited answer, then a result: one sleep of a second, and the
    identifier of the first result. *)
Lemma search_wikidata_id_retry_example :
  search_wikidata_id
    (fun k => match k with
              | O => Http 429 None
              | _ => Http 200 (Some (VDict [("search",
                                             VList [VDict [("id", VStr "Q155354")]])]))
              end)
    (VStr "Philipps-Universität Marburg") 5
  = Some ([1], Ok (VStr "Q155354")).
Proof. reflexivity. Qed.

(** Within the budget, an answer with a first result ends the loop with
    the identifier of that result. *)
Lemma search_loop_found attempts search_string max_retries
    (fuel r : nat) (backoff : Z) (sleeps : list Z) (q : value) :
  Z.of_nat r <= max_retries ->
  found_id (attempts r) = Some q ->
  search_loop (S fuel) attempts search_string max_retries (Z.of_nat r) backoff sleeps
  = Some (sleeps, Ok q).
Proof.
  intros Hr Hfound. simpl.
  destruct (Z.leb_spec (Z.of_nat r) max_retries); [|lia].
  rewrite Nat2Z.id.
  destruct (attempts r) as [|status_code [[| | | | |d]|]]; try done.
  simpl in Hfound.
  destruct (status_code =? 429); [done|]. simpl in Hfound.
  destruct ((400 <=? status_code) && (status_code <? 600)); [done|].
  simpl. destruct (dict_get "search" d) as [[| | | |[|[| | | | |first] rest]|]|];
    try done.
  simpl. by rewrite Hfound.
Qed.

(** Expected answers never make the loop raise. *)
Lemma search_loop_expected attempts search_string max_retries (n : nat) :
  forall (fuel r : nat) (backoff : Z) (sleeps : list Z),
    (n < fuel)%nat ->
    max_retries + 1 - Z.of_nat r <= Z.of_nat n ->
    (forall k, Z.of_nat k <= max_retries -> expected_answer (attempts k) = true) ->
    exists sleeps' v,
      search_loop fuel attempts search_string max_retries (Z.of_nat r) backoff sleeps
      = Some (sleeps', Ok v).
Proof.
  induction n as [|n IH]; intros fuel r backoff sleeps Hfuel Hn Hexp;
    (destruct fuel as [|fuel]; [lia|]);
    (destruct (Z.leb_spec (Z.of_nat r) max_retries) as [Hr|Hr];
     [|rewrite search_loop_exhausted by lia; by do 2 eexists]); [lia|].
  specialize (Hexp r Hr) as Hk. unfold expected_answer in Hk.
  destruct (rate_limited (attempts r)) eqn:Hlim.
  - simpl. destruct (Z.leb_spec (Z.of_nat r) max_retries); [|lia].
    rewrite Nat2Z.id. destruct (attempts r) as [|status_code body]; [done|].
    simpl in Hlim. rewrite Hlim.
    replace (Z.of_nat r + 1) with (Z.of_nat (S r)) by lia.
    apply IH; [lia|lia|done].
  - destruct (falls_back (attempts r)) eqn:Hfb.
    + rewrite search_loop_falls_back by done. by do 2 eexists.
    + simpl in Hk. apply bool_decide_eq_true in Hk as [q Hq].
      rewrite (search_loop_found _ _ _ _ _ _ _ q) by done. by do 2 eexists.
Qed.

(** C6, counterexample: a body that decodes to something other than an
    object makes [data.get] raise [AttributeError], which neither [except]
    clause catches. *)
Lemma search_wikidata_id_unexpected_body :
  search_wikidata_id (fun _ => Http 200 (Some (VList []))) (VStr "Marburg") 5
  = Some ([], Raise AttributeError).
Proof. reflexivity. Qed.

(** C6, as amended: [search_wikidata_id] always ends.  If the first [k]
    answers are rate-limited (status 429) and either the budget of
    [max_retries + 1] attempts is spent with them, or the next answer
    within the budget is a request exception, an HTTP error status, an
    undecodable body or an object without search results, then the result
    is the input, and the function has slept exactly [k] times, for 1, 2,
    4, ... seconds, doubling up to the cap of 60.  As long as every answer
    is one of these or carries a first result with an identifier, no
    exception reaches the caller. *)
Theorem search_wikidata_id_outcomes (attempts : nat -> response)
    (search_string : value) (max_retries : Z) :
  is_Some (search_wikidata_id attempts search_string max_retries)
  /\ (forall k : nat,
        (forall j, (j < k)%nat -> rate_limited (attempts j) = true) ->
        Z.of_nat k <= Z.max 0 (max_retries + 1) ->
        Z.of_nat k = Z.max 0 (max_retries + 1) \/ falls_back (attempts k) = true ->
        search_wikidata_id attempts search_string max_retries
        = Some (backoff_delay <$> seq 0 k, Ok search_string)
        /\ (forall j, (j < k)%nat ->
                      (backoff_delay <$> seq 0 k) !! j
                      = Some (Z.min (2 ^ Z.of_nat j) 60)))
  /\ ((forall k, Z.of_nat k <= max_retries -> expected_answer (attempts k) = true) ->
      exists sleeps v,
        search_wikidata_id attempts search_string max_retries = Some (sleeps, Ok v)).
Proof.
  split; [apply search_wikidata_id_total|]. split.
  - intros k Hlimited Hk Hend. split.
    + rewrite search_wikidata_id_start.
      destruct (decide (k = 0%nat)) as [->|Hpos].
      * simpl seq. simpl fmap.
        destruct (Z.ltb_spec max_retries 0).
        -- by apply search_loop_exhausted.
        -- destruct Hend as [Hend|Hend]; [lia|].
           apply search_loop_falls_back; [simpl; lia|done].
      * rewrite (search_loop_rate_limited attempts search_string max_retries k);
          [|lia|lia|intros j Hj; apply Hlimited; lia].
        simpl app. rewrite Nat.add_0_l.
        replace (S (Z.to_nat (max_retries + 1)) - k)%nat
          with (S (Z.to_nat (max_retries + 1) - k)) by lia.
        destruct Hend as [Hend|Hend].
        -- apply search_loop_exhausted. lia.
        -- destruct (decide (Z.of_nat k <= max_retries)).
           ++ by apply search_loop_falls_back.
           ++ apply search_loop_exhausted. lia.
    + intros j Hj. rewrite list_lookup_fmap, lookup_seq_lt by done. done.
  - intros Hexp. rewrite search_wikidata_id_start.
    apply (search_loop_expected _ _ _ (Z.to_nat (max_retries + 1))); [lia|lia|done].
Qed.

Lemma search_wikidata_id_outcomes_witness :
  (forall j, (j < 6)%nat -> rate_limited (Http 429 None) = true)
  /\ search_wikidata_id (fun _ => Http 429 None) (VStr "Universität Marburg") 5
     = Some ([1; 2; 4; 8; 16; 32], Ok (VStr "Universität Marburg")).
Proof.
  assert (forall j, (j < 6)%nat -> rate_limited (Http 429 None) = true) as H
    by (intros j _; reflexivity).
  split; [exact H|].
  refine (proj1 (proj1 (proj2 (search_wikidata_id_outcomes
                                 (fun _ => Http 429 None) (VStr "Universität Marburg") 5))
                       6%nat H _ _)).
  - vm_compute. discriminate.
  - left. reflexivity.
Defined.

(** ** Serialisation round trip *)

Lemma dict_set_fmap {A B : Type} (f : string * A -> string * B) (g : string -> A -> B)
    k v (d : dict A) :
  (forall k v, f (k, v) = (k, g k v)) ->
  dict_set k (g k v) (f <$> d) = f <$> dict_set k v d.
Proof.
  intros Hf. induction d as [|[k' v'] d IH]; simpl.
  - by rewrite Hf.
  - rewrite Hf. simpl. destruct (String.eqb_spec k k') as [->|Hne]; simpl.
    + by rewrite Hf.
    + rewrite Hf. f_equal. exact IH.
Qed.

Lemma dict_set_fresh {A : Type} k (v : A) (d : dict A) :
  k ∉ dict_keys d -> dict_set k v d = (d ++ [(k, v)])%list.
Proof.
  unfold dict_keys. induction d as [|[k' v'] d IH]; simpl; [done|].
  rewrite not_elem_of_cons. intros [Hne Hn].
  destruct (String.eqb_spec k k'); [done|]. by rewrite IH.
Qed.

Lemma dict_set_Forall {A : Type} (P : string * A -> Prop) k v (d : dict A) :
  Forall P d -> P (k, v) -> Forall P (dict_set k v d).
Proof.
  intros Hd Hkv. induction Hd as [|[k' v'] d Hx Hd IH]; simpl.
  - by constructor.
  - destruct (String.eqb_spec k k') as [->|Hne]; by constructor.
Qed.

Lemma dict_get_fmap {A B : Type} (f : string * A -> string * B) (g : string -> A -> B)
    k (d : dict A) :
  (forall k v, f (k, v) = (k, g k v)) ->
  dict_get k (f <$> d) = g k <$> dict_get k d.
Proof.
  intros Hf. induction d as [|[k' v'] d IH]; simpl; [done|].
  rewrite Hf. simpl. by destruct (String.eqb_spec k k') as [->|Hne].
Qed.

Lemma faithful_mirror_empty : faithful_mirror empty_base.
Proof. repeat split; simpl; constructor. Qed.

(** A pass of the batch loop either skips or stores a populated record, live
    and raw alike. *)
Lemma populate_step_faithful registry today tadirah_map self orcid' self' :
  faithful_mirror self ->
  populate_step registry today tadirah_map self orcid' = Ok self' ->
  faithful_mirror self'.
Proof.
  intros (Hraw & Hnd & Hall) Hstep. unfold populate_step in Hstep.
  repeat match type of Hstep with
         | (?m ≫= _) = Ok _ =>
             let E := fresh "E" in
             destruct m eqn:E; simpl in Hstep; [|discriminate]
         | (if ?c then _ else _) = Ok _ =>
             destruct c; [injection Hstep as <-; by repeat split|]
         end.
  injection Hstep as <-. unfold get_properties. simpl.
  repeat split; simpl.
  - rewrite Hraw.
    by rewrite <- (dict_set_fmap mirror_entry (fun _ e => VDict (properties e))).
  - by apply dict_set_NoDup.
  - apply dict_set_Forall; [done|]. simpl. split; [done|].
    unfold populated_record, registry_fields. simpl.
    repeat constructor; by eexists.
Qed.

Lemma populate_from_csv_faithful registry today csv self self' :
  faithful_mirror self ->
  populate_from_csv registry today csv self = Ok self' ->
  faithful_mirror self'.
Proof.
  intros Hinv Hrun. unfold populate_from_csv in Hrun.
  destruct (read_orcids_from_csv csv) as [orcids|]; simpl in Hrun; [|done].
  destruct (create_tadirah_map csv) as [tadirah_map|]; simpl in Hrun; [|done].
  eapply (for_each_invariant faithful_mirror); [|exact Hinv|exact Hrun].
  intros s x s' _ Hs Hstep. by eapply populate_step_faithful.
Qed.

Lemma stored_expert_dict k d :
  stored_expert k (VDict d) = Ok (reloaded (k, mkExpert k d)).2.
Proof. reflexivity. Qed.

(** Reading back a raw store with distinct identifiers rebuilds the experts
    one by one, in order. *)
Lemma deserialize_loop (b : dict Expert) :
  forall acc : dict Expert,
    NoDup (dict_keys acc ++ dict_keys b) ->
    for_each load_step (mirror_entry <$> b) acc
    = Ok (acc ++ (reloaded <$> b))%list.
Proof.
  induction b as [|[k e] b IH]; intros acc Hnd; simpl.
  - by rewrite app_nil_r.
  - apply NoDup_app in Hnd as (Hacc & Hdisj & Hb).
    apply NoDup_cons in Hb as [Hk Hb].
    rewrite dict_set_fresh by (intros Hin; apply (Hdisj k Hin); left).
    rewrite IH.
    + by rewrite <- app_assoc.
    + unfold dict_keys in *. rewrite fmap_app. simpl.
      rewrite <- app_assoc. simpl. apply NoDup_app. split; [done|]. split.
      * intros x Hx Hx'. apply (Hdisj x Hx). done.
      * by apply NoDup_cons.
Qed.

Lemma dict_get_Some_elem {A : Type} k (v : A) (d : dict A) :
  dict_get k d = Some v -> (k, v) ∈ d.
Proof.
  induction d as [|[k' v'] d IH]; simpl; [done|].
  destruct (String.eqb_spec k k') as [->|Hne].
  - intros [= ->]. left.
  - intros H. right. by apply IH.
Qed.

Lemma reloaded_keys (b : dict Expert) : dict_keys (reloaded <$> b) = dict_keys b.
Proof.
  unfold dict_keys. induction b as [|[k e] b IH]; simpl; [done|].
  f_equal. exact IH.
Qed.

(** Reading back the serialised raw store of an expert base whose raw store
    mirrors its live experts. *)
Lemma faithful_mirror_round_trip self :
  faithful_mirror self ->
  exists self',
    deserialize_expertbase (serialize_expertbase self) empty_base = Ok self'
    /\ raw_base self' = raw_base self
    /\ get_orcids_as_list self' = get_orcids_as_list self
    /\ forall k e,
         dict_get k (base self) = Some e ->
         exists e',
           dict_get k (base self') = Some e'
           /\ orcid e' = orcid e
           /\ (forall f, f ∈ registry_fields ->
                         is_Some (dict_get f (properties e))
                         /\ dict_get f (properties e') = dict_get f (properties e))
           /\ dict_get "TaDiRAH-Zuordnung" (properties e') = None.
Proof.
  intros (Hraw & Hnd & Hall).
  unfold deserialize_expertbase, serialize_expertbase. simpl base.
  rewrite Hraw, (deserialize_loop (base self) []) by done.
  simpl. eexists. split; [reflexivity|]. simpl.
  split; [done|]. split; [apply reloaded_keys|].
  intros k e He.
  rewrite (dict_get_fmap reloaded (fun k e => (reloaded (k, e)).2)) by done.
  rewrite He. simpl. eexists. split; [reflexivity|]. simpl.
  apply dict_get_Some_elem in He.
  rewrite Forall_forall in Hall. destruct (Hall _ He) as [Ho Hpop].
  simpl in Ho, Hpop. split; [done|]. split; [|reflexivity].
  intros f Hf. unfold populated_record in Hpop. rewrite Forall_forall in Hpop.
  destruct (Hpop f Hf) as [v Hv]. split; [by eexists|].
  unfold registry_fields in Hf.
  elem_cases Hf; simpl; by rewrite Hv.
Qed.

(** The override merge keeps the raw store a mirror of the live experts,
    so the round trip also holds after any number of merges. *)
Lemma set_property_faithful current_orcid property c self self' :
  faithful_mirror self ->
  set_property current_orcid property c self = Ok self' ->
  faithful_mirror self'.
Proof.
  intros (Hraw & Hnd & Hall) Hset. unfold set_property, dict_getitem in Hset.
  destruct (dict_get current_orcid (base self)) as [e|] eqn:He; [|done].
  simpl in Hset. rewrite Hraw in Hset.
  rewrite (dict_get_fmap mirror_entry (fun _ e => VDict (properties e))) in Hset by done.
  rewrite He in Hset. simpl in Hset. injection Hset as <-.
  repeat split; simpl.
  - by rewrite <- (dict_set_fmap mirror_entry (fun _ e => VDict (properties e))).
  - by apply dict_set_NoDup.
  - apply dict_get_Some_elem in He as Hin.
    rewrite Forall_forall in Hall. destruct (Hall _ Hin) as [Ho Hpop].
    apply dict_set_Forall; [by apply Forall_forall|]. simpl. split; [done|].
    unfold populated_record in *. simpl in *.
    eapply Forall_impl; [exact Hpop|]. intros f [v Hv].
    destruct (decide (property = f)) as [->|Hne].
    + rewrite dict_get_set_eq. by eexists.
    + rewrite dict_get_set_ne by done. by eexists.
Qed.

Lemma add_properties_from_csv_faithful csv self self' :
  faithful_mirror self ->
  add_properties_from_csv csv self = Ok self' ->
  faithful_mirror self'.
Proof.
  intros Hinv Hrun. unfold add_properties_from_csv in Hrun.
  destruct csv as [|header rows]; [done|].
  destruct (length header <? 2)%nat; [by injection Hrun as <-|].
  destruct (cell header 0) as [h|]; simpl in Hrun; [|done].
  destruct (negb (String.eqb (lower h) "orcid")); [by injection Hrun as <-|].
  eapply (for_each_invariant faithful_mirror); [|exact Hinv|exact Hrun].
  intros s row s' _ Hs Hrow. unfold merge_row in Hrow.
  destruct (cell row 0) as [first|]; simpl in Hrow; [|done].
  destruct (bool_decide _); [|by injection Hrow as <-].
  destruct (dict_getitem (base s) _); simpl in Hrow; [|done].
  eapply (for_each_invariant faithful_mirror); [|exact Hs|exact Hrow].
  intros s1 ip s2 _ Hs1 Hcell. unfold merge_cell in Hcell.
  destruct (cell row ip.1) as [c|]; simpl in Hcell; [|done].
  destruct (String.eqb c ""); [by injection Hcell as <-|].
  by eapply set_property_faithful.
Qed.

Lemma round_trip_after_merge registry today csv overrides self self1 :
  populate_from_csv registry today csv empty_base = Ok self ->
  add_properties_from_csv overrides self = Ok self1 ->
  exists self',
    deserialize_expertbase (serialize_expertbase self1) empty_base = Ok self'
    /\ forall k e,
         dict_get k (base self1) = Some e ->
         exists e',
           dict_get k (base self') = Some e'
           /\ forall f, f ∈ registry_fields ->
                        dict_get f (properties e') = dict_get f (properties e).
Proof.
  intros Hpop Hmerge.
  destruct (faithful_mirror_round_trip self1) as (self' & Hload & _ & _ & Hfields).
  { eapply add_properties_from_csv_faithful; [|exact Hmerge].
    by eapply populate_from_csv_faithful; [apply faithful_mirror_empty|]. }
  exists self'. split; [done|]. intros k e He.
  destruct (Hfields k e He) as (e' & He' & _ & Hf & _).
  exists e'. split; [done|]. intros f Hin. by apply Hf.
Qed.

(** C7: round trip.  For an expert base that [populate_from_csv] has built
    from registry data, reading back what [serialize_expertbase] writes
    succeeds, keeps the raw store and the identifiers, and gives for every
    identifier a record with the same identifier and the same "Vorname",
    "Nachname", "Derzeitige Beschäftigung", "Forschungsinteressen" and
    "E-Mail"; "TaDiRAH-Zuordnung" is not read back.  And whatever dict is
    stored for an identifier, each of the five fields of the record read
    back is the stored value, or the empty string or the empty list when
    the dict has no such key. *)
Theorem serialize_deserialize_round_trip :
  (forall registry today csv self,
      populate_from_csv registry today csv empty_base = Ok self ->
      exists self',
        deserialize_expertbase (serialize_expertbase self) empty_base = Ok self'
        /\ raw_base self' = raw_base self
        /\ get_orcids_as_list self' = get_orcids_as_list self
        /\ forall k e,
             dict_get k (base self) = Some e ->
             exists e',
               dict_get k (base self') = Some e'
               /\ orcid e' = orcid e
               /\ (forall f, f ∈ registry_fields ->
                             is_Some (dict_get f (properties e))
                             /\ dict_get f (properties e') = dict_get f (properties e))
               /\ dict_get "TaDiRAH-Zuordnung" (properties e') = None)
  /\ (forall k d,
        exists e',
          stored_expert k (VDict d) = Ok e'
          /\ orcid e' = k
          /\ dict_get "Vorname" (properties e')
             = Some (default (VStr "") (dict_get "Vorname" d))
          /\ dict_get "Nachname" (properties e')
             = Some (default (VStr "") (dict_get "Nachname" d))
          /\ dict_get "Derzeitige Beschäftigung" (properties e')
             = Some (default (VList []) (dict_get "Derzeitige Beschäftigung" d))
          /\ dict_get "Forschungsinteressen" (properties e')
             = Some (default (VList []) (dict_get "Forschungsinteressen" d))
          /\ dict_get "E-Mail" (properties e')
             = Some (default (VStr "") (dict_get "E-Mail" d))).
Proof.
  split.
  - intros registry today csv self Hrun.
    apply faithful_mirror_round_trip.
    by eapply populate_from_csv_faithful; [apply faithful_mirror_empty|].
  - intros k d. eexists. split; [apply stored_expert_dict|].
    repeat split; reflexivity.
Qed.

Lemma serialize_deserialize_round_trip_witness :
  exists self self',
    populate_from_csv (registry_with_first (Http 404 None)) (Date 2024 6 15)
                      two_identifiers empty_base = Ok self
    /\ deserialize_expertbase (serialize_expertbase self) empty_base = Ok self'
    /\ get_orcids_as_list self' = ["0000-0002"].
Proof.
  eexists.
  destruct (proj1 serialize_deserialize_round_trip
              (registry_with_first (Http 404 None)) (Date 2024 6 15)
              two_identifiers _ eq_refl)
    as (self' & Hload & _ & Hkeys & _).
  exists self'. split; [reflexivity|]. split; [exact Hload|exact Hkeys].
Defined.

(** ** Organisations, deduplicated by lookup key *)

Lemma value_nested_ind (P : value -> Prop) :
  P VNone -> (forall b, P (VBool b)) -> (forall z, P (VInt z)) ->
  (forall s, P (VStr s)) ->
  (forall l, Forall P l -> P (VList l)) ->
  (forall d, Forall (fun kv : string * value => P kv.2) d -> P (VDict d)) ->
  forall v, P v.
Proof.
  intros HNone HBool HInt HStr HList HDict. fix IH 1. intros [|b|z|s|l|d].
  - exact HNone.
  - apply HBool.
  - apply HInt.
  - apply HStr.
  - apply HList. induction l as [|v l IHl]; constructor; [apply IH|exact IHl].
  - apply HDict. induction d as [|[k v] d IHd]; constructor; [apply IH|exact IHd].
Qed.

Lemma value_eqb_eq (a b : value) : value_eqb a b = true <-> a = b.
Proof.
  revert b. induction a as [|x|x|x|l IHl|d IHd] using value_nested_ind;
    intros [|y|y|y|l'|d']; simpl; try (split; [discriminate|congruence]);
    try tauto.
  - rewrite Bool.eqb_true_iff. split; congruence.
  - rewrite Z.eqb_eq. split; congruence.
  - rewrite String.eqb_eq. split; congruence.
  - revert l'. induction IHl as [|v l Hv _ IH]; intros [|w l']; simpl;
      try (split; [discriminate|congruence]); try tauto.
    rewrite andb_true_iff, Hv, IH. split; [intros [-> [= ->]]|intros [= -> ->]]; done.
  - revert d'. induction IHd as [|[k v] d Hv _ IH]; intros [|[k' w] d']; simpl;
      try (split; [discriminate|congruence]); try tauto.
    simpl in Hv. rewrite !andb_true_iff, String.eqb_eq, Hv, IH.
    split; [intros [[-> ->] [= ->]]|intros [= -> -> ->]]; done.
Qed.

Lemma value_eqb_refl (a : value) : value_eqb a a = true.
Proof. by apply value_eqb_eq. Qed.






Lemma elem_of_filter_bool {A : Type} (p : A -> bool) (l : list A) (x : A) :
  x ∈ List.filter p l <-> x ∈ l /\ p x = true.
Proof. rewrite !list_elem_of_In. apply List.filter_In. Qed.




Section collect_qids_loop.
Variables (search : value -> result value) (key : value -> value).


End collect_qids_loop.

Section firsts_facts.
Context {A : Type} (key : A -> value).





(** Every key of the input is represented. *)
Lemma firsts_covers (l : list A) (x : A) :
  x ∈ l -> exists y, y ∈ firsts key l /\ key y = key x.
Proof.
  induction l as [|z l IH]; intros Hx; [by apply elem_of_nil in Hx|].
  apply elem_of_cons in Hx as [->|Hx]; simpl.
  - exists z. split; [left|done].
  - destruct (IH Hx) as (y & Hy & Hk).
    destruct (value_eqb (key y) (key z)) eqn:E.
    + apply value_eqb_eq in E. exists z. split; [left|congruence].
    + exists y. split; [|done]. right. apply elem_of_filter_bool.
      split; [done|]. by rewrite E.
Qed.



End firsts_facts.





(** ** The formatted keywords *)

Lemma clean_keywords_nonempty (l : list string) :
  Forall (fun k => k ≠ "") l ->
  map_each clean_keyword l = Ok (without_special <$> l).
Proof.
  induction 1 as [|k l Hk _ IH]; simpl; [done|].
  destruct k as [|c k]; [done|]. simpl. rewrite IH. simpl.
  by destruct (negb (is_alnum c)).
Qed.

Lemma clean_keywords_empty (l : list string) :
  "" ∈ l -> map_each clean_keyword l = Raise IndexError.
Proof.
  induction l as [|k l IH]; intros Hin; [by apply elem_of_nil in Hin|].
  simpl. destruct k as [|c k]; [done|].
  apply elem_of_cons in Hin as [Hin|Hin]; [done|].
  rewrite IH by done. simpl. by destruct (negb (is_alnum c)).
Qed.

(** A single entry with commas is split first, then every part is
    cleaned, title-cased and joined, when no part is empty. *)
Lemma format_keywords_split (k : string) :
  contains_char "," k = true ->
  Forall (fun part => part ≠ "") (strip <$> split_on "," k) ->
  format_keywords [k]
  = Ok (join ";" (title <$> (without_special <$> (strip <$> split_on "," k)))).
Proof.
  intros Hcomma Hparts. unfold format_keywords. rewrite Hcomma.
  by rewrite clean_keywords_nonempty.
Qed.

(** An empty part makes the accessor raise. *)
Lemma format_keywords_empty_part (k : string) :
  contains_char "," k = true ->
  "" ∈ strip <$> split_on "," k ->
  format_keywords [k] = Raise IndexError.
Proof.
  intros Hcomma Hparts. unfold format_keywords. rewrite Hcomma.
  by rewrite clean_keywords_empty.
Qed.

(** C9 (the code departs from the claim): the single entry "a, b, c" is
    split and gives "A;B;C", one output entry per part; but for a single
    entry with an empty part, as in "a,,b" or with a trailing comma, the
    accessor gives no output at all: [keyword[0]] on the empty part raises
    [IndexError]. *)
Theorem get_research_interest_empty_part_raises :
  get_research_interest true (with_interests ["a, b, c"]) = Ok (VStr "A;B;C")
  /\ get_research_interest true (with_interests ["a,,b"]) = Raise IndexError
  /\ get_research_interest true (with_interests ["history, philosophy,"])
     = Raise IndexError.
Proof. repeat split; reflexivity. Qed.

(** ** The topic-tag map *)

Lemma tadirah_step_tagged orcids tadirah row :
  tagged_row row ->
  tadirah_step (orcids, tadirah) row
  = Ok ((orcids ++ [row_identifier row])%list, (tadirah ++ [row_tags row])%list).
Proof.
  intros (c1 & c2 & H1 & H2 & Hcomma).
  unfold tadirah_step, cell, row_identifier, row_tags. rewrite H1, H2. simpl.
  by rewrite Hcomma.
Qed.

(** When every row has a comma in its third column, the two lists grow in
    step. *)
Lemma tadirah_loop_tagged (rows : list (list string)) :
  forall orcids tadirah,
    Forall tagged_row rows ->
    for_each tadirah_step rows (orcids, tadirah)
    = Ok ((orcids ++ (row_identifier <$> rows))%list,
          (tadirah ++ (row_tags <$> rows))%list).
Proof.
  induction rows as [|row rows IH]; intros orcids tadirah Hrows.
  - simpl. by rewrite !app_nil_r.
  - apply Forall_cons in Hrows as [Hrow Hrows].
    rewrite for_each_cons, tadirah_step_tagged, result_bind_ok by done.
    rewrite IH by done. simpl. by rewrite <- !app_assoc.
Qed.

Lemma zip_fmap_same {A B C : Type} (f : A -> B) (g : A -> C) (l : list A) :
  zip (f <$> l) (g <$> l) = (fun x => (f x, g x)) <$> l.
Proof. induction l as [|x l IH]; simpl; [done|]. f_equal. exact IH. Qed.

Lemma dict_pairs_get_other {A : Type} (ps : list (string * A)) k :
  forall acc : dict A,
    (forall p, p ∈ ps -> p.1 ≠ k) ->
    dict_get k (fold_left (fun d p => dict_set p.1 p.2 d) ps acc) = dict_get k acc.
Proof.
  induction ps as [|p ps IH]; intros acc Hother; simpl; [done|].
  rewrite IH by (intros q Hq; apply Hother; by right).
  apply dict_get_set_ne. apply Hother. left.
Qed.

(** [dict(pairs)] maps a key to the value of its last pair. *)
Lemma dict_pairs_get_last {A : Type} (ps : list (string * A)) k v :
  forall (acc : dict A) i,
    ps !! i = Some (k, v) ->
    (forall j p, (i < j)%nat -> ps !! j = Some p -> p.1 ≠ k) ->
    dict_get k (fold_left (fun d p => dict_set p.1 p.2 d) ps acc) = Some v.
Proof.
  induction ps as [|p ps IH]; intros acc i Hi Hlater; [done|].
  destruct i as [|i]; simpl in Hi; simpl.
  - injection Hi as ->. rewrite dict_pairs_get_other.
    + apply dict_get_set_eq.
    + intros q Hq. apply list_elem_of_lookup in Hq as [j Hj].
      apply (Hlater (S j)); [lia|done].
  - apply (IH _ i); [done|]. intros j q Hj Hq. apply (Hlater (S j)); [lia|done].
Qed.

(** C10: [create_tadirah_map] pairs identifiers and tag lists by position.
    When every data row has a comma in its third column, each identifier
    is mapped to the tags of its own row (of its last row, when it occurs
    more than once).  Without that precondition the pairing is off: in a
    CSV whose first row has a single tag and whose second row has two, the
    first identifier gets the tags of the second row and the second
    identifier is not in the map, and [populate_from_csv] raises
    [KeyError] at the second identifier although the registry served it. *)
Theorem create_tadirah_map_positional :
  (forall header rows,
      Forall tagged_row rows ->
      exists tadirah_map,
        create_tadirah_map (header :: rows) = Ok tadirah_map
        /\ forall i row,
             rows !! i = Some row ->
             (forall j row', (i < j)%nat -> rows !! j = Some row' ->
                             row_identifier row' ≠ row_identifier row) ->
             dict_get (row_identifier row) tadirah_map = Some (row_tags row))
  /\ create_tadirah_map one_tag_first
     = Ok [("0000-0001", ["Capture"; "Creation"])]
  /\ fetch_orcid_data registry_complete "0000-0002" "person" ≠ Ok VNone
  /\ fetch_orcid_data registry_complete "0000-0002" "activities" ≠ Ok VNone
  /\ populate_from_csv registry_complete (Date 2024 6 15) one_tag_first empty_base
     = Raise KeyError.
Proof.
  split; [|repeat split; done].
  intros header rows Hrows. unfold create_tadirah_map.
  rewrite tadirah_loop_tagged by done. simpl. eexists. split; [reflexivity|].
  intros i row Hi Hlater. rewrite zip_fmap_same. unfold dict_of_pairs.
  apply (dict_pairs_get_last _ _ _ [] i).
  - by rewrite list_lookup_fmap, Hi.
  - intros j p Hj Hp. rewrite list_lookup_fmap in Hp.
    destruct (rows !! j) as [row'|] eqn:Hj'; [|done].
    injection Hp as <-. simpl. by apply (Hlater j).
Qed.

Lemma create_tadirah_map_positional_witness :
  Forall tagged_row (tail two_identifiers)
  /\ exists tadirah_map,
       create_tadirah_map two_identifiers = Ok tadirah_map
       /\ dict_get "0000-0001" tadirah_map = Some ["Analysis"; "Modeling"].
Proof.
  assert (Forall tagged_row (tail two_identifiers)) as Hrows.
  { repeat constructor; do 2 eexists; repeat split; reflexivity. }
  split; [exact Hrows|].
  destruct (proj1 create_tadirah_map_positional
              ["name"; "orcid"; "tadirah"] (tail two_identifiers) Hrows)
    as (tadirah_map & Hmap & Hget).
  exists tadirah_map. split; [exact Hmap|].
  apply (Hget 0%nat ["Ada"; "0000-0001"; "Analysis, Modeling"] eq_refl).
  intros [|[|j]] row' Hj Hrow'; [lia| |done].
  injection Hrow' as <-. vm_compute. discriminate.
Defined.

(** ** Copies and sharing *)

Section aliasing.
Import Store.

Lemma closed_value_in_range (h : heap) (l : loc) (o : object) :
  closed h -> h !! l = Some o ->
  match o with
  | OList items => Forall (fun x => forall l', x = RRef l' -> (l' < length h)%nat) items
  | ODict entries =>
      Forall (fun kv : string * ref_value =>
                forall l', kv.2 = RRef l' -> (l' < length h)%nat) entries
  | OExpert _ properties => (properties < length h)%nat
  | OExpertBase raw_base base => (raw_base < length h)%nat /\ (base < length h)%nat
  end.
Proof.
  intros Hclosed Hl. specialize (Hclosed l o Hl). destruct o; simpl in *.
  - apply Forall_forall. intros x Hx l' ->. apply Hclosed.
    apply list_elem_of_bind. exists (RRef l'). split; [left|done].
  - apply Forall_forall. intros [k x] Hx l' Heq. simpl in Heq. subst x.
    apply Hclosed. apply list_elem_of_bind. exists (k, RRef l'). split; [left|done].
  - apply Hclosed. left.
  - split; apply Hclosed; [left|right; left].
Qed.

(** What is read from the objects of [h] does not depend on objects
    allocated later. *)
Lemma view_extends (h h' : heap) :
  closed h -> extends h h' ->
  forall fuel r,
    (forall l, r = RRef l -> (l < length h)%nat) ->
    view fuel h' r = view fuel h r.
Proof.
  intros Hclosed Hext fuel. induction fuel as [|fuel IH]; intros r Hr.
  - by destruct r.
  - destruct r as [| | | |l]; try done. simpl.
    rewrite (Hext l) by (by apply Hr).
    destruct (h !! l) as [o|] eqn:Hl; [|done].
    pose proof (closed_value_in_range h l o Hclosed Hl) as Hrange.
    destruct o as [items|entries|o p|r b]; simpl in Hrange.
    + f_equal. apply Forall_mapM_ext.
      eapply Forall_impl; [exact Hrange|]. intros x Hx. by apply IH.
    + f_equal. apply Forall_mapM_ext.
      eapply Forall_impl; [exact Hrange|]. intros [k x] Hx. simpl in *.
      by rewrite IH.
    + rewrite IH; [done|]. by intros l' [= <-].
    + destruct Hrange as [Hr' Hb]. rewrite !IH; [done| |]; by intros l' [= <-].
Qed.

(** A copied dict is a new object; assigning or deleting one of its keys
    changes no object that existed before the copy. *)
Lemma dict_copy_isolated (h : heap) (l : loc) (h1 : heap) (copy : loc) :
  dict_copy h l = Ok (h1, copy) ->
  copy = length h
  /\ extends h h1
  /\ h1 !! copy = h !! l
  /\ forall k v h2,
       setitem h1 copy k v = Ok h2 \/ delitem h1 copy k = Ok h2 ->
       extends h h2.
Proof.
  unfold dict_copy. destruct (h !! l) as [[| entries | |]|] eqn:Hl; try done.
  unfold alloc. intros [= <- <-].
  assert (extends h (h ++ [ODict entries])%list) as Hext
    by (intros l' Hl'; by apply lookup_app_l).
  split; [done|]. split; [done|]. split.
  - by rewrite lookup_app_r, Nat.sub_diag.
  - intros k v h2 Hmut l' Hl'. rewrite <- Hext by done.
    unfold setitem, delitem in Hmut.
    rewrite lookup_app_r, Nat.sub_diag in Hmut by done. simpl in Hmut.
    destruct Hmut as [[= <-]|Hdel].
    + apply list_lookup_insert_ne. lia.
    + destruct (dict_mem k entries); [|done]. injection Hdel as <-.
      apply list_lookup_insert_ne. lia.
Qed.

Lemma employment_heap_closed : closed employment_heap.
Proof.
  intros [|[|[|[|l]]]] o Hl l' Hl'; simpl in Hl; try done;
    injection Hl as <-; simpl in Hl'; elem_cases Hl'; simpl; lia.
Defined.

(** C5, counterexample: the copy is shallow.  After [get_properties], the
    entry "Derzeitige Beschäftigung" of the copy refers to the very list
    the live record holds; appending to it changes what is read from the
    live properties. *)
Lemma get_properties_shares_nested_values :
  ~ nested_mutation_isolated
  /\ exists h1 h2,
      get_properties employment_heap 3%nat = Ok (h1, 4%nat)
      /\ getitem h1 4%nat "Derzeitige Beschäftigung" = Ok (RRef 1%nat)
      /\ list_append h1 1%nat (RStr "x") = Ok h2
      /\ view 3 h1 (RRef 2%nat)
         = Some (VDict [("Vorname", VStr "Ada");
                        ("Derzeitige Beschäftigung",
                         VList [VList [VStr "Professor"; VNone; VStr "Uni Marburg"]])])
      /\ view 3 h2 (RRef 2%nat)
         = Some (VDict [("Vorname", VStr "Ada");
                        ("Derzeitige Beschäftigung",
                         VList [VList [VStr "Professor"; VNone; VStr "Uni Marburg"];
                                VStr "x"])]).
Proof.
  split; [|do 2 eexists; repeat split; reflexivity].
  intros H.
  specialize (H employment_heap 3%nat "0000-0001" 2%nat
                (employment_heap ++ [ODict [("Vorname", RStr "Ada");
                                            ("Derzeitige Beschäftigung", RRef 1%nat)]])%list
                (<[1%nat := OList [RRef 0%nat; RStr "x"]]>
                   (employment_heap ++ [ODict [("Vorname", RStr "Ada");
                                               ("Derzeitige Beschäftigung", RRef 1%nat)]]))%list
                4%nat 1%nat "Derzeitige Beschäftigung" (RStr "x") 3%nat).
  pose proof employment_heap_closed as Hclosed.
  specialize (H Hclosed eq_refl eq_refl eq_refl eq_refl).
  vm_compute in H. discriminate H.
Qed.

(** Through a reference held by a closed store, appending to a list or
    extending an expert changes the object that was there before. *)
Lemma shared_entry_mutable (h h1 : heap) (live copy : loc) :
  closed h ->
  extends h h1 ->
  (live < length h)%nat ->
  h1 !! copy = h !! live ->
  (forall k, getitem h1 copy k = getitem h live k)
  /\ (forall k l' v h2,
        getitem h1 copy k = Ok (RRef l') ->
        list_append h1 l' v = Ok h2 ->
        exists items,
          h !! l' = Some (OList items)
          /\ h2 !! l' = Some (OList (items ++ [v])%list)
          /\ getitem h2 live k = Ok (RRef l'))
  /\ (forall k l' p v h2,
        getitem h1 copy k = Ok (RRef l') ->
        extend_properties h1 l' p v = Ok h2 ->
        exists o props,
          h !! l' = Some (OExpert o props)
          /\ (props < length h)%nat
          /\ getitem h2 props p = Ok v).
Proof.
  intros Hclosed Hext Hlive Hcopy.
  assert (forall k, getitem h1 copy k = getitem h live k) as Hsame.
  { intros k. unfold getitem. by rewrite Hcopy. }
  assert (forall k l', getitem h1 copy k = Ok (RRef l') -> (l' < length h)%nat)
    as Hrange.
  { intros k l' Hk. rewrite Hsame in Hk. unfold getitem in Hk.
    destruct (h !! live) as [[|entries| |]|] eqn:Hl; try done.
    unfold dict_getitem in Hk.
    destruct (dict_get k entries) as [x|] eqn:Hx; [|done]. injection Hk as ->.
    pose proof (closed_value_in_range h live _ Hclosed Hl) as Hall. simpl in Hall.
    apply dict_get_Some_elem in Hx.
    rewrite Forall_forall in Hall. by apply (Hall _ Hx). }
  split; [done|]. split.
  - intros k l' v h2 Hk Happ. pose proof (Hrange _ _ Hk) as Hl'.
    unfold list_append in Happ. rewrite (Hext l' Hl') in Happ.
    destruct (h !! l') as [[items| | |]|] eqn:Hitems; try done.
    injection Happ as <-. exists items. split; [done|]. split.
    + apply list_lookup_insert_eq. rewrite <- (Hext l' Hl') in Hitems.
      by eapply lookup_lt_Some.
    + rewrite Hsame in Hk. unfold getitem in *.
      rewrite list_lookup_insert_ne, (Hext live Hlive); [done|].
      intros <-. unfold getitem in Hk. rewrite Hitems in Hk. done.
  - intros k l' p v h2 Hk Hextend. pose proof (Hrange _ _ Hk) as Hl'.
    unfold extend_properties in Hextend. rewrite (Hext l' Hl') in Hextend.
    destruct (h !! l') as [[| |o props|]|] eqn:Hexpert; try done.
    pose proof (closed_value_in_range h l' _ Hclosed Hexpert) as Hprops.
    simpl in Hprops. exists o, props. split; [done|]. split; [done|].
    unfold setitem in Hextend.
    destruct (h1 !! props) as [[|entries| |]|] eqn:Hentries; try done.
    injection Hextend as <-. unfold getitem.
    rewrite list_lookup_insert_eq by (by eapply lookup_lt_Some).
    unfold dict_getitem. by rewrite dict_get_set_eq.
Qed.

(** C5, as amended: the copies returned by [get_properties] and by
    [get_base] are new dict objects.  Assigning or deleting a key of the
    returned dict changes no object that existed before the call, and so
    leaves whatever is read from the live record, or from the live base,
    unchanged.  The copy is shallow: it holds the entries of the live
    dict, so an entry that is a reference refers to the live record's own
    object.  Appending to a list reached through the copy appends to the
    list the live dict refers to, and extending an expert reached through
    the copy of the base writes the properties of the live expert. *)
Theorem returned_copy_shallow (h : heap) (self : loc) (h1 : heap) (copy : loc) :
  closed h ->
  get_properties h self = Ok (h1, copy) \/ get_base h self = Ok (h1, copy) ->
  copy = length h
  /\ extends h h1
  /\ (forall k v h2,
        setitem h1 copy k v = Ok h2 \/ delitem h1 copy k = Ok h2 ->
        extends h h2
        /\ forall fuel r,
             (forall l, r = RRef l -> (l < length h)%nat) ->
             view fuel h2 r = view fuel h r)
  /\ exists live,
       ((exists o, h !! self = Some (OExpert o live)
                   /\ get_properties h self = Ok (h1, copy))
        \/ (exists r, h !! self = Some (OExpertBase r live)
                      /\ get_base h self = Ok (h1, copy)))
       /\ (forall k, getitem h1 copy k = getitem h live k)
       /\ (forall k l' v h2,
             getitem h1 copy k = Ok (RRef l') ->
             list_append h1 l' v = Ok h2 ->
             exists items,
               h !! l' = Some (OList items)
               /\ h2 !! l' = Some (OList (items ++ [v])%list)
               /\ getitem h2 live k = Ok (RRef l'))
       /\ (forall k l' p v h2,
             getitem h1 copy k = Ok (RRef l') ->
             extend_properties h1 l' p v = Ok h2 ->
             exists o props,
               h !! l' = Some (OExpert o props)
               /\ (props < length h)%nat
               /\ getitem h2 props p = Ok v).
Proof.
  intros Hclosed Hcopy.
  assert (exists l, dict_copy h l = Ok (h1, copy)
                    /\ ((exists o, h !! self = Some (OExpert o l)
                                    /\ get_properties h self = Ok (h1, copy))
                        \/ (exists r, h !! self = Some (OExpertBase r l)
                                       /\ get_base h self = Ok (h1, copy))))
    as (l & Hl & Hkind).
  { unfold get_properties, get_base in *.
    destruct (h !! self) as [[| |o p|r b]|] eqn:Hself; destruct Hcopy as [Hc|Hc];
      try done.
    - exists p. split; [done|]. left. by exists o.
    - exists b. split; [done|]. right. by exists r. }
  destruct (dict_copy_isolated h l h1 copy Hl) as (Hfresh & Hext & Hentries & Hmut).
  split; [done|]. split; [done|]. split.
  - intros k v h2 Hset. split; [by eapply Hmut|].
    apply view_extends; [done|]. by eapply Hmut.
  - exists l. split; [done|].
    apply shared_entry_mutable; [done..| |done].
    unfold dict_copy in Hl. destruct (h !! l) eqn:Hlive; [|done].
    by eapply lookup_lt_Some.
Qed.

Lemma returned_copy_shallow_witness :
  exists h1 h2 h3,
    get_properties employment_heap 3%nat = Ok (h1, 4%nat)
    /\ setitem h1 4%nat "Vorname" (RStr "Grace") = Ok h2
    /\ view 3 h2 (RRef 2%nat) = view 3 employment_heap (RRef 2%nat)
    /\ list_append h1 1%nat (RStr "x") = Ok h3
    /\ h3 !! 1%nat = Some (OList [RRef 0%nat; RStr "x"]).
Proof.
  pose proof employment_heap_closed as Hclosed.
  destruct (returned_copy_shallow employment_heap 3%nat
              (employment_heap
               ++ [ODict [("Vorname", RStr "Ada");
                          ("Derzeitige Beschäftigung", RRef 1%nat)]])%list
              4%nat Hclosed (or_introl eq_refl))
    as (_ & _ & Hisolated & live & _ & _ & Hshared & _).
  do 3 eexists. split; [reflexivity|]. split; [reflexivity|]. split.
  - refine (proj2 (Hisolated "Vorname" (RStr "Grace") _ (or_introl eq_refl))
                  3%nat (RRef 2%nat) _).
    intros l [= <-]. simpl. lia.
  - split; [reflexivity|].
    destruct (Hshared "Derzeitige Beschäftigung" 1%nat (RStr "x") _ eq_refl eq_refl)
      as (items & Hitems & Hafter & _).
    injection Hitems as <-. exact Hafter.
Defined.

End aliasing.

(** ** Both constructors establish the mirror that the merge relies on *)

Lemma faithful_mirror_mirrored self : faithful_mirror self -> mirrored self.
Proof.
  intros (Hraw & _ & _) k Hk.
  destruct (dict_get_is_Some _ _ Hk) as [e He].
  exists (properties e). rewrite Hraw.
  rewrite (dict_get_fmap mirror_entry (fun _ e => VDict (properties e))) by done.
  by rewrite He.
Qed.

Lemma populate_from_csv_mirrored registry today csv self :
  populate_from_csv registry today csv empty_base = Ok self -> mirrored self.
Proof.
  intros Hrun. apply faithful_mirror_mirrored.
  by eapply populate_from_csv_faithful; [apply faithful_mirror_empty|].
Qed.

Lemma stored_expert_Ok k v e : stored_expert k v = Ok e -> exists d, v = VDict d.
Proof. destruct v; try done. by eexists. Qed.

Lemma deserialize_loop_entries (entries : dict value) :
  forall (b b' : dict Expert),
    for_each load_step entries b = Ok b' ->
    Forall (fun item : string * value => exists d, item.2 = VDict d) entries
    /\ forall k, k ∈ dict_keys b' -> k ∈ dict_keys b \/ k ∈ dict_keys entries.
Proof.
  induction entries as [|[k v] entries IH]; intros b b' Hrun.
  - simpl in Hrun. injection Hrun as <-. split; [constructor|]. by left.
  - rewrite for_each_cons in Hrun.
    assert (load_step b (k, v)
            = (new_expert ← stored_expert k v; Ok (dict_set k new_expert b))) as Hstep
      by reflexivity.
    rewrite Hstep in Hrun.
    destruct (stored_expert k v) as [e|] eqn:Hv; simpl in Hrun; [|done].
    destruct (IH _ _ Hrun) as [Hall Hkeys]. split.
    + constructor; [|done]. simpl. by eapply stored_expert_Ok.
    + intros k' Hk'. unfold dict_keys at 2. simpl. rewrite elem_of_cons.
      destruct (Hkeys k' Hk') as [Hin|Hin]; [|by right; right].
      apply dict_keys_set_elem in Hin as [->|Hin]; [right; by left|by left].
Qed.

Lemma deserialize_expertbase_mirrored document self :
  deserialize_expertbase document empty_base = Ok self -> mirrored self.
Proof.
  unfold deserialize_expertbase. destruct document as [| | | | |entries]; try done.
  simpl. destruct (for_each load_step entries []) as [b|] eqn:Hrun; simpl; [|done].
  intros [= <-]. destruct (deserialize_loop_entries _ _ _ Hrun) as [Hall Hkeys].
  intros k Hk. simpl in *. destruct (Hkeys k Hk) as [Hin|Hin].
  - by apply elem_of_nil in Hin.
  - destruct (dict_get_is_Some _ _ Hin) as [v Hv].
    apply dict_get_Some_elem in Hv as Hmem.
    rewrite Forall_forall in Hall. destruct (Hall _ Hmem) as [d Hd].
    simpl in Hd. subst v. by exists d.
Qed.

(** * Further properties *)

(** ** Reading the identifier CSV *)

Lemma read_rows_long (rows : list (list string)) :
  Forall (fun row => (2 <= length row)%nat) rows ->
  map_each (fun row : list string =>
              match row !! 1%nat with
              | Some c => Ok (strip c)
              | None => Raise IndexError
              end) rows
  = Ok (row_identifier <$> rows).
Proof.
  induction 1 as [|row rows Hrow _ IH]; simpl; [done|].
  destruct (lookup_lt_is_Some_2 row 1) as [c Hc]; [lia|].
  rewrite IH. unfold row_identifier. by rewrite Hc.
Qed.

Lemma read_rows_short (rows : list (list string)) :
  Exists (fun row => (length row < 2)%nat) rows ->
  map_each (fun row : list string =>
              match row !! 1%nat with
              | Some c => Ok (strip c)
              | None => Raise IndexError
              end) rows
  = Raise IndexError.
Proof.
  induction rows as [|row rows IH]; intros Hshort; [by apply Exists_nil in Hshort|].
  simpl. destruct (row !! 1%nat) as [c|] eqn:Hc; [|done]. simpl.
  apply Exists_cons in Hshort as [Hrow|Hrest].
  - apply lookup_lt_Some in Hc. lia.
  - by rewrite IH.
Qed.

Lemma short_or_long (k : nat) (rows : list (list string)) :
  Forall (fun row => (k <= length row)%nat) rows
  \/ Exists (fun row => (length row < k)%nat) rows.
Proof.
  induction rows as [|row rows [IH|IH]]; [by left| |right; by right].
  destruct (decide (k <= length row)%nat); [left; by constructor|].
  right. left. lia.
Qed.

(** X1: [read_orcids_from_csv] skips the header row and returns, in order
    and with repetitions, the stripped second cell of every data row; it
    does so exactly when every data row has a second cell, and raises
    [IndexError] otherwise. *)
Theorem read_orcids_from_csv_spec (header : list string) (rows : list (list string)) :
  (Forall (fun row => (2 <= length row)%nat) rows ->
   read_orcids_from_csv (header :: rows) = Ok (row_identifier <$> rows))
  /\ (Exists (fun row => (length row < 2)%nat) rows ->
      read_orcids_from_csv (header :: rows) = Raise IndexError).
Proof. split; [apply read_rows_long|apply read_rows_short]. Qed.

Lemma read_orcids_from_csv_spec_witness :
  read_orcids_from_csv two_identifiers = Ok ["0000-0001"; "0000-0002"]
  /\ read_orcids_from_csv [["name"; "orcid"]; ["Ada"; " 0000-0001 "]; ["Bob"]]
     = Raise IndexError.
Proof.
  split.
  - apply (proj1 (read_orcids_from_csv_spec ["name"; "orcid"; "tadirah"]
                                            (tail two_identifiers))).
    repeat constructor; simpl; lia.
  - apply (proj2 (read_orcids_from_csv_spec ["name"; "orcid"]
                                            [["Ada"; " 0000-0001 "]; ["Bob"]])).
    right. left. simpl. lia.
Defined.

(** ** The topic-tag map, row by row *)

Lemma tadirah_step_long orcids tadirah (row : list string) :
  (3 <= length row)%nat ->
  tadirah_step (orcids, tadirah) row
  = Ok ((orcids ++ [row_identifier row])%list,
        (tadirah ++ (if comma_row row then [row_tags row] else []))%list).
Proof.
  intros Hlen.
  destruct (lookup_lt_is_Some_2 row 1) as [c1 H1]; [lia|].
  destruct (lookup_lt_is_Some_2 row 2) as [c2 H2]; [lia|].
  unfold tadirah_step, cell, row_identifier, row_tags, comma_row.
  rewrite H1, H2. simpl. destruct (contains_char "," c2); [done|].
  by rewrite app_nil_r.
Qed.

Lemma tadirah_step_short acc (row : list string) :
  (length row < 3)%nat -> tadirah_step acc row = Raise IndexError.
Proof.
  intros Hlen. destruct acc as [orcids tadirah]. unfold tadirah_step, cell.
  destruct (row !! 1%nat) as [c1|] eqn:H1; [|done]. simpl.
  destruct (row !! 2%nat) as [c2|] eqn:H2; [|done].
  apply lookup_lt_Some in H2. lia.
Qed.

Lemma tadirah_loop_long (rows : list (list string)) :
  forall orcids tadirah,
    Forall (fun row => (3 <= length row)%nat) rows ->
    for_each tadirah_step rows (orcids, tadirah)
    = Ok ((orcids ++ (row_identifier <$> rows))%list,
          (tadirah ++ (row_tags <$> List.filter comma_row rows))%list).
Proof.
  induction rows as [|row rows IH]; intros orcids tadirah Hrows.
  - simpl. by rewrite !app_nil_r.
  - apply Forall_cons in Hrows as [Hrow Hrows].
    rewrite for_each_cons, tadirah_step_long, result_bind_ok by done.
    rewrite IH by done. simpl. rewrite <- !app_assoc. do 3 f_equal.
    by destruct (comma_row row).
Qed.

Lemma tadirah_loop_short (rows : list (list string)) :
  forall acc,
    Exists (fun row => (length row < 3)%nat) rows ->
    for_each tadirah_step rows acc = Raise IndexError.
Proof.
  induction rows as [|row rows IH]; intros acc Hshort;
    [by apply Exists_nil in Hshort|].
  rewrite for_each_cons.
  destruct (decide (length row < 3)%nat) as [Hrow|Hrow].
  - by rewrite tadirah_step_short.
  - destruct acc as [orcids tadirah].
    rewrite tadirah_step_long, result_bind_ok by lia.
    apply IH. apply Exists_cons in Hshort as [?|?]; done.
Qed.

Lemma dict_pairs_get_elem {A : Type} (ps : list (string * A)) k v :
  forall acc : dict A,
    dict_get k (fold_left (fun d p => dict_set p.1 p.2 d) ps acc) = Some v ->
    (k, v) ∈ ps \/ dict_get k acc = Some v.
Proof.
  induction ps as [|[k' v'] ps IH]; intros acc Hget; simpl in Hget; [by right|].
  destruct (IH _ Hget) as [Hin|Hacc]; [left; by right|].
  destruct (decide (k' = k)) as [->|Hne].
  - rewrite dict_get_set_eq in Hacc. injection Hacc as ->. left. left.
  - rewrite dict_get_set_ne in Hacc by done. by right.
Qed.

(** X3: for data rows with at least three cells, [create_tadirah_map] is
    [dict(zip(...))] of the identifiers of all rows with the tag lists of
    the rows that have a comma in their third column, both in row order: the
    k-th tag list goes to the k-th identifier, whichever row it came from.
    Every key of the map is the identifier of a data row and every value the
    tag list of a row with a comma. *)
Theorem create_tadirah_map_zip (header : list string) (rows : list (list string)) :
  Forall (fun row => (3 <= length row)%nat) rows ->
  let paired := zip (row_identifier <$> rows) (row_tags <$> List.filter comma_row rows) in
  create_tadirah_map (header :: rows) = Ok (dict_of_pairs paired)
  /\ forall k tags,
       dict_get k (dict_of_pairs paired) = Some tags ->
       (exists row, row ∈ rows /\ row_identifier row = k)
       /\ (exists row, row ∈ rows /\ comma_row row = true /\ row_tags row = tags).
Proof.
  intros Hrows paired. split.
  - unfold create_tadirah_map. by rewrite tadirah_loop_long.
  - intros k tags Hget. unfold dict_of_pairs in Hget.
    apply dict_pairs_get_elem in Hget as [Hin|Hnil]; [|done].
    split.
    + apply elem_of_zip_l in Hin. apply list_elem_of_fmap in Hin as (row & -> & Hrow).
      by exists row.
    + apply elem_of_zip_r in Hin. apply list_elem_of_fmap in Hin as (row & -> & Hrow).
      apply elem_of_filter_bool in Hrow as [Hrow Hcomma]. by exists row.
Qed.

Lemma create_tadirah_map_zip_witness :
  create_tadirah_map one_tag_first
  = Ok (dict_of_pairs (zip ["0000-0001"; "0000-0002"] [["Capture"; "Creation"]])).
Proof.
  refine (proj1 (create_tadirah_map_zip ["name"; "orcid"; "tadirah"]
                                        (tail one_tag_first) _)).
  repeat constructor; simpl; lia.
Defined.

(** X2: an identifier CSV with a data row of fewer than three cells, such
    as the two-column layout the docstring of [populate_from_csv] shows,
    makes [populate_from_csv] raise [IndexError], whatever the registry
    answers. *)
Theorem populate_from_csv_short_row (registry : registry_service) (today : date)
    (header : list string) (rows : list (list string)) (self : ExpertBase) :
  Exists (fun row => (length row < 3)%nat) rows ->
  populate_from_csv registry today (header :: rows) self = Raise IndexError.
Proof.
  intros Hshort. unfold populate_from_csv.
  destruct (short_or_long 2 rows) as [Hlong|Hshort2].
  - unfold read_orcids_from_csv. rewrite read_rows_long by done. simpl.
    by rewrite tadirah_loop_short.
  - unfold read_orcids_from_csv. by rewrite read_rows_short.
Qed.

Lemma populate_from_csv_short_row_witness :
  populate_from_csv registry_complete (Date 2024 6 15)
                    [["name"; "orcid"]; ["Ada"; "0000-0001"]] empty_base
  = Raise IndexError.
Proof.
  apply populate_from_csv_short_row. left. simpl. lia.
Defined.

(** ** The extractors *)

(** The scrutinee of the first bind of [H : ... = Ok _], case by case. *)
Ltac bind_ok H :=
  repeat match type of H with
         | (?m ≫= _) = Ok _ =>
             let E := fresh "E" in
             destruct m eqn:E; simpl in H; [|discriminate H]
         end.

Lemma map_each_lookup {A B : Type} (f : A -> result B) (l : list A) :
  forall l',
    map_each f l = Ok l' ->
    length l' = length l
    /\ forall i x, l !! i = Some x -> exists y, l' !! i = Some y /\ f x = Ok y.
Proof.
  induction l as [|x l IH]; intros l' Hmap; simpl in Hmap.
  - injection Hmap as <-. split; [done|]. intros i x Hx. done.
  - bind_ok Hmap. injection Hmap as <-.
    destruct (IH _ eq_refl) as [Hlen Hlookup]. split; [simpl; by rewrite Hlen|].
    intros [|i] x' Hx'; simpl in *.
    + injection Hx' as <-. by eexists.
    + by apply Hlookup.
Qed.

(** X4: [extract_names] never raises [KeyError]: a record without a
    ["name"] entry gives two empty strings.  A ["name"] that is [null], or
    one whose given or family name is [null], raises [AttributeError]
    instead, and [AttributeError] is the only exception it raises on any
    input.  Whatever it returns is a dict with exactly the keys
    ["given-names"] and ["family-name"], so that the two subscripts in
    [populate_from_csv] cannot fail. *)
Theorem extract_names_shape :
  (forall data r,
      extract_names data = Ok r ->
      exists given family,
        r = VDict [("given-names", given); ("family-name", family)]
        /\ getitem_str r "given-names" = Ok given
        /\ getitem_str r "family-name" = Ok family)
  /\ (forall d,
        dict_get "name" d = None ->
        extract_names (VDict d)
        = Ok (VDict [("given-names", VStr ""); ("family-name", VStr "")]))
  /\ (forall d,
        dict_get "name" d = Some VNone ->
        extract_names (VDict d) = Raise AttributeError)
  /\ (forall d names,
        dict_get "name" d = Some (VDict names) ->
        dict_get "given-names" names = Some VNone
        \/ dict_get "family-name" names = Some VNone ->
        extract_names (VDict d) = Raise AttributeError)
  /\ (forall data e, extract_names data = Raise e -> e = AttributeError).
Proof.
  split; [|split; [|split; [|split]]]; cycle 4.
  { intros data e H. unfold extract_names, py_get in H.
    repeat match type of H with
           | (match ?v with VDict _ => _ | _ => _ end ≫= _) = _ =>
               destruct v; simpl in H; try (by injection H as <-)
           end.
    done. }
  - intros data r H. unfold extract_names in H. bind_ok H. injection H as <-.
    by do 2 eexists.
  - intros d Hname. unfold extract_names. simpl. by rewrite Hname.
  - intros d Hname. unfold extract_names. simpl. by rewrite Hname.
  - intros d names Hname Hnull. unfold extract_names. simpl. rewrite Hname. simpl.
    destruct Hnull as [Hnull|Hnull]; rewrite Hnull; simpl; [done|].
    destruct (dict_get "given-names" names) as [[| | | | |g]|]; simpl; done.
Qed.

Lemma extract_names_shape_witness :
  extract_names (VDict [("emails", VNone)])
  = Ok (VDict [("given-names", VStr ""); ("family-name", VStr "")])
  /\ extract_names (VDict [("name", VNone)]) = Raise AttributeError.
Proof.
  split.
  - apply (proj1 (proj2 extract_names_shape)). reflexivity.
  - apply (proj1 (proj2 (proj2 extract_names_shape))). reflexivity.
Defined.

(** X5: unlike its siblings, [extract_keywords] has no defaults: a person
    record without a ["keywords"] entry raises [KeyError].  When it
    returns, it returns one value per keyword entry, in order: the
    ["content"] of that entry. *)
Theorem extract_keywords_spec :
  (forall d, dict_get "keywords" d = None -> extract_keywords (VDict d) = Raise KeyError)
  /\ (forall data l,
        extract_keywords data = Ok l ->
        exists keywords keyword items,
          getitem_str data "keywords" = Ok keywords
          /\ getitem_str keywords "keyword" = Ok keyword
          /\ py_iter keyword = Ok items
          /\ length l = length items
          /\ forall i item,
               items !! i = Some item ->
               exists v, l !! i = Some v /\ getitem_str item "content" = Ok v).
Proof.
  split.
  - intros d Hd. unfold extract_keywords. simpl. by rewrite Hd.
  - intros data l H. unfold extract_keywords in H.
    destruct (getitem_str data "keywords") as [keywords|] eqn:E1; simpl in H; [|done].
    destruct (getitem_str keywords "keyword") as [keyword|] eqn:E2; simpl in H; [|done].
    destruct (py_iter keyword) as [items|] eqn:E3; simpl in H; [|done].
    destruct (map_each_lookup _ _ _ H) as [Hlen Hlookup].
    exists keywords, keyword, items.
    split; [done|]. split; [done|]. split; [done|]. split; [done|]. exact Hlookup.
Qed.

Lemma extract_keywords_spec_witness :
  extract_keywords (VDict [("name", VNone)]) = Raise KeyError
  /\ exists l, extract_keywords (person_record "Ada" "Example" ["a"; "b"]) = Ok l
               /\ length l = 2%nat.
Proof.
  split.
  - apply (proj1 extract_keywords_spec). reflexivity.
  - eexists. split; [reflexivity|].
    destruct (proj2 extract_keywords_spec
                (person_record "Ada" "Example" ["a"; "b"]) _ eq_refl)
      as (keywords & keyword & items & H1 & H2 & H3 & Hlen & _).
    rewrite Hlen. injection H1 as <-. injection H2 as <-. injection H3 as <-.
    reflexivity.
Defined.

(** ** The employment resolver, as a whole *)

Lemma employment_triple_shape cs t :
  employment_triple cs = Ok t -> exists a b c, t = VList [a; b; c].
Proof.
  intros H. unfold employment_triple in H. bind_ok H. injection H as <-.
  by do 3 eexists.
Qed.

(** A pass over a group keeps the list or appends one triple. *)
Lemma employment_step_outcome today acc g r :
  employment_step today acc g = Ok r ->
  r = acc \/ exists a b c, r = (acc ++ [VList [a; b; c]])%list.
Proof.
  intros H. unfold employment_step in H.
  destruct (first_summary g) as [cs|]; simpl in H; [|done].
  destruct (getitem_str cs "end-date") as [ed|]; simpl in H; [|done].
  destruct (is_none ed).
  - destruct (employment_triple cs) as [t|] eqn:Et; simpl in H; [|done].
    injection H as <-. right.
    destruct (employment_triple_shape _ _ Et) as (t1 & t2 & t3 & ->). by do 3 eexists.
  - bind_ok H. destruct (_ <? year today); [left; by injection H|].
    destruct (is_none cs); [left; by injection H|].
    bind_ok H. destruct (date_gt _ today); [|left; by injection H].
    destruct (employment_triple cs) as [t|] eqn:Et; simpl in H; [|done].
    injection H as <-. right.
    destruct (employment_triple_shape _ _ Et) as (t1 & t2 & t3 & ->). by do 3 eexists.
Qed.

Lemma for_each_grows {A B : Type} (body : list B -> A -> result (list B))
    (P : B -> Prop) (l : list A) :
  (forall acc x r, body acc x = Ok r -> r = acc \/ exists y, r = (acc ++ [y])%list /\ P y) ->
  forall acc r,
    for_each body l acc = Ok r ->
    exists added, r = (acc ++ added)%list /\ Forall P added
                  /\ (length added <= length l)%nat.
Proof.
  intros Hbody. induction l as [|x l IH]; intros acc r Hrun.
  - simpl in Hrun. injection Hrun as <-. exists []. by rewrite app_nil_r.
  - rewrite for_each_cons in Hrun.
    destruct (body acc x) as [acc1|] eqn:Hx; simpl in Hrun; [|done].
    destruct (IH _ _ Hrun) as (added & -> & Hall & Hlen).
    destruct (Hbody _ _ _ Hx) as [->|(y & -> & Hy)].
    + exists added. split; [done|]. split; [done|]. simpl. lia.
    + exists (y :: added). rewrite <- app_assoc. split; [done|].
      split; [by constructor|]. simpl. lia.
Qed.

(** X6: whatever the payload, when [extract_current_employments] returns
    it returns at most one entry per affiliation group, and every entry is
    a list of exactly three components, so that [employment[2]] in
    [get_organisation] finds the organisation name. *)
Theorem extract_current_employments_triples today data l :
  extract_current_employments today data = Ok l ->
  Forall (fun t => exists a b c, t = VList [a; b; c] /\ getitem_int t 2 = Ok c) l
  /\ exists employments groups items,
       py_get data "employments" (VDict []) = Ok employments
       /\ py_get employments "affiliation-group" (VList []) = Ok groups
       /\ py_iter groups = Ok items
       /\ (length l <= length items)%nat.
Proof.
  intros H. unfold extract_current_employments in H.
  destruct (py_get data "employments" (VDict [])) as [employments|] eqn:E1;
    simpl in H; [|done].
  destruct (py_get employments "affiliation-group" (VList [])) as [groups|] eqn:E2;
    simpl in H; [|done].
  destruct (py_iter groups) as [items|] eqn:E3; simpl in H; [|done].
  destruct (for_each_grows (employment_step today)
              (fun t => exists a b c, t = VList [a; b; c] /\ getitem_int t 2 = Ok c)
              items) with (acc := @nil value) (r := l)
    as (added & -> & Hall & Hlen); [|done|].
  - intros acc x r Hx. destruct (employment_step_outcome _ _ _ _ Hx)
      as [->|(a & b & c & ->)]; [by left|].
    right. eexists. split; [done|]. by exists a, b, c.
  - split; [done|]. exists employments, groups, items. by simpl.
Qed.

Lemma extract_current_employments_triples_witness :
  extract_current_employments (Date 2024 6 15)
    (activities [affiliation_group (summary_ending VNone "A") [];
                 affiliation_group (summary_ending (end_date_year_only "2023") "B") []])
  = Ok [VList [VStr "Professor"; VNone; VStr "A"]]
  /\ Forall (fun t => exists a b c, t = VList [a; b; c] /\ getitem_int t 2 = Ok c)
       [VList [VStr "Professor"; VNone; VStr "A"]].
Proof.
  split; [reflexivity|].
  exact (proj1 (extract_current_employments_triples (Date 2024 6 15)
    (activities [affiliation_group (summary_ending VNone "A") [];
                 affiliation_group (summary_ending (end_date_year_only "2023") "B") []])
    [VList [VStr "Professor"; VNone; VStr "A"]] eq_refl)).
Defined.

Lemma date_gt_year today today' :
  date_gt today today' = false -> year today <= year today'.
Proof.
  unfold date_gt. destruct today as [y m d], today' as [y' m' d']. simpl.
  rewrite !orb_false_iff, !andb_false_iff, !orb_false_iff, !andb_false_iff.
  rewrite !Z.ltb_ge, !Z.eqb_neq. lia.
Qed.

Lemma date_gt_later given today today' :
  date_gt today today' = false ->
  date_gt given today' = true -> date_gt given today = true.
Proof.
  unfold date_gt.
  destruct given as [y0 m0 d0], today as [y m d], today' as [y' m' d']. simpl.
  rewrite !orb_false_iff, !andb_false_iff, !orb_false_iff, !andb_false_iff.
  rewrite !orb_true_iff, !andb_true_iff, !orb_true_iff, !andb_true_iff.
  rewrite !Z.ltb_ge, !Z.eqb_neq, !Z.ltb_lt, !Z.eqb_eq. lia.
Qed.

(** A group that the earlier day passes is passed on every later day, and
    what the later day appends the earlier day appended. *)
Lemma employment_step_later today today' acc acc' g r :
  date_gt today today' = false ->
  employment_step today acc g = Ok r ->
  exists r',
    employment_step today' acc' g = Ok r'
    /\ (r' = acc' \/ exists t, r' = (acc' ++ [t])%list /\ r = (acc ++ [t])%list).
Proof.
  intros Hle H. unfold employment_step in *.
  destruct (first_summary g) as [cs|]; simpl in *; [|done].
  destruct (getitem_str cs "end-date") as [ed|]; simpl in *; [|done].
  destruct (is_none ed).
  - destruct (employment_triple cs) as [t|]; simpl in *; [|done].
    injection H as <-. eexists. split; [done|]. right. by exists t.
  - destruct (getitem_str ed "year") as [ye|]; simpl in *; [|done].
    destruct (getitem_str ye "value") as [yv|]; simpl in *; [|done].
    destruct (py_int yv) as [end_year|]; simpl in *; [|done].
    destruct (Z.ltb_spec end_year (year today')) as [Hy'|Hy'];
      [eexists; split; [done|by left]|].
    destruct (Z.ltb_spec end_year (year today)) as [Hy|Hy];
      [apply date_gt_year in Hle; lia|].
    destruct (is_none cs); [eexists; split; [done|by left]|].
    bind_ok H. simpl.
    repeat match goal with
           | E : ?m = Ok _ |- context [?m ≫= _] => rewrite E; simpl
           end.
    match goal with
    | |- context [date_gt ?given today'] => destruct (date_gt given today') eqn:Hgt'
    end; [|exists acc'; split; [reflexivity|by left]].
    rewrite (date_gt_later _ _ _ Hle Hgt') in H.
    destruct (employment_triple cs) as [t|]; simpl in *; [|done].
    injection H as <-. eexists. split; [done|]. right. by exists t.
Qed.

Lemma employment_loop_later today today' items :
  date_gt today today' = false ->
  forall acc acc' r,
    acc' `sublist_of` acc ->
    for_each (employment_step today) items acc = Ok r ->
    exists r',
      for_each (employment_step today') items acc' = Ok r' /\ r' `sublist_of` r.
Proof.
  intros Hle. induction items as [|g items IH]; intros acc acc' r Hsub Hrun.
  - simpl in Hrun. injection Hrun as <-. by exists acc'.
  - rewrite for_each_cons in Hrun. rewrite for_each_cons.
    destruct (employment_step today acc g) as [acc1|] eqn:Hg; simpl in Hrun; [|done].
    destruct (employment_step_later _ _ _ acc' _ _ Hle Hg) as (acc1' & -> & Hcase).
    simpl. apply (IH acc1); [|done].
    destruct Hcase as [->|(t & -> & ->)].
    + destruct (employment_step_outcome _ _ _ _ Hg) as [->|(a & b & c & ->)]; [done|].
      by apply sublist_inserts_r.
    + by apply sublist_app.
Qed.

(** X7: the resolver is monotone in the day it is run on.  If it returns
    for a payload on one day, it returns for the same payload on every
    later day, and the later list is a sublist of the earlier one:
    employments only ever drop out, in place, and none is added or
    reordered. *)
Theorem extract_current_employments_later today today' data l :
  date_gt today today' = false ->
  extract_current_employments today data = Ok l ->
  exists l',
    extract_current_employments today' data = Ok l' /\ l' `sublist_of` l.
Proof.
  intros Hle H. unfold extract_current_employments in *.
  destruct (py_get data "employments" (VDict [])) as [employments|];
    simpl in *; [|done].
  destruct (py_get employments "affiliation-group" (VList [])) as [groups|];
    simpl in *; [|done].
  destruct (py_iter groups) as [items|]; simpl in *; [|done].
  by apply (employment_loop_later today today' items Hle [] []).
Qed.

Lemma extract_current_employments_later_witness :
  date_gt (Date 2022 6 1) (Date 2024 6 15) = false
  /\ exists l',
       extract_current_employments (Date 2024 6 15)
         (activities [affiliation_group (summary_ending VNone "A") [];
                      affiliation_group (summary_ending (end_date_year_only "2023") "B") []])
       = Ok l'
       /\ l' `sublist_of` [VList [VStr "Professor"; VNone; VStr "A"];
                           VList [VStr "Professor"; VNone; VStr "B"]].
Proof.
  split; [reflexivity|].
  exact (extract_current_employments_later (Date 2022 6 1) (Date 2024 6 15)
    (activities [affiliation_group (summary_ending VNone "A") [];
                 affiliation_group (summary_ending (end_date_year_only "2023") "B") []])
    [VList [VStr "Professor"; VNone; VStr "A"];
     VList [VStr "Professor"; VNone; VStr "B"]] eq_refl eq_refl).
Defined.

(** ** The accessors of an expert *)

Lemma map_each_strings (l : list string) :
  map_each (fun k => match k with VStr s => Ok s | _ => Raise TypeError end)
           (VStr <$> l) = Ok l.
Proof.
  induction l as [|s l IH]; [done|]. rewrite fmap_cons. cbn [map_each].
  rewrite IH. done.
Qed.

Lemma as_strings_texts (l : list string) : as_strings (VList (VStr <$> l)) = Ok l.
Proof. unfold as_strings. simpl. apply map_each_strings. Qed.

Lemma as_strings_chars (s : string) : as_strings (VStr s) = Ok (chars s).
Proof. unfold as_strings. simpl. apply map_each_strings. Qed.

(** X8: [get_tadirah].  Without the field both modes return the empty
    string (the unformatted one too, not a list); a stored list of tags is
    joined with semicolons; and once [extend_properties] has put a text
    under the field, as the supplementary table does, the formatted mode
    puts a semicolon between the characters of that text. *)
Theorem get_tadirah_spec (self : Expert) :
  (dict_get "TaDiRAH-Zuordnung" (properties self) = None ->
     get_tadirah true self = Ok (VStr "")
     /\ get_tadirah false self = Ok (VStr ""))
  /\ (forall tags,
        dict_get "TaDiRAH-Zuordnung" (properties self) = Some (VList (VStr <$> tags)) ->
        get_tadirah true self = Ok (VStr (join ";" tags))
        /\ get_tadirah false self = Ok (VList (VStr <$> tags)))
  /\ (forall text,
        get_tadirah true (extend_properties "TaDiRAH-Zuordnung" (VStr text) self)
        = Ok (VStr (join ";" (chars text)))).
Proof.
  split; [|split].
  - intros Hnone. unfold get_tadirah. by rewrite Hnone.
  - intros tags Htags. unfold get_tadirah, py_join. rewrite Htags. simpl.
    by rewrite as_strings_texts.
  - intros text. unfold get_tadirah, py_join, extend_properties. simpl.
    rewrite dict_get_set_eq. simpl. by rewrite as_strings_chars.
Qed.

Lemma shown_parts_spec (parts : list value) :
  forall l,
    map_each (fun k => match k with VStr s => Ok s | _ => Raise TypeError end)
             (List.filter truthy parts) = Ok l
    <-> Forall (fun part => truthy part = true -> is_text part = true) parts
        /\ l = shown_parts parts.
Proof.
  induction parts as [|part parts IH]; intros l.
  - simpl. split.
    + intros [= <-]. by split.
    + by intros [_ ->].
  - cbn [List.filter]. destruct (truthy part) eqn:Ht.
    + cbn [map_each]. destruct part as [|b|z|s|l0|d]; try done; simpl;
        try (split; [done|intros [Hall _]; inversion Hall as [|? ? Hp]; by specialize (Hp Ht)]).
      simpl in Ht. destruct (String.eqb s "") eqn:Hs; [done|].
      destruct (map_each _ (List.filter truthy parts)) as [l1|] eqn:Hl1; simpl.
      * destruct (proj1 (IH l1) eq_refl) as [Hall ->]. split.
        -- intros [= <-]. split; [|done]. by constructor.
        -- by intros [_ ->].
      * split; [done|]. intros [Hall _]. inversion Hall as [|? ? _ Hall'].
        discriminate (proj2 (IH (shown_parts parts)) (conj Hall' eq_refl)).
    + rewrite IH. split.
      * intros [Hall ->]. split; [constructor; [by rewrite Ht|done]|].
        destruct part as [|b|z|s|l0|d]; try done.
        simpl in Ht. simpl. by destruct (String.eqb s "").
      * intros [Hall ->]. inversion Hall as [|? ? _ Hall']. split; [done|].
        destruct part as [|b|z|s|l0|d]; try done.
        simpl in Ht. simpl. by destruct (String.eqb s "").
Qed.

(** X9: the line of one employment entry.  The line is produced exactly
    when every component that is not skipped as empty is a string, and it
    then lists the non-empty strings after the bullet; an entry with, say,
    a number among its components raises instead. *)
Theorem employment_line_spec (parts : list value) (line : string) :
  employment_line (VList parts) = Ok line
  <-> Forall (fun part => truthy part = true -> is_text part = true) parts
      /\ line = "* " ++ join ", " (shown_parts parts).
Proof.
  unfold employment_line, py_join, as_strings. simpl.
  destruct (map_each _ (List.filter truthy parts)) as [l|] eqn:Hl; simpl.
  - apply shown_parts_spec in Hl as [Hall ->]. split.
    + intros [= <-]. by split.
    + by intros [_ ->].
  - split; [done|]. intros [Hall _].
    by rewrite (proj2 (shown_parts_spec parts _) (conj Hall eq_refl)) in Hl.
Qed.

Lemma employment_lines_take (n : Z) (entries : list value) :
  forall (i : nat) (lines : list string),
    employment_lines n i entries lines
    = (new ← map_each employment_line
               (if n <? Z.of_nat i then entries
                else take (Z.to_nat n - i) entries);
       Ok (lines ++ new)%list).
Proof.
  induction entries as [|entry entries IH]; intros i lines.
  - simpl. rewrite take_nil. destruct (n <? Z.of_nat i); simpl; by rewrite app_nil_r.
  - cbn [employment_lines]. destruct (Z.eqb_spec (Z.of_nat i) n) as [<-|Hne].
    + rewrite Z.ltb_irrefl, Nat2Z.id, Nat.sub_diag. simpl. by rewrite app_nil_r.
    + assert ((if n <? Z.of_nat i then entry :: entries
               else take (Z.to_nat n - i) (entry :: entries))
              = entry :: (if n <? Z.of_nat (S i) then entries
                          else take (Z.to_nat n - S i) entries)) as ->.
      { destruct (Z.ltb_spec n (Z.of_nat i)), (Z.ltb_spec n (Z.of_nat (S i)));
          try lia; [done|].
        by replace (Z.to_nat n - i)%nat with (S (Z.to_nat n - S i)) by lia. }
      cbn [map_each].
      destruct (employment_line entry) as [line|]; simpl; [|done].
      rewrite IH. destruct (map_each employment_line _); simpl; [|done].
      by rewrite <- app_assoc.
Qed.

(** X10: the two modes of [get_current_employment] on a stored list of
    entries.  For [n >= 0] the unformatted mode returns the first [n]
    entries and the formatted mode renders exactly those.  For a negative
    [n] they differ: the slice drops the last [-n] entries, while the loop
    never reaches [i == n] and renders every entry. *)
Theorem get_current_employment_modes (n : Z) (self : Expert) (entries : list value) :
  dict_get "Derzeitige Beschäftigung" (properties self) = Some (VList entries) ->
  (0 <= n ->
     get_current_employment n false self = Ok (VList (take (Z.to_nat n) entries))
     /\ get_current_employment n true self
        = render_employments (take (Z.to_nat n) entries))
  /\ (n < 0 ->
        get_current_employment n false self
        = Ok (VList (take (length entries - Z.to_nat (- n)) entries))
        /\ get_current_employment n true self = render_employments entries).
Proof.
  intros Hstored. unfold get_current_employment, render_employments.
  rewrite Hstored. simpl. rewrite employment_lines_take. simpl.
  change (Z.of_nat 0) with 0.
  unfold slice_stop. rewrite Nat.sub_0_r. split; intros Hn.
  - destruct (Z.ltb_spec n 0); [lia|]. split; [done|].
    by destruct (map_each employment_line _).
  - destruct (Z.ltb_spec n 0); [|lia]. split; [done|].
    by destruct (map_each employment_line _).
Qed.

Lemma get_current_employment_modes_witness :
  dict_get "Derzeitige Beschäftigung"
    (properties (mkExpert "0000-0001"
       [("Derzeitige Beschäftigung",
         VList [VList [VStr "Professor"; VNone; VStr "A"];
                VList [VStr ""; VStr "Institute"; VStr "B"]])]))
  = Some (VList [VList [VStr "Professor"; VNone; VStr "A"];
                 VList [VStr ""; VStr "Institute"; VStr "B"]])
  /\ get_current_employment (-1) false
       (mkExpert "0000-0001"
          [("Derzeitige Beschäftigung",
            VList [VList [VStr "Professor"; VNone; VStr "A"];
                   VList [VStr ""; VStr "Institute"; VStr "B"]])])
     = Ok (VList [VList [VStr "Professor"; VNone; VStr "A"]])
  /\ get_current_employment (-1) true
       (mkExpert "0000-0001"
          [("Derzeitige Beschäftigung",
            VList [VList [VStr "Professor"; VNone; VStr "A"];
                   VList [VStr ""; VStr "Institute"; VStr "B"]])])
     = Ok (VStr ("* Professor, A" ++ newline ++ "* Institute, B")).
Proof.
  split; [reflexivity|].
  exact (proj2 (get_current_employment_modes (-1)
    (mkExpert "0000-0001"
       [("Derzeitige Beschäftigung",
         VList [VList [VStr "Professor"; VNone; VStr "A"];
                VList [VStr ""; VStr "Institute"; VStr "B"]])])
    [VList [VStr "Professor"; VNone; VStr "A"];
     VList [VStr ""; VStr "Institute"; VStr "B"]] eq_refl) eq_refl).
Defined.

(** ** The lookup-id resolver, for every answer *)

Lemma backoff_delay_range (k : nat) : 1 <= backoff_delay k <= 60.
Proof.
  unfold backoff_delay.
  assert (0 < 2 ^ Z.of_nat k) by (apply Z.pow_pos_nonneg; lia). lia.
Qed.

(** Reading a decoded answer ends with a value or a shape error. *)
Lemma search_body_outcome (data search_string : value) :
  value_or_shape_error
    (found ← py_get data "search" VNone;
     if truthy found then
       results ← getitem_str data "search";
       first ← getitem_int results 0;
       getitem_str first "id"
     else Ok search_string) = true.
Proof.
  destruct data as [|b|z|s|l|d]; try done. simpl.
  destruct (dict_get "search" d) as [found|]; simpl; [|done].
  destruct (truthy found) eqn:Ht; [|done]. simpl.
  destruct found as [|b|z|s|l|d']; try done; simpl.
  - destruct s as [|c s]; [done|]. done.
  - destruct l as [|first l]; [done|]. simpl.
    destruct first as [|b|z|s|l'|d']; try done. simpl.
    by destruct (dict_get "id" d').
Qed.

Lemma search_loop_schedule attempts search_string max_retries (n : nat) :
  forall (fuel r : nat) (sleeps : list Z),
    (n < fuel)%nat ->
    max_retries + 1 - Z.of_nat r <= Z.of_nat n ->
    exists (k : nat) (res : result value),
      search_loop fuel attempts search_string max_retries
                  (Z.of_nat r) (backoff_delay r) sleeps
      = Some ((sleeps ++ (backoff_delay <$> seq r k))%list, res)
      /\ Z.of_nat (r + k) <= Z.max (Z.of_nat r) (max_retries + 1)
      /\ (forall j, (r <= j < r + k)%nat -> rate_limited (attempts j) = true)
      /\ (Z.of_nat (r + k) <= max_retries ->
          rate_limited (attempts (r + k)%nat) = false)
      /\ value_or_shape_error res = true.
Proof.
  assert (forall fuel r sleeps,
            max_retries < Z.of_nat r ->
            exists (k : nat) (res : result value),
              search_loop (S fuel) attempts search_string max_retries
                          (Z.of_nat r) (backoff_delay r) sleeps
              = Some ((sleeps ++ (backoff_delay <$> seq r k))%list, res)
              /\ Z.of_nat (r + k) <= Z.max (Z.of_nat r) (max_retries + 1)
              /\ (forall j, (r <= j < r + k)%nat -> rate_limited (attempts j) = true)
              /\ (Z.of_nat (r + k) <= max_retries ->
                  rate_limited (attempts (r + k)%nat) = false)
              /\ value_or_shape_error res = true) as Hspent.
  { intros fuel r sleeps Hr. exists 0%nat, (Ok search_string).
    rewrite search_loop_exhausted by done. simpl. rewrite app_nil_r.
    repeat split; [lia|intros; lia|intros; lia]. }
  induction n as [|n IH]; intros fuel r sleeps Hfuel Hbudget;
    (destruct fuel as [|fuel]; [lia|]).
  - apply Hspent. lia.
  - destruct (Z.leb_spec (Z.of_nat r) max_retries) as [Hr|Hr]; [|by apply Hspent].
    cbn [search_loop]. destruct (Z.leb_spec (Z.of_nat r) max_retries); [|lia].
    rewrite Nat2Z.id.
    assert (forall res,
              rate_limited (attempts r) = false ->
              value_or_shape_error res = true ->
              exists (k : nat) (res' : result value),
                Some (sleeps, res)
                = Some ((sleeps ++ (backoff_delay <$> seq r k))%list, res')
                /\ Z.of_nat (r + k) <= Z.max (Z.of_nat r) (max_retries + 1)
                /\ (forall j, (r <= j < r + k)%nat -> rate_limited (attempts j) = true)
                /\ (Z.of_nat (r + k) <= max_retries ->
                    rate_limited (attempts (r + k)%nat) = false)
                /\ value_or_shape_error res' = true) as Hstop.
    { intros res Hnot Hres. exists 0%nat, res. simpl. rewrite app_nil_r, Nat.add_0_r.
      repeat split; [lia|intros; lia|done|done]. }
    destruct (attempts r) as [|status_code body] eqn:Hanswer; [by apply Hstop|].
    destruct (status_code =? 429) eqn:Hlimit.
    + rewrite backoff_delay_S.
      replace (Z.of_nat r + 1) with (Z.of_nat (S r)) by lia.
      destruct (IH fuel (S r) (sleeps ++ [backoff_delay r])%list)
        as (k & res & -> & Hk & Hlimited & Hnext & Hres); [lia|lia|].
      exists (S k), res. rewrite <- app_assoc. simpl.
      replace (r + S k)%nat with (S r + k)%nat by lia.
      repeat split; [lia| |done|done].
      intros j Hj. destruct (decide (j = r)) as [->|Hne].
      * by rewrite Hanswer.
      * apply Hlimited. lia.
    + destruct ((400 <=? status_code) && (status_code <? 600)); [by apply Hstop|].
      destruct body as [data|]; [|by apply Hstop].
      apply Hstop; [done|]. apply search_body_outcome.
Qed.

(** X11: the identifier found after retries.  When the first [k] answers
    signal a rate limit, [k] is within the retry budget and answer [k]
    carries an identifier, the resolver returns that identifier after
    exactly [k] sleeps of 1, 2, 4, ... seconds, capped at 60. *)
Theorem search_wikidata_id_found (attempts : nat -> response)
    (search_string : value) (max_retries : Z) (k : nat) (q : value) :
  (forall j, (j < k)%nat -> rate_limited (attempts j) = true) ->
  Z.of_nat k <= max_retries ->
  found_id (attempts k) = Some q ->
  search_wikidata_id attempts search_string max_retries
  = Some (backoff_delay <$> seq 0 k, Ok q).
Proof.
  intros Hlimited Hk Hfound. rewrite search_wikidata_id_start.
  rewrite (search_loop_rate_limited attempts search_string max_retries k);
    [|lia|lia|intros j Hj; apply Hlimited; lia].
  replace (S (Z.to_nat (max_retries + 1)) - k)%nat
    with (S (Z.to_nat (max_retries + 1) - k)) by lia.
  simpl. by apply search_loop_found.
Qed.

Lemma search_wikidata_id_found_witness :
  search_wikidata_id
    (fun k => match k with
              | O | 1%nat => Http 429 None
              | _ => Http 200 (Some (VDict [("search",
                                             VList [VDict [("id", VStr "Q155354")]])]))
              end)
    (VStr "Marburg") 5
  = Some ([1; 2], Ok (VStr "Q155354")).
Proof.
  apply (search_wikidata_id_found _ (VStr "Marburg") 5 2 (VStr "Q155354")).
  - intros [|[|j]] Hj; [reflexivity|reflexivity|lia].
  - lia.
  - reflexivity.
Defined.

(** X12: what the resolver does for any sequence of answers and any retry
    budget.  It sleeps before each retry and at no other time: the delays
    are 1, 2, 4, ... capped at 60, one per rate-limited answer, at most
    [max_retries + 1] of them, and it stops at the first answer that is
    not rate-limited.  It ends with a value or with an exception raised
    while reading an answer of an unexpected shape ([AttributeError],
    [TypeError], [KeyError]); no request failure escapes. *)
Theorem search_wikidata_id_schedule (attempts : nat -> response)
    (search_string : value) (max_retries : Z) :
  exists (k : nat) (res : result value),
    search_wikidata_id attempts search_string max_retries
    = Some (backoff_delay <$> seq 0 k, res)
    /\ Z.of_nat k <= Z.max 0 (max_retries + 1)
    /\ (forall j, (j < k)%nat -> rate_limited (attempts j) = true)
    /\ (Z.of_nat k <= max_retries -> rate_limited (attempts k) = false)
    /\ Forall (fun delay => 1 <= delay <= 60) (backoff_delay <$> seq 0 k)
    /\ value_or_shape_error res = true.
Proof.
  rewrite search_wikidata_id_start.
  destruct (search_loop_schedule attempts search_string max_retries
              (Z.to_nat (max_retries + 1)) (S (Z.to_nat (max_retries + 1))) 0 [])
    as (k & res & Hrun & Hk & Hlimited & Hnext & Hres); [lia|lia|].
  exists k, res. simpl in *. repeat split; try done.
  - intros j Hj. apply Hlimited. lia.
  - apply Forall_fmap, Forall_forall. intros j _. apply backoff_delay_range.
Qed.

(** ** The import, record by record *)

(** One pass of the import loop either skips the identifier, which the
    registry does not serve, or stores the record that importing this
    identifier alone into an empty base gives. *)
Lemma populate_step_alone registry today tadirah_map self k self' :
  populate_step registry today tadirah_map self k = Ok self' ->
  (served registry k = false /\ self' = self)
  \/ (served registry k = true
      /\ exists e,
           populate_step registry today tadirah_map empty_base k
           = Ok (mkExpertBase [(k, VDict (properties e))] [(k, e)])
           /\ base self' = dict_set k e (base self)).
Proof.
  intros H. unfold populate_step in *. unfold served, answered.
  destruct (fetch_orcid_data registry k "person") as [person|]; simpl in *; [|done].
  destruct (fetch_orcid_data registry k "activities") as [acts|]; simpl in *; [|done].
  destruct (is_none person); simpl in *; [left; split; [done|by injection H]|].
  destruct (is_none acts); simpl in *; [left; split; [done|by injection H]|].
  right. split; [done|].
  repeat match type of H with
         | (?m ≫= _) = Ok _ => destruct m; simpl in *; [|discriminate H]
         end.
  injection H as <-. eexists (mkExpert k _). split; reflexivity.
Qed.

Lemma populate_loop_alone registry today tadirah_map (orcids : list string) :
  forall self self',
    for_each (populate_step registry today tadirah_map) orcids self = Ok self' ->
    (forall k, k ∈ dict_keys (base self')
               <-> k ∈ dict_keys (base self)
                   \/ (k ∈ orcids /\ served registry k = true))
    /\ (forall k e,
          dict_get k (base self') = Some e ->
          dict_get k (base self) = Some e
          \/ populate_step registry today tadirah_map empty_base k
             = Ok (mkExpertBase [(k, VDict (properties e))] [(k, e)])).
Proof.
  induction orcids as [|k0 orcids IH]; intros self self' Hrun.
  - simpl in Hrun. injection Hrun as <-. split.
    + intros k. split; [by left|]. intros [H|[H _]]; [done|by apply elem_of_nil in H].
    + intros k e He. by left.
  - rewrite for_each_cons in Hrun.
    destruct (populate_step registry today tadirah_map self k0) as [self1|] eqn:Hstep;
      simpl in Hrun; [|done].
    destruct (IH _ _ Hrun) as [Hkeys Hrecords].
    destruct (populate_step_alone _ _ _ _ _ _ Hstep)
      as [[Hskip ->]|(Hserved & e0 & Halone & Hbase)].
    + split.
      * intros k. rewrite Hkeys, elem_of_cons. split.
        -- intros [H|[H1 H2]]; [by left|]. right. split; [by right|done].
        -- intros [H|[[->|H1] H2]]; [by left|congruence|]. right. by split.
      * done.
    + split.
      * intros k. rewrite Hkeys, Hbase, dict_keys_set_elem, elem_of_cons. split.
        -- intros [[->|H]|[H1 H2]]; [right; split; [by left|done]|by left|].
           right. split; [by right|done].
        -- intros [H|[[->|H1] H2]]; [left; by right|left; by left|]. right. by split.
      * intros k e He. destruct (Hrecords _ _ He) as [Hold|Hnew]; [|by right].
        rewrite Hbase in Hold. destruct (decide (k0 = k)) as [->|Hne].
        -- rewrite dict_get_set_eq in Hold. injection Hold as ->. by right.
        -- rewrite dict_get_set_ne in Hold by done. by left.
Qed.

(** X13: the import, record by record.  After a successful import into
    an empty base, the identifiers held are exactly the identifiers of the
    CSV that the registry serves on both endpoints, and the record kept
    for an identifier is the one that a single pass of the loop for this
    identifier stores into an empty base, with the tag map of the file: it
    depends neither on the records imported before, nor on the answers for
    other identifiers, nor on how often the identifier occurs. *)
Theorem populate_from_csv_record_by_record registry today csv self :
  populate_from_csv registry today csv empty_base = Ok self ->
  exists orcids tadirah_map,
    read_orcids_from_csv csv = Ok orcids
    /\ create_tadirah_map csv = Ok tadirah_map
    /\ (forall k, k ∈ get_orcids_as_list self
                  <-> k ∈ orcids /\ served registry k = true)
    /\ (forall k e,
          dict_get k (get_base self) = Some e ->
          populate_step registry today tadirah_map empty_base k
          = Ok (mkExpertBase [(k, VDict (properties e))] [(k, e)])).
Proof.
  intros H. unfold populate_from_csv in H.
  destruct (read_orcids_from_csv csv) as [orcids|]; simpl in H; [|done].
  destruct (create_tadirah_map csv) as [tadirah_map|]; simpl in H; [|done].
  destruct (populate_loop_alone _ _ _ _ _ _ H) as [Hkeys Hrecords].
  exists orcids, tadirah_map. split; [done|]. split; [done|]. split.
  - intros k. unfold get_orcids_as_list. rewrite Hkeys. split.
    + intros [Hk|Hk]; [by apply elem_of_nil in Hk|done].
    + intros Hk. by right.
  - intros k e He. by destruct (Hrecords _ _ He) as [Hold|Hnew].
Qed.

Lemma populate_from_csv_record_by_record_witness :
  exists self,
    populate_from_csv (registry_with_first (Http 404 None)) (Date 2024 6 15)
                      two_identifiers empty_base = Ok self
    /\ ("0000-0002" ∈ get_orcids_as_list self)
    /\ ("0000-0001" ∉ get_orcids_as_list self).
Proof.
  destruct (populate_from_csv (registry_with_first (Http 404 None)) (Date 2024 6 15)
              two_identifiers empty_base) as [self|] eqn:Hrun;
    [|vm_compute in Hrun; discriminate Hrun].
  exists self. split; [reflexivity|].
  destruct (populate_from_csv_record_by_record _ _ _ _ Hrun)
    as (orcids & tadirah_map & Hread & _ & Hkeys & _).
  vm_compute in Hread. injection Hread as <-. split.
  - apply Hkeys. split; [|reflexivity]. right. left.
  - intros Hk. apply Hkeys in Hk as [_ Hk]. vm_compute in Hk. discriminate Hk.
Defined.

(** ** The supplementary table, as a whole *)

Lemma preserved_refl ks ps self : preserved ks ps self self.
Proof.
  repeat split; try done.
  - intros k e He. by exists e.
  - intros k d Hd. by exists d.
Qed.

Lemma preserved_trans ks ps s1 s2 s3 :
  preserved ks ps s1 s2 -> preserved ks ps s2 s3 -> preserved ks ps s1 s3.
Proof.
  intros (Hk1 & Ho1 & Hb1 & Hr1) (Hk2 & Ho2 & Hb2 & Hr2). split; [congruence|].
  split; [|split].
  - intros k Hk. destruct (Ho1 k Hk) as [<- <-]. by apply Ho2.
  - intros k e He. destruct (Hb1 _ _ He) as (e1 & He1 & Hid1 & Hp1).
    destruct (Hb2 _ _ He1) as (e2 & He2 & Hid2 & Hp2).
    exists e2. split; [done|]. split; [congruence|].
    intros p Hp. rewrite Hp2, Hp1; done.
  - intros k d Hd. destruct (Hr1 _ _ Hd) as (d1 & Hd1 & Hp1).
    destruct (Hr2 _ _ Hd1) as (d2 & Hd2 & Hp2).
    exists d2. split; [done|]. intros p Hp. rewrite Hp2, Hp1; done.
Qed.

Lemma preserved_weaken (ks ks' ps ps' : string -> Prop) self self' :
  (forall k, ks k -> ks' k) -> (forall p, ps p -> ps' p) ->
  preserved ks ps self self' -> preserved ks' ps' self self'.
Proof.
  intros Hks Hps (Hk & Ho & Hb & Hr). split; [done|]. split; [|split].
  - intros k Hk'. apply Ho. contradict Hk'. by apply Hks.
  - intros k e He. destruct (Hb _ _ He) as (e' & He' & Hid & Hp).
    exists e'. split; [done|]. split; [done|].
    intros p Hp'. apply Hp. contradict Hp'. by apply Hps.
  - intros k d Hd. destruct (Hr _ _ Hd) as (d' & Hd' & Hp).
    exists d'. split; [done|]. intros p Hp'. apply Hp. contradict Hp'. by apply Hps.
Qed.

Lemma set_property_preserved k p c self self' :
  set_property k p c self = Ok self' ->
  preserved (fun k' => k' = k) (fun p' => p' = p) self self'.
Proof.
  intros H. unfold set_property, dict_getitem in H.
  destruct (dict_get k (base self)) as [e|] eqn:He; simpl in H; [|done].
  destruct (dict_get k (raw_base self)) as [mirror|] eqn:Hm; simpl in H; [|done].
  destruct mirror as [| | | | |d]; try done. injection H as <-.
  unfold preserved. simpl. split; [|split; [|split]].
  - apply dict_keys_set_mem. by eapply dict_get_Some_key.
  - intros k' Hk'. by rewrite !dict_get_set_ne by done.
  - intros k' e' He'. destruct (decide (k = k')) as [<-|Hne].
    + rewrite dict_get_set_eq. eexists. split; [done|]. split.
      * simpl. congruence.
      * intros p' Hp'. simpl. rewrite dict_get_set_ne by done. congruence.
    + rewrite dict_get_set_ne by done. by exists e'.
  - intros k' d' Hd'. destruct (decide (k = k')) as [<-|Hne].
    + rewrite dict_get_set_eq. eexists. split; [done|].
      intros p' Hp'. rewrite dict_get_set_ne by done. congruence.
    + rewrite dict_get_set_ne by done. by exists d'.
Qed.

Lemma for_each_preserved {A : Type} (body : ExpertBase -> A -> result ExpertBase)
    (ks ps : string -> Prop) (l : list A) :
  (forall self x self', x ∈ l -> body self x = Ok self' -> preserved ks ps self self') ->
  forall self self', for_each body l self = Ok self' -> preserved ks ps self self'.
Proof.
  induction l as [|x l IH]; intros Hbody self self' Hrun.
  - simpl in Hrun. injection Hrun as <-. apply preserved_refl.
  - rewrite for_each_cons in Hrun.
    destruct (body self x) as [self1|] eqn:Hx; simpl in Hrun; [|done].
    eapply preserved_trans.
    + eapply Hbody; [left|done].
    + apply IH; [|done]. intros ? ? ? ?. apply Hbody. by right.
Qed.

Lemma merge_row_preserved header orcids self row self' :
  merge_row header orcids self row = Ok self' ->
  preserved (fun k => row_names k row = true) (fun p => p ∈ tail header) self self'.
Proof.
  intros H. unfold merge_row, cell in H.
  destruct (row !! 0%nat) as [first|] eqn:Hfirst; simpl in H; [|done].
  destruct (bool_decide _); [|injection H as <-; apply preserved_refl].
  destruct (dict_getitem (base self) _); simpl in H; [|done].
  revert H. apply for_each_preserved. intros s [i p] s' Hin Hcell.
  unfold merge_cell in Hcell. simpl in Hcell.
  destruct (cell row i) as [c|]; simpl in Hcell; [|done].
  destruct (String.eqb c ""); [injection Hcell as <-; apply preserved_refl|].
  apply set_property_preserved in Hcell.
  eapply preserved_weaken; [| |exact Hcell].
  - intros k ->. unfold row_names. rewrite Hfirst. apply String.eqb_refl.
  - intros p' ->. clear -Hin. revert Hin. generalize 1%nat.
    induction (tail header) as [|x l IH]; intros n Hin; simpl in Hin.
    + by apply elem_of_nil in Hin.
    + apply elem_of_cons in Hin as [[= _ ->]|Hin]; [left|right; by eapply IH].
Qed.

(** X14: what a supplementary table leaves alone.  Whenever
    [add_properties_from_csv] returns, the base holds the same
    identifiers in the same order; a record that no data row names is
    unchanged, in the base and in the raw store; and in every record and
    raw entry each field that the header does not name after its first
    column keeps its value. *)
Theorem add_properties_from_csv_preserves (header : list string)
    (rows : list (list string)) (self self' : ExpertBase) :
  add_properties_from_csv (header :: rows) self = Ok self' ->
  preserved (fun k => exists row, row ∈ rows /\ row_names k row = true)
            (fun p => p ∈ tail header) self self'.
Proof.
  intros H. unfold add_properties_from_csv in H.
  destruct (length header <? 2)%nat; [injection H as <-; apply preserved_refl|].
  destruct (cell header 0) as [h|]; simpl in H; [|done].
  destruct (negb _); [injection H as <-; apply preserved_refl|].
  revert H. apply for_each_preserved. intros s row s' Hin Hrow.
  apply merge_row_preserved in Hrow.
  eapply preserved_weaken; [| |exact Hrow]; [|done].
  intros k Hk. by exists row.
Qed.

Lemma add_properties_from_csv_preserves_witness :
  add_properties_from_csv [sample_header; sample_row] sample_base
  = Ok (mkExpertBase
          [("0000-0001",
            VDict [("Vorname", VStr "Ada"); ("Ort", VStr "London"); ("Titel", VStr "Dr.")])]
          [("0000-0001",
            mkExpert "0000-0001"
              [("Vorname", VStr "Ada"); ("Ort", VStr "London"); ("Titel", VStr "Dr.")])])
  /\ preserved (fun k => exists row, row ∈ [sample_row] /\ row_names k row = true)
               (fun p => p ∈ tail sample_header) sample_base
       (mkExpertBase
          [("0000-0001",
            VDict [("Vorname", VStr "Ada"); ("Ort", VStr "London"); ("Titel", VStr "Dr.")])]
          [("0000-0001",
            mkExpert "0000-0001"
              [("Vorname", VStr "Ada"); ("Ort", VStr "London"); ("Titel", VStr "Dr.")])]).
Proof.
  split; [reflexivity|].
  exact (add_properties_from_csv_preserves sample_header [sample_row] sample_base _ eq_refl).
Defined.

(** ** Loading any document *)

Lemma stored_expert_outcome k v :
  match stored_expert k v with
  | Ok e => is_object v = true /\ orcid e = k
            /\ dict_keys (properties e) = registry_fields
  | Raise err => err = AttributeError /\ is_object v = false
  end.
Proof. by destruct v. Qed.

Lemma load_loop_outcome (entries : dict value) :
  forall b : dict Expert,
    match for_each load_step entries b with
    | Ok b' =>
        Forall (fun item : string * value => is_object item.2 = true) entries
        /\ (forall k, k ∈ dict_keys b' <-> k ∈ dict_keys b \/ k ∈ dict_keys entries)
        /\ (forall k e,
              dict_get k b' = Some e ->
              dict_get k b = Some e
              \/ (k ∈ dict_keys entries /\ orcid e = k
                  /\ dict_keys (properties e) = registry_fields))
    | Raise err =>
        err = AttributeError
        /\ Exists (fun item : string * value => is_object item.2 = false) entries
    end.
Proof.
  induction entries as [|[k0 v0] entries IH]; intros b.
  - simpl. split; [done|]. split.
    + intros k. split; [by left|]. intros [H|H]; [done|by apply elem_of_nil in H].
    + intros k e He. by left.
  - rewrite for_each_cons.
    change (load_step b (k0, v0))
      with (stored_expert k0 v0 ≫= fun new_expert => Ok (dict_set k0 new_expert b)).
    pose proof (stored_expert_outcome k0 v0) as Hone.
    destruct (stored_expert k0 v0) as [e0|err]; simpl.
    + destruct Hone as (Hobj & Hid & Hfields). specialize (IH (dict_set k0 e0 b)).
      destruct (for_each load_step entries (dict_set k0 e0 b)) as [b'|err].
      * destruct IH as (Hall & Hkeys & Hrecords). split; [by constructor|]. split.
        -- intros k. rewrite Hkeys, dict_keys_set_elem, elem_of_cons. tauto.
        -- intros k e He. destruct (Hrecords _ _ He) as [Hold|(Hin & Hk & Hf)].
           ++ destruct (decide (k0 = k)) as [->|Hne].
              ** rewrite dict_get_set_eq in Hold. injection Hold as <-.
                 right. split; [left|done].
              ** rewrite dict_get_set_ne in Hold by done. by left.
           ++ right. split; [by right|done].
      * destruct IH as [-> Hex]. split; [done|]. by right.
    + destruct Hone as [-> Hobj]. split; [done|]. by left.
Qed.

(** X15: loading any document.  [deserialize_expertbase] fails only
    with [AttributeError], and exactly when the document is not an object
    or one of its values is not an object.  Otherwise the raw store is the
    document, the base holds the identifiers it held before together with
    the keys of the document (the base is not emptied first), and every
    record that was loaded carries its key as identifier and exactly the
    five registry fields: a tag field or a supplementary field of the
    document is not loaded into the record. *)
Theorem deserialize_expertbase_outcome (document : json_document) (self : ExpertBase) :
  match deserialize_expertbase document self with
  | Ok self' =>
      exists entries,
        document = VDict entries
        /\ Forall (fun item : string * value => is_object item.2 = true) entries
        /\ raw_base self' = entries
        /\ (forall k, k ∈ get_orcids_as_list self'
                      <-> k ∈ get_orcids_as_list self \/ k ∈ dict_keys entries)
        /\ (forall k e,
              dict_get k (base self') = Some e ->
              dict_get k (base self) = Some e
              \/ (k ∈ dict_keys entries /\ orcid e = k
                  /\ dict_keys (properties e) = registry_fields))
  | Raise err =>
      err = AttributeError
      /\ (is_object document = false
          \/ exists entries,
               document = VDict entries
               /\ Exists (fun item : string * value => is_object item.2 = false) entries)
  end.
Proof.
  unfold deserialize_expertbase.
  destruct document as [| | | | |entries]; try (split; [done|by left]).
  pose proof (load_loop_outcome entries (base self)) as Hloop.
  destruct (for_each load_step entries (base self)) as [b'|err]; simpl.
  - destruct Hloop as (Hall & Hkeys & Hrecords). by exists entries.
  - destruct Hloop as [-> Hex]. split; [done|]. right. by exists entries.
Qed.

(** ** The formatted keywords and the stored list *)

Lemma map_each_titled (l : list string) :
  map_each Store.titled (Store.RStr <$> l) = Ok (title <$> l).
Proof.
  induction l as [|s l IH]; [done|]. rewrite !fmap_cons. cbn [map_each].
  rewrite IH. done.
Qed.

Lemma list_setitem_strings (h : list Store.object) (l : nat)
    (seen : list string) (k k' : string) (rest : list string) :
  h !! l = Some (Store.OList (Store.RStr <$> (seen ++ k :: rest)%list)) ->
  Store.list_setitem h l (length seen) (Store.RStr k')
  = Ok (<[l := Store.OList (Store.RStr <$> ((seen ++ [k']) ++ rest)%list)]> h).
Proof.
  intros Hl. unfold Store.list_setitem. rewrite Hl.
  rewrite length_fmap, length_app, length_cons.
  destruct (Nat.ltb_spec (length seen) (length seen + S (length rest))); [|lia].
  do 3 f_equal. rewrite <- list_fmap_insert. f_equal.
  replace (length seen) with (length seen + 0)%nat at 1 by lia.
  rewrite insert_app_r. simpl. by rewrite <- app_assoc.
Qed.

(** The loop over a list of strings: after the keywords [pre], which it
    can clean, the list in the store holds them cleaned. *)
Lemma clean_list_strings (pre : list string) :
  forall (h : list Store.object) (l : nat) (seen pre' rest : list string),
    map_each clean_keyword pre = Ok pre' ->
    h !! l = Some (Store.OList (Store.RStr <$> (seen ++ pre ++ rest)%list)) ->
    Store.clean_list h l (length seen) (Store.RStr <$> (pre ++ rest)%list)
    = Store.clean_list
        (<[l := Store.OList (Store.RStr <$> (seen ++ pre' ++ rest)%list)]> h) l
        (length seen + length pre) (Store.RStr <$> rest).
Proof.
  induction pre as [|k pre IH]; intros h l seen pre' rest Hclean Hl.
  - simpl in Hclean. injection Hclean as <-. simpl.
    rewrite Nat.add_0_r. by rewrite list_insert_id.
  - cbn [map_each] in Hclean.
    destruct (clean_keyword k) as [k'|] eqn:Hk; simpl in Hclean; [|done].
    destruct (map_each clean_keyword pre) as [pre0|] eqn:Hpre; simpl in Hclean; [|done].
    injection Hclean as <-.
    assert (l < length h)%nat as Hlt by (by eapply lookup_lt_Some).
    destruct k as [|c k]; [done|]. unfold clean_keyword in Hk.
    rewrite <- app_comm_cons, fmap_cons. cbn [Store.clean_list Store.needs_cleaning].
    destruct (negb (is_alnum c)); injection Hk as <-.
    + cbn [Store.replaced].
      rewrite (list_setitem_strings h l seen (String c k) _ (pre ++ rest) Hl).
      set (k' := remove_char "#" (remove_char ")" (remove_char "(" (String c k)))).
      replace (S (length seen)) with (length (seen ++ [k'])%list)
        by (rewrite length_app; simpl; lia).
      rewrite (IH _ l (seen ++ [k'])%list pre0 rest eq_refl).
      * rewrite list_insert_insert_eq, length_app, <- !app_assoc. cbn [app length].
        f_equal. lia.
      * by rewrite list_lookup_insert_eq.
    + replace (S (length seen)) with (length (seen ++ [String c k])%list)
        by (rewrite length_app; simpl; lia).
      rewrite (IH h l (seen ++ [String c k])%list pre0 rest eq_refl).
      * rewrite length_app, <- !app_assoc. cbn [app length]. f_equal. lia.
      * by rewrite <- app_assoc.
Qed.

Lemma format_list_strings (h : list Store.object) (l : nat) (ks : list string) :
  h !! l = Some (Store.OList (Store.RStr <$> ks)) ->
  (forall cleaned,
      map_each clean_keyword ks = Ok cleaned ->
      Store.format_list h l
      = (<[l := Store.OList (Store.RStr <$> cleaned)]> h,
         Ok (Store.RStr (join ";" (title <$> cleaned)))))
  /\ (forall pre pre' post,
        ks = (pre ++ "" :: post)%list ->
        map_each clean_keyword pre = Ok pre' ->
        Store.format_list h l
        = (<[l := Store.OList (Store.RStr <$> (pre' ++ "" :: post)%list)]> h,
           Raise IndexError)).
Proof.
  intros Hl. assert (l < length h)%nat as Hlt by (by eapply lookup_lt_Some).
  split.
  - intros cleaned Hclean. unfold Store.format_list. rewrite Hl.
    pose proof (clean_list_strings ks h l [] cleaned [] Hclean) as Hloop.
    rewrite !app_nil_r in Hloop. simpl in Hloop. rewrite Hloop by done. simpl.
    by rewrite list_lookup_insert_eq, map_each_titled.
  - intros pre pre' post -> Hclean. unfold Store.format_list. rewrite Hl.
    pose proof (clean_list_strings pre h l [] pre' ("" :: post) Hclean) as Hloop.
    simpl in Hloop. rewrite Hloop by done. done.
Qed.

(** X16: the formatted mode of [get_research_interest] rewrites the
    stored keywords.  When the field refers to a list of ASCII strings that
    is not split at commas and every keyword is non-empty, the call returns
    the keywords cleaned, capitalised and joined, as the value-level
    reading has it, and the list object in the store then holds the
    cleaned keywords: a later call in unformatted mode returns that very
    list. *)
Theorem get_research_interest_in_place (h : list Store.object) (self : nat)
    (id : string) (props : nat) (entries : dict Store.ref_value) (l : nat)
    (keywords cleaned : list string) :
  h !! self = Some (Store.OExpert id props) ->
  h !! props = Some (Store.ODict entries) ->
  dict_get "Forschungsinteressen" entries = Some (Store.RRef l) ->
  h !! l = Some (Store.OList (Store.RStr <$> keywords)) ->
  Forall (fun k => is_ascii k = true) keywords ->
  (forall k, keywords = [k] -> contains_char "," k = false) ->
  map_each clean_keyword keywords = Ok cleaned ->
  let h' := <[l := Store.OList (Store.RStr <$> cleaned)]> h in
  Store.get_research_interest h self true
  = Some (h', Ok (Store.RStr (join ";" (title <$> cleaned))))
  /\ get_research_interest true
       (mkExpert id [("Forschungsinteressen", VList (VStr <$> keywords))])
     = Ok (VStr (join ";" (title <$> cleaned)))
  /\ Store.get_research_interest h' self false = Some (h', Ok (Store.RRef l))
  /\ h' !! l = Some (Store.OList (Store.RStr <$> cleaned)).
Proof.
  intros Hself Hprops Hfield Hl _ Hsplit Hclean h'.
  assert (l < length h)%nat as Hlt by (by eapply lookup_lt_Some).
  assert (l ≠ self) as Hls by (intros ->; congruence).
  assert (l ≠ props) as Hlp by (intros ->; congruence).
  destruct (format_list_strings h l keywords Hl) as [Hformat _].
  specialize (Hformat cleaned Hclean).
  repeat split.
  - unfold Store.get_research_interest. rewrite Hself, Hprops, Hfield, Hl.
    assert (Store.format_stored_list h l (Store.RStr <$> keywords)
            = Store.format_list h l) as ->; [|by rewrite Hformat].
    clear -Hsplit. destruct keywords as [|k [|k2 keywords]]; try done.
    simpl. by rewrite (Hsplit k eq_refl).
  - unfold get_research_interest. simpl. rewrite as_strings_texts. simpl.
    unfold format_keywords.
    assert (match keywords with
            | [k] => if contains_char "," k then strip <$> split_on "," k else [k]
            | _ => keywords
            end = keywords) as ->.
    { destruct keywords as [|k [|k2 keywords]]; try done.
      by rewrite (Hsplit k eq_refl). }
    by rewrite Hclean.
  - unfold Store.get_research_interest, h'.
    rewrite list_lookup_insert_ne, Hself by done.
    by rewrite list_lookup_insert_ne, Hprops, Hfield by done.
  - unfold h'. by rewrite list_lookup_insert_eq.
Qed.

Lemma get_research_interest_in_place_witness :
  Store.get_research_interest Store.keyword_heap 2 true
  = Some ([Store.OList [Store.RStr "NLP"; Store.RStr "history"];
           Store.ODict [("Forschungsinteressen", Store.RRef 0%nat)];
           Store.OExpert "0000-0001" 1%nat],
          Ok (Store.RStr "Nlp;History")).
Proof.
  exact (proj1 (get_research_interest_in_place Store.keyword_heap 2 "0000-0001" 1
    [("Forschungsinteressen", Store.RRef 0%nat)] 0 ["(NLP)"; "history"]
    ["NLP"; "history"] eq_refl eq_refl eq_refl eq_refl
    (Forall_cons_2 (fun k => is_ascii k = true) "(NLP)" ["history"] eq_refl
       (Forall_cons_2 (fun k => is_ascii k = true) "history" [] eq_refl
          (Forall_nil_2 _)))
    (fun k H => match H in _ = y return match y with [_] => _ | _ => True end with
                | eq_refl => I end)
    eq_refl)).
Defined.

(** X17: an exception does not undo the writes.  When the stored list
    holds an empty keyword after ASCII keywords, the formatted mode raises
    [IndexError] at it, and the keywords before it stay cleaned in the
    store. *)
Theorem get_research_interest_keeps_writes (h : list Store.object) (self : nat)
    (id : string) (props : nat) (entries : dict Store.ref_value) (l : nat)
    (pre pre' post : list string) :
  h !! self = Some (Store.OExpert id props) ->
  h !! props = Some (Store.ODict entries) ->
  dict_get "Forschungsinteressen" entries = Some (Store.RRef l) ->
  h !! l = Some (Store.OList (Store.RStr <$> (pre ++ "" :: post)%list)) ->
  Forall (fun k => is_ascii k = true) pre ->
  map_each clean_keyword pre = Ok pre' ->
  Store.get_research_interest h self true
  = Some (<[l := Store.OList (Store.RStr <$> (pre' ++ "" :: post)%list)]> h,
          Raise IndexError).
Proof.
  intros Hself Hprops Hfield Hl _ Hclean.
  destruct (format_list_strings h l _ Hl) as [_ Hformat].
  specialize (Hformat pre pre' post eq_refl Hclean).
  unfold Store.get_research_interest. rewrite Hself, Hprops, Hfield, Hl.
  assert (Store.format_stored_list h l (Store.RStr <$> (pre ++ "" :: post)%list)
          = Store.format_list h l) as ->; [|by rewrite Hformat].
  clear. destruct pre as [|k [|k2 pre]]; try done. by destruct post.
Qed.

Lemma get_research_interest_keeps_writes_witness :
  Store.get_research_interest
    [Store.OList [Store.RStr "(NLP)"; Store.RStr ""; Store.RStr "#x"];
     Store.ODict [("Forschungsinteressen", Store.RRef 0%nat)];
     Store.OExpert "0000-0001" 1%nat] 2 true
  = Some ([Store.OList [Store.RStr "NLP"; Store.RStr ""; Store.RStr "#x"];
           Store.ODict [("Forschungsinteressen", Store.RRef 0%nat)];
           Store.OExpert "0000-0001" 1%nat],
          Raise IndexError).
Proof.
  exact (get_research_interest_keeps_writes
    [Store.OList [Store.RStr "(NLP)"; Store.RStr ""; Store.RStr "#x"];
     Store.ODict [("Forschungsinteressen", Store.RRef 0%nat)];
     Store.OExpert "0000-0001" 1%nat] 2 "0000-0001" 1
    [("Forschungsinteressen", Store.RRef 0%nat)] 0 ["(NLP)"] ["NLP"] ["#x"]
    eq_refl eq_refl eq_refl eq_refl (Forall_cons_2 (fun k => is_ascii k = true) "(NLP)" [] eq_refl (Forall_nil_2 _))
    eq_refl).
Defined.

Lemma map_each_clean_cases (ks : list string) :
  (exists cleaned, map_each clean_keyword ks = Ok cleaned)
  \/ (exists pre pre' post,
        ks = (pre ++ "" :: post)%list
        /\ map_each clean_keyword pre = Ok pre'
        /\ map_each clean_keyword ks = Raise IndexError).
Proof.
  induction ks as [|k ks IH].
  - left. by exists [].
  - destruct k as [|c k].
    + right. by exists [], [], ks.
    + assert (exists k', clean_keyword (String c k) = Ok k') as [k' Hk].
      { unfold clean_keyword. destruct (negb (is_alnum c)); by eexists. }
      destruct IH as [[cleaned Hc]|(pre & pre' & post & -> & Hpre & Hraise)].
      * left. exists (k' :: cleaned). cbn [map_each]. by rewrite Hk, Hc.
      * right. exists (String c k :: pre), (k' :: pre'), post.
        split; [done|]. cbn [map_each]. rewrite Hk. simpl.
        split; [by rewrite Hpre|]. by rewrite Hraise.
Qed.

(** X18: the comma-separated single entry.  When the stored list is one
    ASCII entry with a comma, the formatted mode works on a new list: the
    objects of the store, the stored list among them, stay as they were,
    and the result, value or exception, is that of the value-level
    reading. *)
Theorem get_research_interest_split (h : list Store.object) (self : nat)
    (id : string) (props : nat) (entries : dict Store.ref_value) (l : nat)
    (k : string) :
  h !! self = Some (Store.OExpert id props) ->
  h !! props = Some (Store.ODict entries) ->
  dict_get "Forschungsinteressen" entries = Some (Store.RRef l) ->
  h !! l = Some (Store.OList [Store.RStr k]) ->
  is_ascii k = true ->
  contains_char "," k = true ->
  exists parts,
    Store.get_research_interest h self true
    = Some ((h ++ [Store.OList (Store.RStr <$> parts)])%list,
            Store.RStr <$> format_keywords [k]).
Proof.
  intros Hself Hprops Hfield Hl _ Hcomma.
  unfold Store.get_research_interest. rewrite Hself, Hprops, Hfield, Hl.
  unfold Store.format_stored_list, Store.contains_comma. rewrite Hcomma.
  unfold Store.format_split, Store.alloc, format_keywords. rewrite Hcomma.
  set (ks := strip <$> split_on "," k).
  assert ((h ++ [Store.OList (Store.RStr <$> ks)])%list !! length h
          = Some (Store.OList (Store.RStr <$> ks))) as Hnew.
  { by rewrite lookup_app_r, Nat.sub_diag by lia. }
  assert (forall x, <[length h := x]> (h ++ [Store.OList (Store.RStr <$> ks)])%list
                    = (h ++ [x])%list) as Hput.
  { intros x. replace (length h) with (length h + 0)%nat at 1 by lia.
    by rewrite insert_app_r. }
  destruct (format_list_strings _ _ ks Hnew) as [Hok Hraise].
  destruct (map_each_clean_cases ks)
    as [[cleaned Hc]|(pre & pre' & post & Hks & Hpre & Hc)].
  - exists cleaned. rewrite (Hok cleaned Hc), Hput, Hc. done.
  - exists (pre' ++ "" :: post)%list. rewrite (Hraise pre pre' post Hks Hpre), Hput, Hc.
    done.
Qed.

Lemma get_research_interest_split_witness :
  exists parts,
    Store.get_research_interest
      [Store.OList [Store.RStr "(nlp), history"];
       Store.ODict [("Forschungsinteressen", Store.RRef 0%nat)];
       Store.OExpert "0000-0001" 1%nat] 2 true
    = Some (([Store.OList [Store.RStr "(nlp), history"];
              Store.ODict [("Forschungsinteressen", Store.RRef 0%nat)];
              Store.OExpert "0000-0001" 1%nat]
             ++ [Store.OList (Store.RStr <$> parts)])%list,
            Store.RStr <$> format_keywords ["(nlp), history"]).
Proof.
  exact (get_research_interest_split
    [Store.OList [Store.RStr "(nlp), history"];
     Store.ODict [("Forschungsinteressen", Store.RRef 0%nat)];
     Store.OExpert "0000-0001" 1%nat] 2 "0000-0001" 1
    [("Forschungsinteressen", Store.RRef 0%nat)] 0 "(nlp), history"
    eq_refl eq_refl eq_refl eq_refl eq_refl eq_refl).
Defined.

(** ** The first address and the list accessors *)

(** X19: [extract_mail] returns the empty string for a record without
    an ["emails"] entry or with an empty address list, and otherwise the
    ["email"] of the first address only.  Since the subscript is guarded by
    the truth value of the list it never raises [IndexError]; what it can
    raise are the exceptions of reading an entry of an unexpected shape,
    [AttributeError] for an ["emails"] that is [null] among them. *)
Theorem extract_mail_spec :
  (forall d, dict_get "emails" d = None -> extract_mail (VDict d) = Ok (VStr ""))
  /\ (forall d emails,
        dict_get "emails" d = Some (VDict emails) ->
        dict_get "email" emails = None \/ dict_get "email" emails = Some (VList []) ->
        extract_mail (VDict d) = Ok (VStr ""))
  /\ (forall d emails first others,
        dict_get "emails" d = Some (VDict emails) ->
        dict_get "email" emails = Some (VList (VDict first :: others)) ->
        extract_mail (VDict d) = Ok (default (VStr "") (dict_get "email" first)))
  /\ (forall d, dict_get "emails" d = Some VNone ->
                extract_mail (VDict d) = Raise AttributeError)
  /\ (forall data, value_or_shape_error (extract_mail data) = true).
Proof.
  split; [|split; [|split; [|split]]].
  - intros d Hd. unfold extract_mail. simpl. by rewrite Hd.
  - intros d emails Hd [He|He]; unfold extract_mail; simpl; rewrite Hd; simpl;
      by rewrite He.
  - intros d emails first others Hd He. unfold extract_mail. simpl.
    rewrite Hd. simpl. by rewrite He.
  - intros d Hd. unfold extract_mail. simpl. by rewrite Hd.
  - intros data. unfold extract_mail.
    destruct data as [| | | | |d]; try done. simpl.
    destruct (default (VDict []) (dict_get "emails" d)) as [| | | | |emails];
      try done. simpl.
    destruct (default (VList []) (dict_get "email" emails)) as [|b|z|s|l|d'];
      try done; simpl.
    + by destruct b.
    + by destruct (negb (z =? 0)).
    + by destruct s.
    + destruct l as [|first l]; [done|]. by destruct first.
    + by destruct d'.
Qed.

(** X20: the two list accessors line up.  After an import into an empty
    base, and after a supplementary table on top of it, the identifiers
    returned by [get_orcids_as_list] are pairwise different and are, in
    order, the identifiers of the records returned by
    [get_expert_as_list]; the raw store that [serialize_expertbase] writes
    holds, under the same identifiers in the same order, the properties of
    these records. *)
Theorem expert_lists_agree registry today csv overrides (self self1 : ExpertBase) :
  populate_from_csv registry today csv empty_base = Ok self ->
  add_properties_from_csv overrides self = Ok self1 ->
  (get_orcid <$> get_expert_as_list self = get_orcids_as_list self
   /\ NoDup (get_orcids_as_list self)
   /\ serialize_expertbase self
      = VDict (zip (get_orcids_as_list self)
                   (VDict ∘ properties <$> get_expert_as_list self)))
  /\ (get_orcid <$> get_expert_as_list self1 = get_orcids_as_list self1
      /\ NoDup (get_orcids_as_list self1)
      /\ serialize_expertbase self1
         = VDict (zip (get_orcids_as_list self1)
                      (VDict ∘ properties <$> get_expert_as_list self1))).
Proof.
  intros Hpop Hadd.
  assert (forall s, faithful_mirror s ->
            get_orcid <$> get_expert_as_list s = get_orcids_as_list s
            /\ NoDup (get_orcids_as_list s)
            /\ serialize_expertbase s
               = VDict (zip (get_orcids_as_list s)
                            (VDict ∘ properties <$> get_expert_as_list s))) as Hgen.
  { intros s (Hraw & Hnodup & Hall). split; [|split; [done|]].
    - unfold get_expert_as_list, get_orcids_as_list, dict_values, dict_keys.
      rewrite <- list_fmap_compose. apply Forall_fmap_ext.
      eapply Forall_impl; [exact Hall|]. intros [k e] [Hk _]. exact Hk.
    - unfold serialize_expertbase, get_expert_as_list, get_orcids_as_list,
        dict_values, dict_keys.
      rewrite Hraw. f_equal. clear. induction (base s) as [|[k e] b IH]; [done|].
      rewrite !fmap_cons. cbn [zip zip_with]. by rewrite <- IH. }
  pose proof (populate_from_csv_faithful _ _ _ _ _ faithful_mirror_empty Hpop) as Hf.
  split; [by apply Hgen|].
  apply Hgen. by eapply add_properties_from_csv_faithful.
Qed.

Lemma expert_lists_agree_witness :
  exists self,
    populate_from_csv registry_complete (Date 2024 6 15)
      [["name"; "orcid"; "tadirah"]; ["Ada"; "0000-0001"; "Capture, Creation"]]
      empty_base = Ok self
    /\ get_orcid <$> get_expert_as_list self = ["0000-0001"].
Proof.
  destruct (populate_from_csv registry_complete (Date 2024 6 15)
              [["name"; "orcid"; "tadirah"]; ["Ada"; "0000-0001"; "Capture, Creation"]]
              empty_base) as [self|] eqn:Hpop;
    [|vm_compute in Hpop; discriminate Hpop].
  exists self. split; [reflexivity|].
  destruct (expert_lists_agree registry_complete (Date 2024 6 15) _
              [["name"]] self self Hpop eq_refl) as [[-> _] _].
  vm_compute in Hpop. injection Hpop as <-. reflexivity.
Defined.
